(** * sql-text-helper: csv_to_mysql.py and deduplicate_csv.py

    A shallow embedding of the two command-line tools and the properties
    their specification states about them.

    Conventions of the embedding.
    - A Python [str] is a [string]; its characters stand for the code points
      below 256.  [lower], [strip] and [repr] are the Python methods on that
      range.
    - A Python function that prints, touches the file system or raises is a
      computation of the monad [M]: it takes the [world] (file system, standard
      output, clock) and gives back an [outcome] and the new world.
    - [None] is [None] of [option]; a function returning [str] or [None]
      returns [option string].
    - Paths are POSIX paths, resolved component by component: repeated and
      trailing separators and single-dot components do not count.  Two-dot
      components and symbolic links are not modelled.
    - The text-to-records step of the [csv] module and the text-to-frame steps
      of pandas are library code: the tools are stated for every such function
      ([Section] variables), and run on concrete readers in the examples. *)

From Stdlib Require Import Ascii String NArith.
From stdpp Require Import base option list gmap strings pretty.

(** ** Python [str] methods *)

Module Str.

(** [str.lower] on one character: the capitals A..Z and the Latin-1
    capitals U+00C0..U+00DE (without the multiplication sign U+00D7) move
    down by 32; every other code point below 256 is its own lower case. *)
Definition lower_char (c : ascii) : ascii :=
  let n := N_of_ascii c in
  if ((65 <=? n) && (n <=? 90) || (192 <=? n) && (n <=? 222) && negb (n =? 215))%N
  then ascii_of_N (n + 32)
  else c.

Fixpoint lower (s : string) : string :=
  match s with
  | EmptyString => EmptyString
  | String c s' => String (lower_char c) (lower s')
  end.

(** [str.isspace] on one character: TAB..CR, FS..US, SPACE, NEL, NBSP. *)
Definition isspace (c : ascii) : bool :=
  let n := N_of_ascii c in
  ((9 <=? n) && (n <=? 13) || (28 <=? n) && (n <=? 32) || (n =? 133) || (n =? 160))%N.

Fixpoint lstrip (s : string) : string :=
  match s with
  | EmptyString => EmptyString
  | String c s' => if isspace c then lstrip s' else s
  end.

Fixpoint rstrip (s : string) : string :=
  match s with
  | EmptyString => EmptyString
  | String c s' =>
      match rstrip s' with
      | EmptyString => if isspace c then EmptyString else String c EmptyString
      | t => String c t
      end
  end.

(** [s.strip()] *)
Definition strip (s : string) : string := rstrip (lstrip s).

(** [s.replace(old, new)] for a one-character [old] and the empty [new],
    the only use in the sources: [.replace(' ', '')]. *)
Fixpoint remove_char (old : ascii) (s : string) : string :=
  match s with
  | EmptyString => EmptyString
  | String c s' =>
      if decide (c = old) then remove_char old s' else String c (remove_char old s')
  end.

(** [sep.join(parts)] *)
Definition join (sep : string) (parts : list string) : string :=
  String.concat sep parts.

(** [s.startswith(p)] *)
Definition startswith (s p : string) : bool := String.prefix p s.

(** [s.split(sep)] for a non-empty [sep]: the separators are found from the
    left and do not overlap.  [skip] counts the characters of a separator
    that has been found and is still to be passed over. *)
Fixpoint split_from (sep : string) (skip : nat) (s : string) : list string :=
  match s with
  | EmptyString => [EmptyString]
  | String c s' =>
      match skip with
      | S k => split_from sep k s'
      | O =>
          if String.prefix sep s
          then EmptyString :: split_from sep (String.length sep - 1) s'
          else match split_from sep 0 s' with
               | t :: ts => String c t :: ts
               | [] => [String c EmptyString]
               end
      end
  end.

Definition split (sep s : string) : list string := split_from sep 0 s.

(** [sub in s] *)
Fixpoint contains (sub s : string) : bool :=
  String.prefix sub s ||
  match s with
  | EmptyString => false
  | String _ s' => contains sub s'
  end.

(** [repr(s)]: single quotes unless [s] has a single quote and no double
    quote; the quote character and the backslash are escaped with a
    backslash, TAB, LF and CR by letter, the other unprintable code points
    as [\xhh]. *)
Definition squote : ascii := "'"%char.
Definition dquote : ascii := "034"%char.
Definition backslash : ascii := "\"%char.

Definition hex_digit (n : N) : ascii :=
  if (n <? 10)%N then ascii_of_N (48 + n) else ascii_of_N (87 + n).

Definition isprintable (c : ascii) : bool :=
  let n := N_of_ascii c in
  ((32 <=? n) && (n <? 127) || (161 <=? n) && negb (n =? 173))%N.

Fixpoint has_char (q : ascii) (s : string) : bool :=
  match s with
  | EmptyString => false
  | String c s' => if decide (c = q) then true else has_char q s'
  end.

Definition repr_char (quote c : ascii) : string :=
  let n := N_of_ascii c in
  if decide (c = quote) then String backslash (String c EmptyString)
  else if decide (c = backslash) then String backslash (String c EmptyString)
  else if (n =? 9)%N then String backslash "t"
  else if (n =? 10)%N then String backslash "n"
  else if (n =? 13)%N then String backslash "r"
  else if isprintable c then String c EmptyString
  else String backslash
         (String "x"%char
            (String (hex_digit (n / 16)) (String (hex_digit (n mod 16)) EmptyString))).

Fixpoint repr_body (quote : ascii) (s : string) : string :=
  match s with
  | EmptyString => EmptyString
  | String c s' => repr_char quote c +:+ repr_body quote s'
  end.

Definition repr (s : string) : string :=
  let quote := if has_char squote s && negb (has_char dquote s) then dquote else squote in
  String quote (repr_body quote s +:+ String quote EmptyString).

(** [repr] of a list of [str], as an f-string shows it. *)
Definition repr_list (l : list string) : string :=
  "[" +:+ join ", " (map repr l) +:+ "]".

End Str.

(** ** Exceptions, the world and the monad of effects *)

Module Py.

(** The exception classes the modelled code can meet.  All of them derive
    from [Exception]; the first six derive from [OSError]. *)
Inductive exn_class :=
| FileNotFoundError | FileExistsError | IsADirectoryError | NotADirectoryError
| PermissionError | OSError
| UnicodeDecodeError | CsvError | ParserError | EmptyDataError
| KeyError | AttributeError | TypeError | IndexError.

(** An exception object: its class and [str(e)]. *)
Record exn := Exn { exn_cls : exn_class; exn_str : string }.

Definition is_FileNotFoundError (e : exn) : bool :=
  match exn_cls e with FileNotFoundError => true | _ => false end.

Inductive outcome (A : Type) :=
| Return (a : A)
| Raise (e : exn).
Arguments Return {A} a.
Arguments Raise {A} e.

(** A node of the file system. *)
Inductive node :=
| Dir
| File (data : string).

(** The world a tool runs in: the file system by path, the paths on which
    the operating system refuses to create or open anything (permissions,
    read-only media), the lines printed so far, and the reading of the
    clock as [strftime('%Y%m%d_%H%M%S')] shows it. *)
Record world := World {
  fs : gmap string node;
  denied : gset string;
  stdout : list string;
  clock : string
}.

Definition M (A : Type) : Type := world → outcome A * world.

Definition ret {A} (a : A) : M A := λ w, (Return a, w).
Definition raise {A} (e : exn) : M A := λ w, (Raise e, w).
Definition bind {A B} (m : M A) (k : A → M B) : M B :=
  λ w, match m w with
       | (Return a, w') => k a w'
       | (Raise e, w') => (Raise e, w')
       end.

(** [try: body / except ...: handler e]; every modelled class derives from
    [Exception], so a handler that ends in [except Exception] takes all. *)
Definition try_except {A} (body : M A) (handler : exn → M A) : M A :=
  λ w, match body w with
       | (Return a, w') => (Return a, w')
       | (Raise e, w') => handler e w'
       end.

(** A pure step that may raise, run inside [M]. *)
Definition lift {A} (o : outcome A) : M A := λ w, (o, w).

Definition print (line : string) : M unit :=
  λ w, (Return tt, World (fs w) (denied w) (stdout w ++ [line]) (clock w)).

Definition set_fs (f : gmap string node) (w : world) : world :=
  World f (denied w) (stdout w) (clock w).

(** Python truth of an optional [str]: [None] and the empty string are false. *)
Definition truthy (o : option string) : bool :=
  match o with
  | Some s => negb (String.eqb s EmptyString)
  | None => false
  end.

End Py.

Import Py.

#[global] Instance M_ret : MRet M := @Py.ret.
#[global] Instance M_bind : MBind M := λ A B k m, Py.bind m k.

(** ** POSIX paths and the operating system *)

Module Os.

Definition sep : ascii := "/"%char.

(** [s.rstrip('/')] *)
Fixpoint rstrip_sep (s : string) : string :=
  match s with
  | EmptyString => EmptyString
  | String c s' =>
      match rstrip_sep s' with
      | EmptyString => if decide (c = sep) then EmptyString else String c EmptyString
      | t => String c t
      end
  end.

(** [posixpath.split]: the text up to and with the last separator, and the
    rest; the head loses its trailing separators unless it is made of
    separators only. *)
Fixpoint split_last (s : string) : string * string :=
  match s with
  | EmptyString => (EmptyString, EmptyString)
  | String c s' =>
      let '(h, t) := split_last s' in
      if Str.has_char sep s' then (String c h, t)
      else if decide (c = sep) then (String c EmptyString, s')
      else (EmptyString, s)
  end.

Definition path_split (p : string) : string * string :=
  let '(head, tail) := split_last p in
  (if decide (rstrip_sep head = EmptyString) then head else rstrip_sep head, tail).

(** [os.path.dirname] and [os.path.basename] *)
Definition dirname (p : string) : string := fst (path_split p).
Definition basename (p : string) : string := snd (path_split p).

(** [os.path.splitext(p)[0]]: the text before the last dot of the last
    component, when something other than dots stands before that dot. *)
Fixpoint all_dots (s : string) : bool :=
  match s with
  | EmptyString => true
  | String c s' => if decide (c = "."%char) then all_dots s' else false
  end.

Fixpoint split_dot (s : string) : option (string * string) :=
  match s with
  | EmptyString => None
  | String c s' =>
      match split_dot s' with
      | Some (r, e) => Some (String c r, e)
      | None => if decide (c = "."%char) then Some (EmptyString, s) else None
      end
  end.

Definition splitext (p : string) : string * string :=
  let '(head, tail) := split_last p in
  match split_dot tail with
  | Some (root, ext) =>
      if all_dots root then (p, EmptyString) else (head +:+ root, ext)
  | None => (p, EmptyString)
  end.

(** [os.path.join(a, b)] *)
Definition ends_with_sep (s : string) : bool :=
  match String.rev s with
  | String c _ => if decide (c = sep) then true else false
  | EmptyString => false
  end.

Definition join (a b : string) : string :=
  if Str.startswith b "/" then b
  else if decide (a = EmptyString) then b
  else if ends_with_sep a then a +:+ b
  else a +:+ "/" +:+ b.

(** [p.rstrip('/')], the root keeping its separator. *)
Definition canon (p : string) : string :=
  if decide (rstrip_sep p = EmptyString) then (if decide (p = EmptyString) then p else "/")
  else rstrip_sep p.

(** How the operating system reads a path: its components between
    separators, the empty ones dropped; whether it starts from the root;
    whether a separator ends it.  A dot stands for the directory reached so
    far.  A node is kept in the file system under the components that are not
    dots, joined by one separator ([key]); the current directory is the
    empty key.  Two dots and links are not modelled. *)
Fixpoint split_sep (cur s : string) : list string :=
  match s with
  | EmptyString => [cur]
  | String c s' =>
      if decide (c = sep) then cur :: split_sep EmptyString s'
      else split_sep (cur +:+ String c EmptyString) s'
  end.

Definition components (p : string) : list string :=
  filter (λ c, c ≠ EmptyString) (split_sep EmptyString p).

Definition key_of (absolute : bool) (cs : list string) : string :=
  (if absolute then "/" else EmptyString) +:+ Str.join "/" cs.

Definition key (p : string) : string :=
  key_of (Str.startswith p "/") (filter (λ c, c ≠ ".") (components p)).

(** What a path leads to: a node, nothing in a directory that is there,
    nothing because a directory on the way is missing, or nothing because
    something on the way is a file. *)
Inductive resolved :=
| Found (k : string) (n : node)
| Absent (k : string)
| NoEntry
| NotDirectory.

(** [above] are the directories gone through, [below] the components still
    to read. *)
Fixpoint walk (w : world) (absolute : bool) (above below : list string) : resolved :=
  match below with
  | [] => Found (key_of absolute above) Dir
  | c :: below' =>
      if decide (c = ".") then walk w absolute above below'
      else
        let k := key_of absolute (above ++ [c]) in
        match below', fs w !! k with
        | [], Some n => Found k n
        | [], None => Absent k
        | _ :: _, Some Dir => walk w absolute (above ++ [c]) below'
        | _ :: _, Some (File _) => NotDirectory
        | _ :: _, None => NoEntry
        end
  end.

Definition resolve (w : world) (p : string) : resolved :=
  if decide (p = EmptyString) then NoEntry
  else walk w (Str.startswith p "/") [] (components p).

(** [os.path.exists] and [os.path.isdir] through [stat]: the node at a
    path, a file reached through a trailing separator counting for nothing. *)
Definition stat (w : world) (p : string) : option node :=
  match resolve w p with
  | Found _ Dir => Some Dir
  | Found _ (File data) => if ends_with_sep p then None else Some (File data)
  | _ => None
  end.

(** The file is not there: [open] for reading raises [FileNotFoundError]. *)
Definition missing (w : world) (p : string) : bool :=
  match resolve w p with
  | Absent _ | NoEntry => true
  | _ => false
  end.

Definition errno (cls : exn_class) (text path : string) : exn :=
  Exn cls (text +:+ ": " +:+ Str.repr path).

Definition ENOENT := errno FileNotFoundError "[Errno 2] No such file or directory".
Definition EACCES := errno PermissionError "[Errno 13] Permission denied".
Definition EEXIST := errno FileExistsError "[Errno 17] File exists".
Definition ENOTDIR := errno NotADirectoryError "[Errno 20] Not a directory".
Definition EISDIR := errno IsADirectoryError "[Errno 21] Is a directory".

(** [os.mkdir(p)] *)
Definition mkdir (p : string) : M unit := λ w,
  match resolve w p with
  | NoEntry => (Raise (ENOENT p), w)
  | NotDirectory => (Raise (ENOTDIR p), w)
  | Found _ _ => (Raise (EEXIST p), w)
  | Absent k =>
      if decide (k ∈ denied w) then (Raise (EACCES p), w)
      else (Return tt, set_fs (<[k := Dir]> (fs w)) w)
  end.

(** The ancestors of a path, nearest last: what [os.makedirs] creates
    before the path itself.  [before] is the part of the path already read;
    it is an ancestor each time a separator follows it. *)
Fixpoint ancestors_from (before rest : string) : list string :=
  match rest with
  | EmptyString => []
  | String c rest' =>
      (if decide (c = sep ∧ before ≠ EmptyString) then [canon before] else [])
      ++ ancestors_from (before +:+ String c EmptyString) rest'
  end.

Definition ancestors (p : string) : list string := ancestors_from EmptyString (canon p).

(** The ancestors that do not exist are made, nearest last. *)
Fixpoint make_missing (ps : list string) : M unit :=
  match ps with
  | [] => mret tt
  | p :: ps' => λ w,
      match stat w p with
      | Some _ => make_missing ps' w
      | None => (mkdir p ;; make_missing ps') w
      end
  end.

(** [os.makedirs(name, exist_ok=True)]: the missing ancestors, then [name]
    itself, where the error of [os.mkdir] is dropped when [name] is a
    directory.  The empty name has no ancestors and [os.mkdir] refuses it. *)
Definition makedirs (name : string) : M unit :=
  make_missing (ancestors name) ;;
  try_except (mkdir name)
    (λ e w, match stat w name with
            | Some Dir => (Return tt, w)
            | _ => (Raise e, w)
            end).

(** [open(p, 'r', encoding='utf-8')] followed by reading: the text of the
    file, the decoding being part of the library reader that takes it. *)
Definition open_read (p : string) : M string := λ w,
  match resolve w p with
  | NoEntry | Absent _ => (Raise (ENOENT p), w)
  | NotDirectory => (Raise (ENOTDIR p), w)
  | Found _ Dir => (Raise (EISDIR p), w)
  | Found k (File data) =>
      if ends_with_sep p then (Raise (ENOTDIR p), w)
      else if decide (k ∈ denied w) then (Raise (EACCES p), w)
      else (Return data, w)
  end.

(** [with open(p, 'w', encoding='utf-8') as f: f.write(content)]: the file is
    made or cut to nothing, then holds [content]. *)
Definition create (k p content : string) : M unit := λ w,
  if ends_with_sep p then (Raise (EISDIR p), w)
  else if decide (k ∈ denied w) then (Raise (EACCES p), w)
  else (Return tt, set_fs (<[k := File content]> (fs w)) w).

Definition open_write (p content : string) : M unit := λ w,
  match resolve w p with
  | NoEntry => (Raise (ENOENT p), w)
  | NotDirectory => (Raise (ENOTDIR p), w)
  | Found _ Dir => (Raise (EISDIR p), w)
  | Found k (File _) => create k p content w
  | Absent k => create k p content w
  end.

End Os.

(** ** The [csv] module: the reader protocol and [csv.DictReader] *)

#[global] Instance outcome_ret : MRet outcome := @Return.
#[global] Instance outcome_bind : MBind outcome := λ A B k o,
  match o with
  | Return a => k a
  | Raise e => Raise e
  end.

Module Csv.

(** One step of [next(reader)]: a record, or the exception the reader
    raises there ([csv.Error], [UnicodeDecodeError]).  The end of the list is
    [StopIteration]. *)
Inductive item :=
| Rec (fields : list string)
| Fault (e : exn).

(** A row as [DictReader] builds it: a [dict] in insertion order.  A key is
    a column name or [None] (the rest key); a value is a field, [None] (the
    rest value of a short row) or the list of the surplus fields of a long
    row. *)
Inductive value :=
| VStr (s : string)
| VNone
| VList (l : list string).

Definition dict := list (option string * value).

(** [d[k] = v]: a key already there keeps its place. *)
Fixpoint dict_set (d : dict) (k : option string) (v : value) : dict :=
  match d with
  | [] => [(k, v)]
  | (k', v') :: d' =>
      if decide (k' = k) then (k', v) :: d' else (k', v') :: dict_set d' k v
  end.

Fixpoint dict_get (d : dict) (k : option string) : option value :=
  match d with
  | [] => None
  | (k', v') :: d' => if decide (k' = k) then Some v' else dict_get d' k
  end.

(** [d[k]] for a [str] key, with the [KeyError] of a missing key. *)
Definition getitem (d : dict) (k : string) : outcome value :=
  match dict_get d (Some k) with
  | Some v => Return v
  | None => Raise (Exn KeyError (Str.repr k))
  end.

(** How an f-string shows a key and a value. *)
Definition format_key (k : option string) : string :=
  match k with
  | Some s => s
  | None => "None"
  end.

Definition format_value (v : value) : string :=
  match v with
  | VStr s => s
  | VNone => "None"
  | VList l => Str.repr_list l
  end.

(** The body of [DictReader.__next__] once a non-empty record is read:
    [dict(zip(fieldnames, row))], then the surplus of a long row under
    [None], or [None] under each column a short row does not reach. *)
Definition dict_of_zip (fieldnames row : list string) : dict :=
  fold_left (λ d kv, dict_set d (Some kv.1) (VStr kv.2)) (zip fieldnames row) [].

Definition row_dict (fieldnames row : list string) : dict :=
  let d := dict_of_zip fieldnames row in
  let lf := length fieldnames in
  let lr := length row in
  if (lf <? lr)%nat then dict_set d None (VList (drop lf row))
  else if (lr <? lf)%nat then fold_left (λ d key, dict_set d (Some key) VNone) (drop lr fieldnames) d
  else d.

(** The [DictReader] object: the records its reader has still to give, the
    header once read, and whether a line has been read ([line_num]). *)
Record DictReader := mkDictReader {
  reader : list item;
  _fieldnames : option (list string);
  line_num : nat
}.

Definition DictReader_new (records : list item) : DictReader :=
  mkDictReader records None 0.

(** The [fieldnames] property: the first access reads the header; an
    exhausted reader leaves it [None]. *)
Definition fieldnames (r : DictReader) : outcome (option (list string)) * DictReader :=
  match _fieldnames r with
  | Some f => (Return (Some f), r)
  | None =>
      match reader r with
      | [] => (Return None, r)
      | Fault e :: rest => (Raise e, mkDictReader rest None (S (line_num r)))
      | Rec f :: rest => (Return (Some f), mkDictReader rest (Some f) (S (line_num r)))
      end
  end.

(** [for row in reader: body], the header being [fields]: an empty record
    (a blank line) is passed over, an exception of the reader or of the body
    ends the loop.  [acc] is what the body updates. *)
Fixpoint for_records {S : Type} (fields : option (list string)) (records : list item)
    (body : dict → S → outcome S) (acc : S) : outcome S :=
  match records with
  | [] => Return acc
  | Fault e :: _ => Raise e
  | Rec [] :: rest => for_records fields rest body acc
  | Rec row :: rest =>
      match fields with
      | None => Raise (Exn TypeError "'NoneType' object is not iterable")
      | Some f => acc' ← body (row_dict f row) acc; for_records fields rest body acc'
      end
  end.

(** The loop over a [DictReader]: [__next__] reads the header first when no
    line has been read yet. *)
Definition for_rows {S : Type} (r : DictReader) (body : dict → S → outcome S) (acc : S)
    : outcome S :=
  let '(o, r1) := if (line_num r =? 0)%nat then fieldnames r else (Return (_fieldnames r), r) in
  f ← o; for_records (_fieldnames r1) (reader r1) body acc.

End Csv.

(** ** csv_to_mysql.py *)

Definition newline : string := String "010"%char EmptyString.

(** [for col in fieldnames: if test(col): actual_column = col; break] *)
Definition first_match (test : string → bool) (fieldnames : list string) : option string :=
  List.find test fieldnames.

Definition save_to_file (content output_file : string) : M unit :=
  try_except
    (Os.makedirs (Os.dirname output_file) ;;
     Os.open_write output_file content ;;
     print ("Result saved to: " +:+ output_file))
    (λ e, print ("Error saving to file: " +:+ exn_str e)).

(** The body of the loop of [csv_column_to_mysql_tuple]:
    [value = row[actual_column].strip()], appended when it is not empty. *)
Definition collect_value (actual_column : string) (row : Csv.dict) (values : list string)
    : outcome (list string) :=
  cell ← Csv.getitem row actual_column;
  value ← match cell with
          | Csv.VStr s => Return (Str.strip s)
          | Csv.VNone => Raise (Exn AttributeError "'NoneType' object has no attribute 'strip'")
          | Csv.VList _ => Raise (Exn AttributeError "'list' object has no attribute 'strip'")
          end;
  if String.eqb value EmptyString then Return values else Return (values ++ [value]).

(** The body of the loop of [csv_to_mysql_update_script]: the statement of
    one row, appended to the statements so far. *)
Definition append_update (table_name : string) (row : Csv.dict) (update_statements : list string)
    : outcome (list string) :=
  let set_clause :=
    Str.join ", "
      (map (λ kv, Csv.format_key kv.1 +:+ " = " +:+ Csv.format_value kv.2)
           (filter (λ kv, kv.1 ≠ Some "id") row)) in
  id ← Csv.getitem row "id";
  let update_statement :=
    "Update " +:+ table_name +:+ " set " +:+ set_clause +:+
    " where id = " +:+ Csv.format_value id +:+ ";" in
  Return (update_statements ++ [update_statement]).

(** The two tests of the column search. *)
Definition same_name (column_name col : string) : bool :=
  String.eqb (Str.lower col) (Str.lower column_name).

Definition same_name_no_spaces (column_name col : string) : bool :=
  String.eqb (Str.remove_char " " (Str.lower col)) (Str.remove_char " " (Str.lower column_name)).

Section CsvToMysql.

(** [csv.reader(f)] over the text of the open file. *)
Variable csv_reader : string → list Csv.item.

Definition csv_column_to_mysql_tuple (csv_file column_name : string) (add_quotes : bool)
    : M (option string) :=
  try_except
    (text ← Os.open_read csv_file;
     let reader := Csv.DictReader_new (csv_reader text) in
     match Csv.fieldnames reader with
     | (Raise e, _) => raise e
     | (Return None, _) => raise (Exn TypeError "can only join an iterable")
     | (Return (Some fieldnames), reader) =>
         print ("Available columns: " +:+ Str.join ", " fieldnames) ;;
         let actual_column := first_match (same_name column_name) fieldnames in
         actual_column ←
           (if negb (truthy actual_column) then
              print ("Warning: Column '" +:+ column_name +:+
                     "' not found exactly, trying to find a match...") ;;
              match first_match (same_name_no_spaces column_name) fieldnames with
              | Some col => print ("Found matching column: '" +:+ col +:+ "'") ;; mret (Some col)
              | None => mret actual_column
              end
            else mret actual_column);
         match actual_column with
         | Some actual_column =>
             if String.eqb actual_column EmptyString then
               print ("Error: Could not find column matching '" +:+ column_name +:+ "'") ;;
               mret None
             else
               values ← lift (Csv.for_rows reader (collect_value actual_column) []);
               match values with
               | [] =>
                   print ("Warning: No values found for column '" +:+ actual_column +:+ "'") ;;
                   mret None
               | _ =>
                   mret (Some
                     (if add_quotes
                      then "(" +:+ Str.join ", " (map (λ value, "'" +:+ value +:+ "'") values) +:+ ")"
                      else "(" +:+ Str.join ", " values +:+ ")"))
               end
         | None =>
             print ("Error: Could not find column matching '" +:+ column_name +:+ "'") ;;
             mret None
         end
     end)
    (λ e, if is_FileNotFoundError e
          then print ("Error: File '" +:+ csv_file +:+ "' not found.") ;; mret None
          else print ("Error: An unexpected error occurred: " +:+ exn_str e) ;; mret None).

Definition csv_to_mysql_update_script (csv_file table_name : string) : M (option string) :=
  try_except
    (text ← Os.open_read csv_file;
     let reader := Csv.DictReader_new (csv_reader text) in
     update_statements ← lift (Csv.for_rows reader (append_update table_name) []);
     mret (Some (Str.join newline update_statements)))
    (λ e, if is_FileNotFoundError e
          then print ("Error: File '" +:+ csv_file +:+ "' not found.") ;; mret None
          else print ("Error: An unexpected error occurred: " +:+ exn_str e) ;; mret None).

(** [args.remove(x)]: the first occurrence goes. *)
Fixpoint list_remove (x : string) (l : list string) : list string :=
  match l with
  | [] => []
  | y :: l' => if decide (y = x) then l' else y :: list_remove x l'
  end.

(** [main()], with [sys.argv] as its argument. *)
Definition main (argv : list string) : M unit :=
  match argv with
  | _ :: csv_file :: ((_ :: _) as args0) =>
      let add_quotes := negb (bool_decide ("--no-quotes" ∈ args0)) in
      let args := if add_quotes then args0 else list_remove "--no-quotes" args0 in
      match last args with
      | None => raise (Exn IndexError "list index out of range")
      | Some last_arg =>
          let '(column_name, output_file) :=
            if (1 <? length args)%nat && Str.startswith last_arg "output"
            then (Str.join " " (removelast args), Some last_arg)
            else (Str.join " " args, None) in
          result ←
            (if String.eqb (Str.lower column_name) "update_script"
             then csv_to_mysql_update_script csv_file (default EmptyString (head args))
             else csv_column_to_mysql_tuple csv_file column_name add_quotes);
          match result with
          | Some text =>
              if truthy result then
                match output_file with
                | Some path => if truthy output_file then save_to_file text path else mret tt
                | None => mret tt
                end ;;
                print text
              else mret tt
          | None => mret tt
          end
      end
  | _ =>
      print "Usage: python csv_to_mysql.py <csv_file> <column_name> [--no-quotes] [output_file]"
  end.

End CsvToMysql.

(** ** deduplicate_csv.py *)

Module Pandas.
Section Frames.

(** A cell of a frame after pandas has inferred the column types; rows are
    compared cell by cell with the equality of that type. *)
Context {Cell : Type} `{EqDecision Cell}.

Record DataFrame := mkDataFrame {
  columns : list string;
  rows : list (list Cell)
}.

(** [df.duplicated()] with the default [keep='first']: the mask is true at a
    row equal to one met before it. *)
Fixpoint duplicated_from (seen rest : list (list Cell)) : list bool :=
  match rest with
  | [] => []
  | r :: rest' => bool_decide (r ∈ seen) :: duplicated_from (seen ++ [r]) rest'
  end.

Definition duplicated (df : DataFrame) : list bool := duplicated_from [] (rows df).

(** [df[~mask]]: the rows at which the mask is false, in their order. *)
Fixpoint drop_masked (mask : list bool) (rs : list (list Cell)) : list (list Cell) :=
  match mask, rs with
  | m :: mask', r :: rs' => if m then drop_masked mask' rs' else r :: drop_masked mask' rs'
  | _, _ => []
  end.

(** [df.drop_duplicates()] *)
Definition drop_duplicates (df : DataFrame) : DataFrame :=
  mkDataFrame (columns df) (drop_masked (duplicated df) (rows df)).

End Frames.
Arguments DataFrame Cell : clear implicits.
End Pandas.

Section DeduplicateCsv.

Context {Cell : Type} `{EqDecision Cell}.

(** [pd.read_csv] over the text of the input file, and the text
    [df.to_csv(index=False)] writes. *)
Variable read_csv : string → outcome (Pandas.DataFrame Cell).
Variable to_csv : Pandas.DataFrame Cell → string.

(** [datetime.now().strftime('%Y%m%d_%H%M%S')] *)
Definition now_strftime : M string := λ w, (Return (clock w), w).

Definition deduplicate_csv (input_file : string) (output_dir : option string) : M string :=
  text ← Os.open_read input_file;
  df ← lift (read_csv text);
  let df_deduplicated := Pandas.drop_duplicates df in
  timestamp ← now_strftime;
  let input_filename := (Os.splitext (Os.basename input_file)).1 in
  let output_filename := input_filename +:+ "_deduplicated_" +:+ timestamp +:+ ".csv" in
  let output_dir :=
    match output_dir with
    | None => Os.dirname input_file
    | Some d => d
    end in
  Os.makedirs output_dir ;;
  let output_path := Os.join output_dir output_filename in
  Os.open_write output_path (to_csv df_deduplicated) ;;
  let total_rows := length (Pandas.rows df) in
  let unique_rows := length (Pandas.rows df_deduplicated) in
  let duplicates := total_rows - unique_rows in
  print "Processing complete:" ;;
  print ("Total rows: " +:+ pretty total_rows) ;;
  print ("Unique rows: " +:+ pretty unique_rows) ;;
  print ("Duplicates removed: " +:+ pretty duplicates) ;;
  print ("Output saved to: " +:+ output_path) ;;
  mret output_path.

(** The command line of the tool: [--output-dir] defaults to [output]. *)
Definition deduplicate_main (input_file : string) (output_dir : option string) : M string :=
  deduplicate_csv input_file (Some (default "output" output_dir)).

End DeduplicateCsv.

(** ** tests/: the helper that writes the input of a test *)


(** ** Concrete library readers, for running the tools on files *)

Module Excel.

Definition LF : ascii := "010"%char.
Definition CR : ascii := "013"%char.
Definition comma : ascii := ","%char.

(** Text mode with universal newlines: CR LF and a lone CR are read as LF. *)
Fixpoint universal_newlines (after_cr : bool) (s : string) : string :=
  match s with
  | EmptyString => EmptyString
  | String c s' =>
      if decide (c = CR) then String LF (universal_newlines true s')
      else if decide (c = LF)
           then (if after_cr then universal_newlines false s'
                 else String LF (universal_newlines false s'))
           else String c (universal_newlines false s')
  end.

(** The states of the parser of [csv.reader] that the default dialect
    reaches: comma, double quote doubled inside quotes, no escape character,
    not strict. *)
Inductive state := StartRecord | StartField | InField | InQuotedField | QuoteInQuotedField.

Definition push (field : string) (c : ascii) : string := field +:+ String c EmptyString.

(** The records of a text: [field] is the field being read, [fields] the
    fields of the record before it.  A line feed outside quotes ends the
    record, an empty line is the empty record, and the end of the text ends
    a record that has begun. *)
Fixpoint parse (q : state) (field : string) (fields : list string) (s : string)
    : list (list string) :=
  match s with
  | EmptyString =>
      match q with
      | StartRecord => []
      | _ => [fields ++ [field]]
      end
  | String c s' =>
      match q with
      | StartRecord =>
          if decide (c = LF) then [] :: parse StartRecord EmptyString [] s'
          else if decide (c = Str.dquote) then parse InQuotedField field fields s'
          else if decide (c = comma) then parse StartField EmptyString (fields ++ [field]) s'
          else parse InField (push field c) fields s'
      | StartField =>
          if decide (c = LF) then (fields ++ [field]) :: parse StartRecord EmptyString [] s'
          else if decide (c = Str.dquote) then parse InQuotedField field fields s'
          else if decide (c = comma) then parse StartField EmptyString (fields ++ [field]) s'
          else parse InField (push field c) fields s'
      | InField =>
          if decide (c = LF) then (fields ++ [field]) :: parse StartRecord EmptyString [] s'
          else if decide (c = comma) then parse StartField EmptyString (fields ++ [field]) s'
          else parse InField (push field c) fields s'
      | InQuotedField =>
          if decide (c = Str.dquote) then parse QuoteInQuotedField field fields s'
          else parse InQuotedField (push field c) fields s'
      | QuoteInQuotedField =>
          if decide (c = Str.dquote) then parse InQuotedField (push field c) fields s'
          else if decide (c = comma) then parse StartField EmptyString (fields ++ [field]) s'
          else if decide (c = LF)
               then (fields ++ [field]) :: parse StartRecord EmptyString [] s'
               else parse InField (push field c) fields s'
      end
  end.

Definition records (text : string) : list (list string) :=
  parse StartRecord EmptyString [] (universal_newlines false text).

(** [csv.reader] with the default dialect, on text that decodes and stays
    within the limits of the module (no NUL, no oversized field): it raises
    nothing. *)
Definition reader (text : string) : list Csv.item := map Csv.Rec (records text).

(** The tokenizer of pandas passes over a line made of spaces and tabs
    only, as over an empty line ([skip_blank_lines]); when something else
    follows the blanks, they begin the first field.  [blanks] are the blanks
    read since the line began. *)
Definition is_blank (c : ascii) : bool :=
  if decide (c = " "%char) then true else if decide (c = "009"%char) then true else false.

Fixpoint drop_blank_lines (q : state) (blanks : string) (s : string) : string :=
  match s with
  | EmptyString => EmptyString
  | String c s' =>
      match q with
      | StartRecord =>
          if decide (c = LF) then drop_blank_lines StartRecord EmptyString s'
          else if is_blank c then drop_blank_lines StartRecord (push blanks c) s'
          else
            let q' :=
              if decide (c = comma) then StartField
              else if decide (c = Str.dquote)
                   then (if decide (blanks = EmptyString) then InQuotedField else InField)
                   else InField in
            blanks +:+ String c (drop_blank_lines q' EmptyString s')
      | StartField =>
          String c (drop_blank_lines
                      (if decide (c = LF) then StartRecord
                       else if decide (c = Str.dquote) then InQuotedField
                       else if decide (c = comma) then StartField else InField)
                      EmptyString s')
      | InField =>
          String c (drop_blank_lines
                      (if decide (c = LF) then StartRecord
                       else if decide (c = comma) then StartField else InField)
                      EmptyString s')
      | InQuotedField =>
          String c (drop_blank_lines
                      (if decide (c = Str.dquote) then QuoteInQuotedField else InQuotedField)
                      EmptyString s')
      | QuoteInQuotedField =>
          String c (drop_blank_lines
                      (if decide (c = Str.dquote) then InQuotedField
                       else if decide (c = comma) then StartField
                       else if decide (c = LF) then StartRecord else InField)
                      EmptyString s')
      end
  end.

(** A frame reader that keeps every cell as its text: what [pd.read_csv]
    gives on a file whose header names are distinct and in which no cell
    reads as a number or a boolean; the empty cell stands for the missing
    value.  The first line that is not blank is the header and blank lines
    are passed over.  The width of the table is that of the header or, when
    the first row is longer, that of the first row, whose surplus fields in
    front are then the index and not part of the frame; a shorter row is
    filled with empty cells and a row longer than the table is refused. *)
Definition read_frame (text : string) : outcome (Pandas.DataFrame string) :=
  match parse StartRecord EmptyString []
          (drop_blank_lines StartRecord EmptyString (universal_newlines false text)) with
  | [] => Raise (Exn EmptyDataError "No columns to parse from file")
  | header :: body =>
      let width :=
        match body with
        | [] => length header
        | first :: _ => max (length header) (length first)
        end in
      if forallb (λ r, length r <=? width)%nat body
      then Return (Pandas.mkDataFrame header
                     (map (λ r, drop (width - length header)
                                  (r ++ replicate (width - length r) EmptyString)) body))
      else Raise (Exn ParserError "Error tokenizing data")
  end.

(** The writer with minimal quoting: a field with a comma, a double quote
    or a line break is put between double quotes, its double quotes
    doubled; a row that is one empty field is written as two quotes. *)
Fixpoint double_quotes (s : string) : string :=
  match s with
  | EmptyString => EmptyString
  | String c s' =>
      if decide (c = Str.dquote) then String c (String c (double_quotes s'))
      else String c (double_quotes s')
  end.

Definition write_field (f : string) : string :=
  if Str.has_char comma f || Str.has_char Str.dquote f || Str.has_char LF f || Str.has_char CR f
  then String Str.dquote (double_quotes f +:+ String Str.dquote EmptyString)
  else f.

Definition write_row (r : list string) : string :=
  match r with
  | [EmptyString] => String Str.dquote (String Str.dquote newline)
  | _ => Str.join "," (map write_field r) +:+ newline
  end.

(** [df.to_csv(index=False)] on a frame of text cells. *)
Definition write_frame (df : Pandas.DataFrame string) : string :=
  String.concat EmptyString (map write_row (Pandas.columns df :: Pandas.rows df)).

End Excel.

(** ** The notions the properties are stated with *)

(** The column a name resolves to: the search of [csv_column_to_mysql_tuple]
    without what it prints.  A match with an empty name is false in Python
    and counts as none. *)
Definition resolve_column (fieldnames : list string) (column_name : string) : option string :=
  let actual_column := first_match (same_name column_name) fieldnames in
  let actual_column :=
    if negb (truthy actual_column)
    then match first_match (same_name_no_spaces column_name) fieldnames with
         | Some col => Some col
         | None => actual_column
         end
    else actual_column in
  if truthy actual_column then actual_column else None.

(** The rows of a file as [DictReader] hands them out, by column name: a
    blank line is no row. *)
Definition data_rows (header : list string) (records : list (list string)) : list Csv.dict :=
  map (Csv.row_dict header) (filter (λ r, r ≠ []) records).

(** The value of a row in a column, when the row has a field there. *)
Definition cell (col : string) (row : Csv.dict) : option string :=
  match Csv.dict_get row (Some col) with
  | Some (Csv.VStr s) => Some s
  | _ => None
  end.

(** Trimmed, and dropped when nothing is left. *)
Definition kept_values (vals : list string) : list string :=
  filter (λ v, v ≠ EmptyString) (map Str.strip vals).

(** [(v1, v2, ..., vn)], every value between single quotes or none. *)
Definition tuple_literal (add_quotes : bool) (values : list string) : string :=
  "(" +:+ Str.join ", " (map (λ v, if add_quotes then "'" +:+ v +:+ "'" else v) values) +:+ ")".

(** Without the outer parentheses: an opening one in front and a closing one
    at the end go. *)
Fixpoint drop_closing (s : string) : string :=
  match s with
  | EmptyString => EmptyString
  | String c EmptyString => if decide (c = ")"%char) then EmptyString else s
  | String c s' => String c (drop_closing s')
  end.

Definition trim_parens (s : string) : string :=
  match s with
  | EmptyString => EmptyString
  | String c s' => if decide (c = "("%char) then drop_closing s' else drop_closing s
  end.

(** A field under its column name, as a row of [DictReader] holds it. *)
Definition entry (cv : string * string) : option string * Csv.value := (Some cv.1, Csv.VStr cv.2).

(** The statement of one row, by position in the header. *)
Definition set_clause (header row : list string) : string :=
  Str.join ", "
    (map (λ cv, cv.1 +:+ " = " +:+ cv.2) (filter (λ cv, cv.1 ≠ "id") (zip header row))).

Definition id_value (header row : list string) : string :=
  default EmptyString (snd <$> List.find (λ cv, String.eqb cv.1 "id") (zip header row)).

Definition update_line (table_name : string) (header row : list string) : string :=
  "Update " +:+ table_name +:+ " set " +:+ set_clause header row +:+
  " where id = " +:+ id_value header row +:+ ";".

(** The first occurrence of each element, in the order of the list. *)
Fixpoint first_occurrences {A : Type} `{EqDecision A} (l : list A) : list A :=
  match l with
  | [] => []
  | x :: l' => x :: filter (λ y, y ≠ x) (first_occurrences l')
  end.

(** The world after some more lines are printed. *)
Definition printed (out : list string) (w : world) : world :=
  World (fs w) (denied w) (stdout w ++ out) (clock w).

(** What [csv_column_to_mysql_tuple] returns on a file that opens and has a
    header: the literal of the values the loop collects in the resolved
    column, [None] when the name does not resolve, the loop raises or nothing
    is collected. *)
Definition tuple_value (header : list string) (items : list Csv.item)
    (column_name : string) (add_quotes : bool) : option string :=
  match resolve_column header column_name with
  | Some col =>
      match Csv.for_records (Some header) items (collect_value col) [] with
      | Return (v :: vs) => Some (tuple_literal add_quotes (v :: vs))
      | _ => None
      end
  | None => None
  end.

(** A line that reports a failure, and an output that ends with one. *)
Definition is_report (line : string) : bool :=
  Str.startswith line "Error: " || Str.startswith line "Warning: ".

Definition reports (out : list string) : bool :=
  match last out with
  | Some line => is_report line
  | None => false
  end.

(** What the search for the column prints: the columns, then, when the
    first pass finds nothing true, its warning and the column of the second
    pass if there is one. *)
Definition search_lines (fieldnames : list string) (column_name : string) : list string :=
  ("Available columns: " +:+ Str.join ", " fieldnames)
  :: (if truthy (first_match (same_name column_name) fieldnames) then []
      else ("Warning: Column '" +:+ column_name +:+ "' not found exactly, trying to find a match...")
           :: match first_match (same_name_no_spaces column_name) fieldnames with
              | Some col => ["Found matching column: '" +:+ col +:+ "'"]
              | None => []
              end).

(** The line the two [except] clauses print for an exception. *)
Definition error_line (csv_file : string) (e : exn) : string :=
  if is_FileNotFoundError e then "Error: File '" +:+ csv_file +:+ "' not found."
  else "Error: An unexpected error occurred: " +:+ exn_str e.

(** A world that differs from another by directories made since: nothing
    printed, no file written or changed. *)
Definition grows_by_dirs (w w' : world) : Prop :=
  denied w' = denied w ∧ stdout w' = stdout w ∧ clock w' = clock w ∧
  ∀ k, fs w' !! k = fs w !! k ∨ (fs w !! k = None ∧ fs w' !! k = Some Dir).

(** A value of the tuple: not empty, and nothing to trim. *)
Definition is_trimmed (v : string) : Prop := v ≠ EmptyString ∧ Str.strip v = v.

(** The fields of a row as the update script shows them, by position: a
    column that the row does not reach has [None], and the surplus of a row
    longer than the header stands under [None] as a Python list. *)
Definition shown_fields (header row : list string) : list (string * string) :=
  zip header (row ++ replicate (length header - length row) "None")
  ++ (if (length header <? length row)%nat
      then [("None", Str.repr_list (drop (length header) row))]
      else []).

Definition shown_line (table_name : string) (header row : list string) : string :=
  "Update " +:+ table_name +:+ " set " +:+
  Str.join ", " (map (λ cv, cv.1 +:+ " = " +:+ cv.2)
                   (filter (λ cv, cv.1 ≠ "id") (shown_fields header row))) +:+
  " where id = " +:+
  default EmptyString
    (snd <$> List.find (λ cv, String.eqb cv.1 "id") (shown_fields header row)) +:+ ";".

Definition show_item (kv : option string * Csv.value) : string * string :=
  (Csv.format_key kv.1, Csv.format_value kv.2).

(** The directory, the path and the five lines of [deduplicate_csv]. *)
Definition output_directory (input_file : string) (output_dir : option string) : string :=
  match output_dir with
  | None => Os.dirname input_file
  | Some d => d
  end.

Definition output_path_at (input_file : string) (output_dir : option string)
    (timestamp : string) : string :=
  Os.join (output_directory input_file output_dir)
    ((Os.splitext (Os.basename input_file)).1 +:+ "_deduplicated_" +:+ timestamp +:+ ".csv").

Definition summary (total unique : nat) (output_path : string) : list string :=
  ["Processing complete:";
   "Total rows: " +:+ pretty total;
   "Unique rows: " +:+ pretty unique;
   "Duplicates removed: " +:+ pretty (total - unique);
   "Output saved to: " +:+ output_path].

(** A name that is a component of a path on its own: not empty, no dot or
    two dots, no separator in it. *)
Definition is_name (s : string) : Prop :=
  s ≠ EmptyString ∧ s ≠ "." ∧ s ≠ ".." ∧ Str.has_char Os.sep s = false.

(** A world with the given directories and files, where nothing is refused
    and nothing has been printed. *)
Definition world_of (dirs : list string) (files : list (string * string)) : world :=
  World (list_to_map (map (λ d, (d, Dir)) dirs ++ map (λ kv, (kv.1, File kv.2)) files))
        ∅ [] "20230101_123456".

Definition lines (l : list string) : string := Str.join newline l.

(** The files of the examples. *)
Definition products_csv : string := lines ["PRODUCT_CODE"; "ABC123"; ""; " DEF456 "].
Definition three_codes_csv : string := lines ["PRODUCT_CODE"; "ABC123"; "DEF456"; "GHI789"].
Definition product_code_csv : string := lines ["Product Code"; "ABC123"; "DEF456"].
Definition users_csv : string := lines ["id,name,age"; "1,'may',10"; "2,'Allen',15"].
Definition no_id_csv : string := lines ["name,age"; "'may',10"; "'Allen',15"].
Definition header_only_csv : string := lines ["id,name,age"; ""; ""].
Definition skus_csv : string :=
  lines ["STORE_SKU_ID,PRODUCT_CAT_CODE,ONLINE_STATUS";
         "C0001,AA123,ONLINE"; "C0002,BB456,ONLINE"; "C0001,AA123,ONLINE"; "C0002,BB456,ONLINE"].

(** One column [NOTE] and one row, whose field holds a comma and a space and
    is therefore between double quotes in the file. *)
Definition notes_csv : string :=
  lines ["NOTE"; String Str.dquote ("a, b" +:+ String Str.dquote EmptyString)].

(* ===================================================================== *)
(** * Properties *)

Ltac unfold_monad :=
  unfold mbind, mret, M_bind, M_ret, outcome_bind, outcome_ret,
    Py.bind, Py.ret, Py.raise, Py.lift, Py.try_except, Py.print in *.

(** ** The loop of the column extractor *)

Lemma getitem_cell (col : string) (row : Csv.dict) (v : string) :
  cell col row = Some v → Csv.getitem row col = Return (Csv.VStr v).
Proof.
  unfold cell, Csv.getitem. destruct (Csv.dict_get row (Some col)) as [[]|]; congruence.
Qed.

Lemma collect_value_cell (col : string) (row : Csv.dict) (v : string) (values : list string) :
  cell col row = Some v →
  collect_value col row values = Return (values ++ kept_values [v]).
Proof.
  intros Hc. unfold collect_value. rewrite (getitem_cell _ _ _ Hc). unfold_monad. simpl.
  unfold kept_values. simpl. rewrite filter_cons.
  destruct (String.eqb_spec (Str.strip v) EmptyString) as [E|E].
  - rewrite E. rewrite decide_False by (intros ?; congruence). by rewrite filter_nil, app_nil_r.
  - rewrite decide_True by done. by rewrite filter_nil.
Qed.

Lemma kept_values_cons (v : string) (vals : list string) :
  kept_values (v :: vals) = kept_values [v] ++ kept_values vals.
Proof. unfold kept_values. simpl. rewrite !filter_cons, filter_nil. by case_decide. Qed.

Lemma for_records_collect (col : string) (header : list string) (records : list (list string))
    (vals acc : list string) :
  mapM (cell col) (data_rows header records) = Some vals →
  Csv.for_records (Some header) (map Csv.Rec records) (collect_value col) acc
  = Return (acc ++ kept_values vals).
Proof.
  revert vals acc. induction records as [|r records IH]; intros vals acc Hm.
  - simpl in Hm. injection Hm as <-. simpl. by rewrite app_nil_r.
  - unfold data_rows in Hm. rewrite filter_cons in Hm. destruct r as [|f r].
    + rewrite decide_False in Hm by (intros ?; congruence). simpl. by apply IH.
    + rewrite decide_True in Hm by done. simpl in Hm.
      destruct (cell col (Csv.row_dict header (f :: r))) as [v|] eqn:Hc; [|done].
      simpl in Hm.
      destruct (mapM (cell col) (map (Csv.row_dict header) (filter (λ r0, r0 ≠ []) records)))
        as [vs|] eqn:Hvs; [|done].
      simpl in Hm. injection Hm as <-.
      change (Csv.for_records (Some header) (map Csv.Rec ((f :: r) :: records)) (collect_value col) acc)
        with (acc' ← collect_value col (Csv.row_dict header (f :: r)) acc;
              Csv.for_records (Some header) (map Csv.Rec records) (collect_value col) acc').
      rewrite (collect_value_cell _ _ _ _ Hc). unfold_monad.
      rewrite (IH vs) by exact Hvs. rewrite (kept_values_cons v vs). by rewrite app_assoc.
Qed.

Lemma printed_nil (w : world) : printed [] w = w.
Proof. destruct w. unfold printed. simpl. by rewrite app_nil_r. Qed.

Lemma tuple_literal_code (add_quotes : bool) (values : list string) :
  (if add_quotes
   then "(" +:+ Str.join ", " (map (λ value, "'" +:+ value +:+ "'") values) +:+ ")"
   else "(" +:+ Str.join ", " values +:+ ")")
  = tuple_literal add_quotes values.
Proof.
  unfold tuple_literal. destruct add_quotes; [done|]. by rewrite map_id.
Qed.

Lemma truthy_Some (s : string) : truthy (Some s) = negb (String.eqb s EmptyString).
Proof. done. Qed.

(** Closes a goal [∃ out, (r, w') = (r, printed out w)] once the run is
    computed. *)
Ltac print_done :=
  eexists; unfold printed; simpl; rewrite <- ?app_assoc; simpl; reflexivity.

(** The same with the report: [∃ out, run = (r, printed out w) ∧ (r = None →
    reports out = true)]. *)
Ltac report_done :=
  eexists; split;
  [ unfold printed; simpl; rewrite <- ?app_assoc; simpl; reflexivity
  | simpl; intros; first [discriminate | reflexivity] ].

Section RunTuple.

Variable csv_reader : string → list Csv.item.

Opaque String.append Str.join.

Lemma tuple_run (w : world) (csv_file column_name : string) (add_quotes : bool)
    (text : string) (header : list string) (items : list Csv.item) :
  Os.open_read csv_file w = (Return text, w) →
  csv_reader text = Csv.Rec header :: items →
  ∃ out, csv_column_to_mysql_tuple csv_reader csv_file column_name add_quotes w
         = (Return (tuple_value header items column_name add_quotes), printed out w)
         ∧ (tuple_value header items column_name add_quotes = None → reports out = true).
Proof.
  intros Hopen Hread.
  unfold csv_column_to_mysql_tuple, tuple_value, resolve_column.
  unfold_monad. rewrite Hopen, Hread. unfold Csv.for_rows. simpl.
  destruct (first_match (same_name column_name) header) as [c1|];
    destruct (first_match (same_name_no_spaces column_name) header) as [c2|];
    rewrite ?truthy_Some; simpl;
    try destruct (String.eqb c1 EmptyString) eqn:E1;
    try destruct (String.eqb c2 EmptyString) eqn:E2;
    simpl; rewrite ?E1, ?E2; simpl; unfold_monad;
    try match goal with
        | |- context [Csv.for_records ?f ?i ?b ?a] =>
            destruct (Csv.for_records f i b a) as [[|v vs]|e];
            cbv beta iota; rewrite ?tuple_literal_code;
            try destruct (is_FileNotFoundError e)
        end;
    report_done.
Qed.

(** The run on a file that opens and has a header, with what it prints:
    once the name resolves, the outcome of the loop decides. *)
Lemma tuple_transcript (w : world) (csv_file column_name : string) (add_quotes : bool)
    (text : string) (header : list string) (items : list Csv.item) (col : string) :
  Os.open_read csv_file w = (Return text, w) →
  csv_reader text = Csv.Rec header :: items →
  resolve_column header column_name = Some col →
  csv_column_to_mysql_tuple csv_reader csv_file column_name add_quotes w
  = match Csv.for_records (Some header) items (collect_value col) [] with
    | Return [] =>
        (Return None,
         printed (search_lines header column_name
                  ++ ["Warning: No values found for column '" +:+ col +:+ "'"]) w)
    | Return values =>
        (Return (Some (tuple_literal add_quotes values)),
         printed (search_lines header column_name) w)
    | Raise e =>
        (Return None, printed (search_lines header column_name ++ [error_line csv_file e]) w)
    end.
Proof.
  intros Hopen Hread. unfold resolve_column, search_lines, error_line.
  unfold csv_column_to_mysql_tuple. unfold_monad. rewrite Hopen, Hread.
  unfold Csv.for_rows. simpl.
  destruct (first_match (same_name column_name) header) as [c1|];
    destruct (first_match (same_name_no_spaces column_name) header) as [c2|];
    rewrite ?truthy_Some; simpl;
    try destruct (String.eqb c1 EmptyString) eqn:E1;
    try destruct (String.eqb c2 EmptyString) eqn:E2;
    simpl; rewrite ?E1, ?E2; simpl; try done; intros [= <-]; rewrite ?E1, ?E2; unfold_monad;
    match goal with
    | |- context [Csv.for_records ?f ?i ?b ?a] =>
        destruct (Csv.for_records f i b a) as [[|v vs]|e];
        cbv beta iota; rewrite ?tuple_literal_code;
        try destruct (is_FileNotFoundError e)
    end;
    unfold printed; simpl; rewrite <- ?app_assoc; reflexivity.
Qed.

(** When the name resolves to no column, the error of the search is the
    last line and no row is read. *)
Lemma tuple_unresolved (w : world) (csv_file column_name : string) (add_quotes : bool)
    (text : string) (header : list string) (items : list Csv.item) :
  Os.open_read csv_file w = (Return text, w) →
  csv_reader text = Csv.Rec header :: items →
  resolve_column header column_name = None →
  csv_column_to_mysql_tuple csv_reader csv_file column_name add_quotes w
  = (Return None,
     printed (search_lines header column_name
              ++ ["Error: Could not find column matching '" +:+ column_name +:+ "'"]) w).
Proof.
  intros Hopen Hread. unfold resolve_column, search_lines.
  unfold csv_column_to_mysql_tuple. unfold_monad. rewrite Hopen, Hread.
  unfold Csv.for_rows. simpl.
  destruct (first_match (same_name column_name) header) as [c1|];
    destruct (first_match (same_name_no_spaces column_name) header) as [c2|];
    rewrite ?truthy_Some; simpl;
    try destruct (String.eqb c1 EmptyString) eqn:E1;
    try destruct (String.eqb c2 EmptyString) eqn:E2;
    simpl; rewrite ?E1, ?E2; simpl; try done; intros _;
    unfold printed; simpl; rewrite <- ?app_assoc; reflexivity.
Qed.

Transparent String.append Str.join.

End RunTuple.

(** ** C1: the tuple literal of a column *)

(** C1.  For a file that opens, whose reader gives a header and then records,
    and a column name that resolves to [col]: when every row has a value in
    that column, [csv_column_to_mysql_tuple] returns the literal of those
    values, in row order, trimmed, the empty ones dropped, each between single
    quotes exactly when [add_quotes] is set, joined with a comma and a space
    inside one pair of parentheses; it returns [None] when no value is left.
    It only prints: the file system is as before. *)
Theorem csv_column_to_mysql_tuple_literal
    (csv_reader : string → list Csv.item) (w : world) (csv_file column_name : string)
    (add_quotes : bool) (text : string) (header : list string)
    (records : list (list string)) (col : string) (vals : list string) :
  Os.open_read csv_file w = (Return text, w) →
  csv_reader text = map Csv.Rec (header :: records) →
  resolve_column header column_name = Some col →
  mapM (cell col) (data_rows header records) = Some vals →
  ∃ out, csv_column_to_mysql_tuple csv_reader csv_file column_name add_quotes w
         = (Return (match kept_values vals with
                    | [] => None
                    | kept => Some (tuple_literal add_quotes kept)
                    end),
            printed out w).
Proof.
  intros Hopen Hread Hcol Hvals.
  destruct (tuple_run csv_reader w csv_file column_name add_quotes text header
              (map Csv.Rec records) Hopen Hread) as [out [Hrun _]].
  exists out. rewrite Hrun. unfold tuple_value. rewrite Hcol.
  rewrite (for_records_collect col header records vals [] Hvals). simpl.
  by destruct (kept_values vals).
Qed.

Lemma csv_column_to_mysql_tuple_literal_witness :
  let w := world_of [] [("test.csv", products_csv)] in
  Os.open_read "test.csv" w = (Return products_csv, w) ∧
  Excel.reader products_csv = map Csv.Rec (["PRODUCT_CODE"] :: [["ABC123"]; []; [" DEF456 "]]) ∧
  resolve_column ["PRODUCT_CODE"] "product_code" = Some "PRODUCT_CODE" ∧
  mapM (cell "PRODUCT_CODE") (data_rows ["PRODUCT_CODE"] [["ABC123"]; []; [" DEF456 "]])
    = Some ["ABC123"; " DEF456 "] ∧
  ∃ out, csv_column_to_mysql_tuple Excel.reader "test.csv" "product_code" true w
         = (Return (Some "('ABC123', 'DEF456')"), printed out w).
Proof.
  intros w.
  assert (H1 : Os.open_read "test.csv" w = (Return products_csv, w)) by (vm_compute; reflexivity).
  assert (H2 : Excel.reader products_csv
               = map Csv.Rec (["PRODUCT_CODE"] :: [["ABC123"]; []; [" DEF456 "]]))
    by (vm_compute; reflexivity).
  assert (H3 : resolve_column ["PRODUCT_CODE"] "product_code" = Some "PRODUCT_CODE")
    by (vm_compute; reflexivity).
  assert (H4 : mapM (cell "PRODUCT_CODE")
                 (data_rows ["PRODUCT_CODE"] [["ABC123"]; []; [" DEF456 "]])
               = Some ["ABC123"; " DEF456 "]) by (vm_compute; reflexivity).
  repeat split; try assumption.
  exact (csv_column_to_mysql_tuple_literal Excel.reader w "test.csv" "product_code" true
           products_csv ["PRODUCT_CODE"] [["ABC123"]; []; [" DEF456 "]] "PRODUCT_CODE"
           ["ABC123"; " DEF456 "] H1 H2 H3 H4).
Defined.

(** ** C2: the update script *)

Lemma dict_set_fresh (d : Csv.dict) (k : option string) (v : Csv.value) :
  k ∉ d.*1 → Csv.dict_set d k v = d ++ [(k, v)].
Proof.
  induction d as [|[k' v'] d IH]; intros Hk; simpl; [done|].
  rewrite fmap_cons, not_elem_of_cons in Hk. destruct Hk as [Hne Hk]. simpl in Hne.
  rewrite decide_False by congruence. by rewrite IH.
Qed.

Lemma fold_dict_set_fresh (l : list (string * string)) (d : Csv.dict) :
  NoDup l.*1 →
  (∀ k, k ∈ l.*1 → Some k ∉ d.*1) →
  fold_left (λ d kv, Csv.dict_set d (Some kv.1) (Csv.VStr kv.2)) l d = d ++ map entry l.
Proof.
  revert d. induction l as [|[k v] l IH]; intros d Hnd Hfresh; simpl.
  - by rewrite app_nil_r.
  - rewrite fmap_cons, NoDup_cons in Hnd. destruct Hnd as [Hk Hnd]. simpl in Hk.
    rewrite dict_set_fresh by (apply Hfresh; rewrite fmap_cons; apply list_elem_of_here).
    rewrite IH; [by rewrite <- app_assoc|done|].
    intros k' Hk'. rewrite fmap_app, elem_of_app. intros [Hin|Hin].
    + revert Hin. apply Hfresh. rewrite fmap_cons. by apply list_elem_of_further.
    + simpl in Hin. apply list_elem_of_singleton in Hin. injection Hin as ->. done.
Qed.

(** On a row as long as the header, and a header without a repeated name,
    the row of [DictReader] is the header zipped with the record. *)
Lemma row_dict_rectangular (header row : list string) :
  NoDup header → length row = length header →
  Csv.row_dict header row = map entry (zip header row).
Proof.
  intros Hnd Hlen. unfold Csv.row_dict, Csv.dict_of_zip.
  rewrite Hlen, Nat.ltb_irrefl.
  rewrite fold_dict_set_fresh; [done| |].
  - rewrite fst_zip by lia. done.
  - intros k _. simpl. apply not_elem_of_nil.
Qed.

Lemma filter_entries (l : list (string * string)) :
  filter (λ kv : option string * Csv.value, kv.1 ≠ Some "id") (map entry l)
  = map entry (filter (λ cv, cv.1 ≠ "id") l).
Proof.
  induction l as [|[c v] l IH]; [done|].
  simpl. rewrite !filter_cons. simpl.
  destruct (decide (c = "id")) as [->|Hne].
  - rewrite decide_False by (intros H; by apply H).
    rewrite decide_False by (intros H; by apply H). done.
  - rewrite decide_True by congruence. rewrite decide_True by done. simpl. by rewrite IH.
Qed.

Lemma dict_get_entries (l : list (string * string)) (k : string) :
  Csv.dict_get (map entry l) (Some k)
  = (λ cv, Csv.VStr cv.2) <$> List.find (λ cv, String.eqb cv.1 k) l.
Proof.
  induction l as [|[c v] l IH]; [done|].
  simpl. destruct (String.eqb_spec c k) as [->|Hne].
  - by rewrite decide_True.
  - rewrite decide_False by congruence. done.
Qed.

Lemma find_key_zip (header row : list string) (k : string) :
  k ∈ header → length row = length header →
  is_Some (List.find (λ cv, String.eqb cv.1 k) (zip header row)).
Proof.
  revert row. induction header as [|c header IH]; intros row Hin Hlen.
  - by apply elem_of_nil in Hin.
  - destruct row as [|v row]; [done|]. simpl.
    destruct (String.eqb_spec c k) as [->|Hne]; [by eexists|].
    apply IH; [|simpl in Hlen; lia].
    apply elem_of_cons in Hin as [->|Hin]; done.
Qed.

(** On such a row the value in a column is the field at the place of the
    column in the header. *)
Lemma cell_rectangular (header row : list string) (i : nat) (col : string) :
  NoDup header → length row = length header →
  header !! i = Some col →
  cell col (Csv.row_dict header row) = row !! i.
Proof.
  intros Hnd Hlen Hi. unfold cell. rewrite row_dict_rectangular, dict_get_entries by done.
  clear Hlen. revert row i Hi. induction Hnd as [|c header Hc Hnd IH]; intros row i Hi; [done|].
  destruct row as [|v row]; simpl.
  - by destruct i.
  - destruct i as [|i]; simpl in Hi.
    + injection Hi as ->. by rewrite String.eqb_refl.
    + destruct (String.eqb_spec c col) as [->|Hne].
      * exfalso. apply Hc. by apply list_elem_of_lookup_2 in Hi.
      * change ((v :: row) !! S i) with (row !! i). by apply IH.
Qed.

Lemma append_update_rectangular (table_name : string) (header row statements : list string) :
  NoDup header → "id" ∈ header → length row = length header →
  append_update table_name (Csv.row_dict header row) statements
  = Return (statements ++ [update_line table_name header row]).
Proof.
  intros Hnd Hid Hlen. unfold append_update, Csv.getitem.
  rewrite row_dict_rectangular by done.
  rewrite dict_get_entries, filter_entries.
  unfold update_line, set_clause, id_value.
  destruct (find_key_zip header row "id" Hid Hlen) as [cv Hcv]. rewrite Hcv. simpl.
  rewrite map_map. done.
Qed.

Lemma for_records_update (table_name : string) (header : list string)
    (records : list (list string)) (acc : list string) :
  NoDup header → "id" ∈ header →
  Forall (λ r, r = [] ∨ length r = length header) records →
  Csv.for_records (Some header) (map Csv.Rec records) (append_update table_name) acc
  = Return (acc ++ map (update_line table_name header) (filter (λ r, r ≠ []) records)).
Proof.
  intros Hnd Hid Hrect. revert acc.
  induction Hrect as [|r records Hr Hrect IH]; intros acc.
  - simpl. by rewrite app_nil_r.
  - rewrite filter_cons. destruct r as [|f r].
    + rewrite decide_False by (intros H; by apply H). simpl. apply IH.
    + rewrite decide_True by done. destruct Hr as [Hr|Hr]; [done|].
      change (Csv.for_records (Some header) (map Csv.Rec ((f :: r) :: records))
                (append_update table_name) acc)
        with (acc' ← append_update table_name (Csv.row_dict header (f :: r)) acc;
              Csv.for_records (Some header) (map Csv.Rec records)
                (append_update table_name) acc').
      rewrite append_update_rectangular by done. unfold_monad.
      rewrite IH. simpl. by rewrite <- app_assoc.
Qed.

(** C2.  For a file that opens, whose header has a column [id] and no name
    twice, and whose rows have as many fields as the header,
    [csv_to_mysql_update_script] returns one statement per row, in row order:
    [Update <table_name> set <set_clause> where id = <id_value>;], the set
    clause being [<column> = <value>] for every column but [id] in header
    order, joined with a comma and a space, the values as they stand in the
    file; the statements are joined with line feeds, none after the last.
    Nothing is printed or written.  The witness is the example of the
    specification: header id,name,age, rows (1,'may',10) and (2,'Allen',15),
    table user. *)
Theorem csv_to_mysql_update_script_lines
    (csv_reader : string → list Csv.item) (w : world) (csv_file table_name text : string)
    (header : list string) (records : list (list string)) :
  Os.open_read csv_file w = (Return text, w) →
  csv_reader text = map Csv.Rec (header :: records) →
  "id" ∈ header →
  NoDup header →
  Forall (λ r, r = [] ∨ length r = length header) records →
  csv_to_mysql_update_script csv_reader csv_file table_name w
  = (Return (Some (Str.join newline
                     (map (update_line table_name header) (filter (λ r, r ≠ []) records)))),
     w).
Proof.
  intros Hopen Hread Hid Hnd Hrect.
  unfold csv_to_mysql_update_script. unfold_monad. rewrite Hopen, Hread.
  unfold Csv.for_rows. simpl Csv.line_num. simpl Nat.eqb. cbv beta iota.
  unfold Csv.fieldnames. simpl.
  rewrite (for_records_update table_name header records [] Hnd Hid Hrect). done.
Qed.

Lemma csv_to_mysql_update_script_lines_witness :
  let w := world_of [] [("test.csv", users_csv)] in
  csv_to_mysql_update_script Excel.reader "test.csv" "user" w
  = (Return (Some (lines ["Update user set name = 'may', age = 10 where id = 1;";
                          "Update user set name = 'Allen', age = 15 where id = 2;"])),
     w).
Proof.
  intros w.
  assert (H1 : Os.open_read "test.csv" w = (Return users_csv, w)) by (vm_compute; reflexivity).
  assert (H2 : Excel.reader users_csv
               = map Csv.Rec (["id"; "name"; "age"] :: [["1"; "'may'"; "10"]; ["2"; "'Allen'"; "15"]]))
    by (vm_compute; reflexivity).
  assert (H3 : "id" ∈ ["id"; "name"; "age"]) by (apply list_elem_of_here).
  assert (H4 : NoDup ["id"; "name"; "age"]) by (apply (bool_decide_unpack _); vm_compute; exact I).
  assert (H5 : Forall (λ r : list string, r = [] ∨ length r = length ["id"; "name"; "age"])
                 [["1"; "'may'"; "10"]; ["2"; "'Allen'"; "15"]])
    by (repeat constructor).
  exact (csv_to_mysql_update_script_lines Excel.reader w "test.csv" "user" users_csv
           ["id"; "name"; "age"] [["1"; "'may'"; "10"]; ["2"; "'Allen'"; "15"]]
           H1 H2 H3 H4 H5).
Defined.

(** ** Opening files *)

Lemma open_read_world (p : string) (w : world) : ∃ o, Os.open_read p w = (o, w).
Proof.
  unfold Os.open_read. destruct (Os.resolve w p) as [k [|data]|k| |]; try by eexists.
  destruct (Os.ends_with_sep p); [by eexists|]. case_decide; by eexists.
Qed.

Lemma open_read_missing (p : string) (w : world) :
  Os.missing w p = true → Os.open_read p w = (Raise (Os.ENOENT p), w).
Proof.
  unfold Os.missing, Os.open_read. by destruct (Os.resolve w p) as [k [|data]|k| |].
Qed.

(** ** C8: a header without [id] *)

Lemma dict_get_absent (d : Csv.dict) (k : option string) :
  k ∉ d.*1 → Csv.dict_get d k = None.
Proof.
  induction d as [|[k' v'] d IH]; intros Hk; simpl; [done|].
  rewrite fmap_cons, not_elem_of_cons in Hk. destruct Hk as [Hne Hk]. simpl in Hne.
  rewrite decide_False by congruence. by apply IH.
Qed.

Lemma dict_set_keys (d : Csv.dict) (k : option string) (v : Csv.value) (x : option string) :
  x ∈ (Csv.dict_set d k v).*1 → x = k ∨ x ∈ d.*1.
Proof.
  induction d as [|[k' v'] d IH]; simpl.
  - rewrite list_elem_of_singleton. by left.
  - case_decide; simpl; rewrite !elem_of_cons; [tauto|].
    intros [->|Hx]; [tauto|]. destruct (IH Hx); tauto.
Qed.

Lemma fold_dict_set_keys {A : Type} (f : A → option string) (g : A → Csv.value)
    (l : list A) (d : Csv.dict) (x : option string) :
  x ∈ (fold_left (λ d a, Csv.dict_set d (f a) (g a)) l d).*1 → x ∈ d.*1 ∨ x ∈ f <$> l.
Proof.
  revert d. induction l as [|a l IH]; intros d; simpl; [tauto|].
  intros Hx. rewrite elem_of_cons.
  destruct (IH _ Hx) as [Hd|Hl]; [|tauto].
  destruct (dict_set_keys _ _ _ _ Hd); tauto.
Qed.

(** The keys of a row are names of the header, or [None]. *)
Lemma row_dict_keys (header row : list string) (c : string) :
  Some c ∈ (Csv.row_dict header row).*1 → c ∈ header.
Proof.
  unfold Csv.row_dict, Csv.dict_of_zip.
  assert (Hzip : Some c ∈
            (fold_left (λ d kv, Csv.dict_set d (Some kv.1) (Csv.VStr kv.2)) (zip header row) []).*1
          → c ∈ header).
  { intros H.
    destruct (fold_dict_set_keys (λ kv : string * string, Some kv.1) (λ kv, Csv.VStr kv.2) _ _ _ H)
      as [Hn|Hz].
    - by apply elem_of_nil in Hn.
    - apply list_elem_of_fmap in Hz as [[c' v] [Heq Hin]]. simpl in Heq. injection Heq as ->.
      by apply elem_of_zip_l in Hin. }
  destruct (length header <? length row)%nat.
  - intros H. destruct (dict_set_keys _ _ _ _ H) as [?|H']; [done|]. by apply Hzip.
  - destruct (length row <? length header)%nat; [|done].
    intros H.
    destruct (fold_dict_set_keys (λ key : string, Some key) (λ _, Csv.VNone) _ _ _ H) as [H'|H'].
    + by apply Hzip.
    + apply list_elem_of_fmap in H' as [c' [Heq Hin]]. injection Heq as ->.
      apply list_elem_of_lookup in Hin as [i Hi]. rewrite lookup_drop in Hi.
      by apply list_elem_of_lookup_2 in Hi.
Qed.

Lemma append_update_no_id (table_name : string) (header row statements : list string) :
  "id" ∉ header →
  append_update table_name (Csv.row_dict header row) statements
  = Raise (Exn KeyError "'id'").
Proof.
  intros Hid. unfold append_update, Csv.getitem.
  rewrite dict_get_absent; [done|].
  intros H. by apply Hid, (row_dict_keys header row).
Qed.

Lemma for_records_no_id (table_name : string) (header : list string)
    (records : list (list string)) (acc : list string) :
  "id" ∉ header →
  Exists (λ r, r ≠ []) records →
  Csv.for_records (Some header) (map Csv.Rec records) (append_update table_name) acc
  = Raise (Exn KeyError "'id'").
Proof.
  intros Hid Hex. induction records as [|r records IH]; [by apply Exists_nil in Hex|].
  destruct r as [|f r].
  - simpl. apply IH. apply Exists_cons in Hex as [Hex|Hex]; done.
  - change (Csv.for_records (Some header) (map Csv.Rec ((f :: r) :: records))
              (append_update table_name) acc)
      with (acc' ← append_update table_name (Csv.row_dict header (f :: r)) acc;
            Csv.for_records (Some header) (map Csv.Rec records)
              (append_update table_name) acc').
    by rewrite append_update_no_id.
Qed.

(** C8.  For a file that opens, whose header has no column [id] and which has
    a data row, [csv_to_mysql_update_script] does not raise: the [KeyError]
    of the first row is caught, one line reports it and [None] is returned. *)
Theorem csv_to_mysql_update_script_without_id
    (csv_reader : string → list Csv.item) (w : world) (csv_file table_name text : string)
    (header : list string) (records : list (list string)) :
  Os.open_read csv_file w = (Return text, w) →
  csv_reader text = map Csv.Rec (header :: records) →
  "id" ∉ header →
  Exists (λ r, r ≠ []) records →
  csv_to_mysql_update_script csv_reader csv_file table_name w
  = (Return None, printed ["Error: An unexpected error occurred: 'id'"] w).
Proof.
  intros Hopen Hread Hid Hex.
  unfold csv_to_mysql_update_script. unfold_monad. rewrite Hopen, Hread.
  unfold Csv.for_rows, Csv.fieldnames. simpl.
  by rewrite (for_records_no_id table_name header records [] Hid Hex).
Qed.

Lemma csv_to_mysql_update_script_without_id_witness :
  let w := world_of [] [("test.csv", no_id_csv)] in
  csv_to_mysql_update_script Excel.reader "test.csv" "user" w
  = (Return None, printed ["Error: An unexpected error occurred: 'id'"] w).
Proof.
  intros w.
  assert (H1 : Os.open_read "test.csv" w = (Return no_id_csv, w)) by (vm_compute; reflexivity).
  assert (H2 : Excel.reader no_id_csv
               = map Csv.Rec (["name"; "age"] :: [["'may'"; "10"]; ["'Allen'"; "15"]]))
    by (vm_compute; reflexivity).
  assert (H3 : "id" ∉ ["name"; "age"]) by (apply (bool_decide_unpack _); vm_compute; exact I).
  assert (H4 : Exists (λ r : list string, r ≠ []) [["'may'"; "10"]; ["'Allen'"; "15"]])
    by (apply Exists_cons_hd; discriminate).
  exact (csv_to_mysql_update_script_without_id Excel.reader w "test.csv" "user" no_id_csv
           ["name"; "age"] [["'may'"; "10"]; ["'Allen'"; "15"]] H1 H2 H3 H4).
Defined.

(** ** C10: a file with a header and no row *)

Lemma for_records_blank {S : Type} (fields : option (list string))
    (records : list (list string)) (body : Csv.dict → S → outcome S) (acc : S) :
  Forall (λ r, r = []) records →
  Csv.for_records fields (map Csv.Rec records) body acc = Return acc.
Proof.
  induction 1 as [|r records -> _ IH]; [done|]. simpl. apply IH.
Qed.

Lemma update_mode_not_flag (mode : string) :
  Str.lower mode = "update_script" → mode ≠ "--no-quotes".
Proof. intros H ->. vm_compute in H. discriminate. Qed.

Lemma output_not_flag (output_file : string) :
  Str.startswith output_file "output" = true → output_file ≠ "--no-quotes".
Proof. intros H ->. vm_compute in H. discriminate. Qed.

Lemma no_flag_2 (a b : string) :
  a ≠ "--no-quotes" → b ≠ "--no-quotes" → bool_decide ("--no-quotes" ∈ [a; b]) = false.
Proof.
  intros Ha Hb. apply bool_decide_eq_false. rewrite !elem_of_cons, elem_of_nil.
  intros [H|[H|H]]; [by apply Ha | by apply Hb | done].
Qed.

Lemma no_flag_1 (a : string) :
  a ≠ "--no-quotes" → bool_decide ("--no-quotes" ∈ [a]) = false.
Proof.
  intros Ha. apply bool_decide_eq_false. rewrite list_elem_of_singleton.
  intros H. by apply Ha.
Qed.

(** C10.  For a file that opens and has a header and no data row,
    [csv_to_mysql_update_script] returns the empty string, and [main] in
    update-script mode, with or without an output path, ends with the world as
    it found it: the empty result is false in Python, so it is neither printed
    nor saved, as after a failure. *)
Theorem csv_to_mysql_update_script_header_only
    (csv_reader : string → list Csv.item) (w : world) (csv_file text : string)
    (header : list string) (records : list (list string)) :
  Os.open_read csv_file w = (Return text, w) →
  csv_reader text = map Csv.Rec (header :: records) →
  Forall (λ r, r = []) records →
  (∀ table_name,
     csv_to_mysql_update_script csv_reader csv_file table_name w
     = (Return (Some EmptyString), w))
  ∧ (∀ prog mode,
       Str.lower mode = "update_script" →
       main csv_reader [prog; csv_file; mode] w = (Return tt, w))
  ∧ (∀ prog mode output_file,
       Str.lower mode = "update_script" →
       Str.startswith output_file "output" = true →
       main csv_reader [prog; csv_file; mode; output_file] w = (Return tt, w)).
Proof.
  intros Hopen Hread Hblank.
  assert (Hrun : ∀ table_name,
            csv_to_mysql_update_script csv_reader csv_file table_name w
            = (Return (Some EmptyString), w)).
  { intros table_name. unfold csv_to_mysql_update_script. unfold_monad.
    rewrite Hopen, Hread. unfold Csv.for_rows, Csv.fieldnames. simpl.
    by rewrite for_records_blank. }
  split; [exact Hrun|]. split.
  - intros prog mode Hmode. unfold main.
    rewrite (no_flag_1 mode (update_mode_not_flag mode Hmode)). simpl.
    rewrite Hmode. simpl. unfold_monad. by rewrite Hrun.
  - intros prog mode output_file Hmode Hout. unfold main.
    rewrite (no_flag_2 mode output_file (update_mode_not_flag mode Hmode)
               (output_not_flag output_file Hout)).
    simpl. rewrite Hout. simpl. rewrite Hmode. simpl. unfold_monad. by rewrite Hrun.
Qed.

Lemma csv_to_mysql_update_script_header_only_witness :
  let w := world_of [] [("test.csv", header_only_csv)] in
  (∀ table_name,
     csv_to_mysql_update_script Excel.reader "test.csv" table_name w
     = (Return (Some EmptyString), w))
  ∧ (∀ prog mode,
       Str.lower mode = "update_script" →
       main Excel.reader [prog; "test.csv"; mode] w = (Return tt, w))
  ∧ (∀ prog mode output_file,
       Str.lower mode = "update_script" →
       Str.startswith output_file "output" = true →
       main Excel.reader [prog; "test.csv"; mode; output_file] w = (Return tt, w)).
Proof.
  intros w.
  assert (H1 : Os.open_read "test.csv" w = (Return header_only_csv, w))
    by (vm_compute; reflexivity).
  assert (H2 : Excel.reader header_only_csv = map Csv.Rec (["id"; "name"; "age"] :: [[]]))
    by (vm_compute; reflexivity).
  assert (H3 : Forall (λ r : list string, r = []) [[]]) by (repeat constructor).
  exact (csv_to_mysql_update_script_header_only Excel.reader w "test.csv" header_only_csv
           ["id"; "name"; "age"] [[]] H1 H2 H3).
Defined.

(** ** C6: errors are caught, and a missing input writes nothing *)

Section Caught.

Variable csv_reader : string → list Csv.item.

Lemma tuple_missing (w : world) (csv_file column_name : string) (add_quotes : bool) :
  Os.missing w csv_file = true →
  csv_column_to_mysql_tuple csv_reader csv_file column_name add_quotes w
  = (Return None, printed ["Error: File '" +:+ csv_file +:+ "' not found."] w).
Proof.
  intros H. unfold csv_column_to_mysql_tuple. unfold_monad.
  by rewrite (open_read_missing _ _ H).
Qed.

Lemma update_missing (w : world) (csv_file table_name : string) :
  Os.missing w csv_file = true →
  csv_to_mysql_update_script csv_reader csv_file table_name w
  = (Return None, printed ["Error: File '" +:+ csv_file +:+ "' not found."] w).
Proof.
  intros H. unfold csv_to_mysql_update_script. unfold_monad.
  by rewrite (open_read_missing _ _ H).
Qed.

Lemma tuple_total (w : world) (csv_file column_name : string) (add_quotes : bool) :
  ∃ r out, csv_column_to_mysql_tuple csv_reader csv_file column_name add_quotes w
           = (Return r, printed out w)
           ∧ (r = None → reports out = true).
Proof.
  destruct (open_read_world csv_file w) as [[text|e] Hopen].
  - destruct (csv_reader text) as [|[header|e] items] eqn:Hread.
    + unfold csv_column_to_mysql_tuple. unfold_monad. rewrite Hopen, Hread. simpl.
      eexists. report_done.
    + destruct (tuple_run csv_reader w csv_file column_name add_quotes text header items
                  Hopen Hread) as [out Hrun].
      by exists (tuple_value header items column_name add_quotes), out.
    + unfold csv_column_to_mysql_tuple. unfold_monad. rewrite Hopen, Hread. simpl.
      destruct (is_FileNotFoundError e); eexists; report_done.
  - unfold csv_column_to_mysql_tuple. unfold_monad. rewrite Hopen.
    destruct (is_FileNotFoundError e); eexists; report_done.
Qed.

Lemma update_total (w : world) (csv_file table_name : string) :
  ∃ r out, csv_to_mysql_update_script csv_reader csv_file table_name w
           = (Return r, printed out w)
           ∧ (r = None → reports out = true).
Proof.
  destruct (open_read_world csv_file w) as [[text|e] Hopen];
    unfold csv_to_mysql_update_script; unfold_monad; rewrite Hopen.
  - destruct (Csv.for_rows (Csv.DictReader_new (csv_reader text))
                (append_update table_name) []) as [statements|e].
    + eexists. exists []. split; [by rewrite printed_nil|discriminate].
    + destruct (is_FileNotFoundError e); eexists; report_done.
  - destruct (is_FileNotFoundError e); eexists; report_done.
Qed.

Lemma main_missing (w : world) (prog csv_file : string) (args : list string) :
  Os.missing w csv_file = true →
  ∃ o out, main csv_reader (prog :: csv_file :: args) w = (o, printed out w).
Proof.
  intros Hmissing. unfold main. destruct args as [|a args].
  { eexists. print_done. }
  set (args' := if negb (bool_decide ("--no-quotes" ∈ a :: args))
                then a :: args else list_remove "--no-quotes" (a :: args)).
  destruct (last args') as [last_arg|].
  - destruct (if (1 <? length args')%nat && Str.startswith last_arg "output"
              then (Str.join " " (removelast args'), Some last_arg)
              else (Str.join " " args', None)) as [column_name output_file].
    unfold_monad.
    destruct (String.eqb (Str.lower column_name) "update_script").
    + rewrite update_missing by done. eexists. print_done.
    + rewrite tuple_missing by done. eexists. print_done.
  - exists (Raise (Exn IndexError "list index out of range")), []. by rewrite printed_nil.
Qed.

Lemma for_records_fault {S : Type} (fields : option (list string))
    (good : list (list string)) (e : exn) (rest : list Csv.item)
    (body : Csv.dict → S → outcome S) (acc : S) :
  ∃ e', Csv.for_records fields (map Csv.Rec good ++ Csv.Fault e :: rest) body acc = Raise e'.
Proof.
  revert acc. induction good as [|r good IH]; intros acc; [by eexists|].
  destruct r as [|f r]; [apply IH|].
  destruct fields as [header|]; [|by eexists].
  change (Csv.for_records (Some header)
            (map Csv.Rec ((f :: r) :: good) ++ Csv.Fault e :: rest) body acc)
    with (acc' ← body (Csv.row_dict header (f :: r)) acc;
          Csv.for_records (Some header) (map Csv.Rec good ++ Csv.Fault e :: rest) body acc').
  destruct (body (Csv.row_dict header (f :: r)) acc) as [acc'|e']; [apply IH|by eexists].
Qed.

Lemma tuple_open_error (w : world) (csv_file column_name : string) (add_quotes : bool)
    (e : exn) :
  Os.open_read csv_file w = (Raise e, w) →
  (csv_column_to_mysql_tuple csv_reader csv_file column_name add_quotes w).1 = Return None.
Proof.
  intros H. unfold csv_column_to_mysql_tuple. unfold_monad. rewrite H.
  by destruct (is_FileNotFoundError e).
Qed.

Lemma update_open_error (w : world) (csv_file table_name : string) (e : exn) :
  Os.open_read csv_file w = (Raise e, w) →
  (csv_to_mysql_update_script csv_reader csv_file table_name w).1 = Return None.
Proof.
  intros H. unfold csv_to_mysql_update_script. unfold_monad. rewrite H.
  by destruct (is_FileNotFoundError e).
Qed.

Lemma tuple_reader_fault (w : world) (csv_file column_name : string) (add_quotes : bool)
    (text : string) (good : list (list string)) (e : exn) (rest : list Csv.item) :
  Os.open_read csv_file w = (Return text, w) →
  csv_reader text = map Csv.Rec good ++ Csv.Fault e :: rest →
  (csv_column_to_mysql_tuple csv_reader csv_file column_name add_quotes w).1 = Return None.
Proof.
  intros Hopen Hread. destruct good as [|header records].
  - unfold csv_column_to_mysql_tuple. unfold_monad. rewrite Hopen, Hread. simpl.
    by destruct (is_FileNotFoundError e).
  - destruct (tuple_run csv_reader w csv_file column_name add_quotes text header
                (map Csv.Rec records ++ Csv.Fault e :: rest) Hopen Hread) as [out [Hrun _]].
    rewrite Hrun. simpl. unfold tuple_value.
    destruct (resolve_column header column_name) as [col|]; [|done].
    by destruct (for_records_fault (Some header) records e rest (collect_value col) [])
      as [e' ->].
Qed.

Lemma update_reader_fault (w : world) (csv_file table_name : string)
    (text : string) (good : list (list string)) (e : exn) (rest : list Csv.item) :
  Os.open_read csv_file w = (Return text, w) →
  csv_reader text = map Csv.Rec good ++ Csv.Fault e :: rest →
  (csv_to_mysql_update_script csv_reader csv_file table_name w).1 = Return None.
Proof.
  intros Hopen Hread. unfold csv_to_mysql_update_script. unfold_monad.
  rewrite Hopen, Hread. unfold Csv.for_rows, Csv.fieldnames. destruct good as [|header records].
  - simpl. by destruct (is_FileNotFoundError e).
  - simpl.
    destruct (for_records_fault (Some header) records e rest (append_update table_name) [])
      as [e' ->].
    by destruct (is_FileNotFoundError e').
Qed.

End Caught.

Lemma deduplicate_missing {Cell : Type} `{EqDecision Cell}
    (read_csv : string → outcome (Pandas.DataFrame Cell))
    (to_csv : Pandas.DataFrame Cell → string)
    (w : world) (input_file : string) (output_dir : option string) :
  Os.missing w input_file = true →
  deduplicate_csv read_csv to_csv input_file output_dir w = (Raise (Os.ENOENT input_file), w).
Proof.
  intros H. unfold deduplicate_csv. unfold_monad. by rewrite (open_read_missing _ _ H).
Qed.

(** C6.  Whatever the world, the column name and the reader of the [csv]
    module do, [csv_column_to_mysql_tuple] and [csv_to_mysql_update_script]
    return: no exception leaves them, they change nothing but the standard
    output, and when they return [None] the last line printed reports the
    failure.  They return [None] when [open] raises and when the reader
    raises anywhere in the file.  [csv_column_to_mysql_tuple] returns [None]
    as well when the name resolves to no column of the header, its last line
    being the error of the search, and when the loop over the rows ends with
    no value collected, its last line being the warning that names the
    column.  When the input file is missing they print that it was not found
    and return [None]; [main] then leaves the file system as it was, and so
    does [deduplicate_csv], which raises [FileNotFoundError] before it
    creates anything. *)
Theorem csv_to_mysql_errors_are_caught {Cell : Type} `{EqDecision Cell}
    (csv_reader : string → list Csv.item)
    (read_csv : string → outcome (Pandas.DataFrame Cell))
    (to_csv : Pandas.DataFrame Cell → string)
    (w : world) (csv_file column_name table_name : string) (add_quotes : bool) :
  (∃ r out, csv_column_to_mysql_tuple csv_reader csv_file column_name add_quotes w
            = (Return r, printed out w)
            ∧ (r = None → reports out = true))
  ∧ (∃ r out, csv_to_mysql_update_script csv_reader csv_file table_name w
              = (Return r, printed out w)
              ∧ (r = None → reports out = true))
  ∧ (∀ e, Os.open_read csv_file w = (Raise e, w) →
          (csv_column_to_mysql_tuple csv_reader csv_file column_name add_quotes w).1
          = Return None
          ∧ (csv_to_mysql_update_script csv_reader csv_file table_name w).1 = Return None)
  ∧ (∀ text good e rest,
       Os.open_read csv_file w = (Return text, w) →
       csv_reader text = map Csv.Rec good ++ Csv.Fault e :: rest →
       (csv_column_to_mysql_tuple csv_reader csv_file column_name add_quotes w).1
       = Return None
       ∧ (csv_to_mysql_update_script csv_reader csv_file table_name w).1 = Return None)
  ∧ (∀ text header items,
       Os.open_read csv_file w = (Return text, w) →
       csv_reader text = Csv.Rec header :: items →
       resolve_column header column_name = None →
       csv_column_to_mysql_tuple csv_reader csv_file column_name add_quotes w
       = (Return None,
          printed (search_lines header column_name
                   ++ ["Error: Could not find column matching '" +:+ column_name +:+ "'"]) w))
  ∧ (∀ text header items col,
       Os.open_read csv_file w = (Return text, w) →
       csv_reader text = Csv.Rec header :: items →
       resolve_column header column_name = Some col →
       Csv.for_records (Some header) items (collect_value col) [] = Return [] →
       csv_column_to_mysql_tuple csv_reader csv_file column_name add_quotes w
       = (Return None,
          printed (search_lines header column_name
                   ++ ["Warning: No values found for column '" +:+ col +:+ "'"]) w))
  ∧ (∀ text header records col vals,
       Os.open_read csv_file w = (Return text, w) →
       csv_reader text = map Csv.Rec (header :: records) →
       resolve_column header column_name = Some col →
       mapM (cell col) (data_rows header records) = Some vals →
       kept_values vals = [] →
       csv_column_to_mysql_tuple csv_reader csv_file column_name add_quotes w
       = (Return None,
          printed (search_lines header column_name
                   ++ ["Warning: No values found for column '" +:+ col +:+ "'"]) w))
  ∧ (Os.missing w csv_file = true →
       csv_column_to_mysql_tuple csv_reader csv_file column_name add_quotes w
       = (Return None, printed ["Error: File '" +:+ csv_file +:+ "' not found."] w)
       ∧ csv_to_mysql_update_script csv_reader csv_file table_name w
         = (Return None, printed ["Error: File '" +:+ csv_file +:+ "' not found."] w)
       ∧ (∀ prog args, ∃ o out, main csv_reader (prog :: csv_file :: args) w = (o, printed out w))
       ∧ (∀ output_dir,
            deduplicate_csv read_csv to_csv csv_file output_dir w
            = (Raise (Os.ENOENT csv_file), w))).
Proof.
  split; [apply tuple_total|]. split; [apply update_total|].
  split.
  { intros e He. split; [by apply (tuple_open_error _ _ _ _ _ e)
                        |by apply (update_open_error _ _ _ _ e)]. }
  split.
  { intros text good e rest Hopen Hread.
    split; [by apply (tuple_reader_fault _ _ _ _ _ text good e rest)
           |by apply (update_reader_fault _ _ _ _ text good e rest)]. }
  split.
  { intros text header items Hopen Hread Hcol.
    by apply (tuple_unresolved csv_reader w csv_file column_name add_quotes text header items). }
  split.
  { intros text header items col Hopen Hread Hcol Hloop.
    rewrite (tuple_transcript csv_reader w csv_file column_name add_quotes text header items col
               Hopen Hread Hcol).
    by rewrite Hloop. }
  split.
  { intros text header records col vals Hopen Hread Hcol Hvals Hkept.
    rewrite (tuple_transcript csv_reader w csv_file column_name add_quotes text header
               (map Csv.Rec records) col Hopen Hread Hcol).
    rewrite (for_records_collect col header records vals [] Hvals). by rewrite Hkept. }
  intros Hmissing. split; [by apply tuple_missing|]. split; [by apply update_missing|].
  split.
  - intros prog args. by apply main_missing.
  - intros output_dir. by apply deduplicate_missing.
Qed.

Lemma csv_to_mysql_errors_are_caught_witness :
  let w := world_of ["output"]
             [("test.csv", products_csv); ("blank.csv", lines ["PRODUCT_CODE"; "  "; " "])] in
  Os.missing w "nonexistent.csv" = true
  ∧ csv_column_to_mysql_tuple Excel.reader "nonexistent.csv" "PRODUCT_CODE" true w
    = (Return None, printed ["Error: File 'nonexistent.csv' not found."] w)
  ∧ csv_to_mysql_update_script Excel.reader "nonexistent.csv" "user" w
    = (Return None, printed ["Error: File 'nonexistent.csv' not found."] w)
  ∧ (∀ prog args,
       ∃ o out, main Excel.reader (prog :: "nonexistent.csv" :: args) w = (o, printed out w))
  ∧ (∀ output_dir,
       deduplicate_csv Excel.read_frame Excel.write_frame "nonexistent.csv" output_dir w
       = (Raise (Os.ENOENT "nonexistent.csv"), w))
  ∧ csv_column_to_mysql_tuple Excel.reader "test.csv" "NONEXISTENT" true w
    = (Return None,
       printed ["Available columns: PRODUCT_CODE";
                "Warning: Column 'NONEXISTENT' not found exactly, trying to find a match...";
                "Error: Could not find column matching 'NONEXISTENT'"] w)
  ∧ csv_column_to_mysql_tuple Excel.reader "blank.csv" "product_code" false w
    = (Return None,
       printed ["Available columns: PRODUCT_CODE";
                "Warning: No values found for column 'PRODUCT_CODE'"] w).
Proof.
  intros w.
  assert (H : Os.missing w "nonexistent.csv" = true) by (vm_compute; reflexivity).
  split; [exact H|].
  destruct (proj2 (proj2 (proj2 (proj2 (proj2 (proj2 (proj2
              (csv_to_mysql_errors_are_caught Excel.reader Excel.read_frame Excel.write_frame
                 w "nonexistent.csv" "PRODUCT_CODE" "user" true))))))) H)
    as (Htuple & Hupdate & Hmain & Hdedup).
  repeat (split; [assumption|]).
  split.
  - apply (proj1 (proj2 (proj2 (proj2 (proj2
             (csv_to_mysql_errors_are_caught Excel.reader Excel.read_frame Excel.write_frame
                w "test.csv" "NONEXISTENT" "user" true)))))
             products_csv ["PRODUCT_CODE"] [Csv.Rec ["ABC123"]; Csv.Rec []; Csv.Rec [" DEF456 "]]).
    + vm_compute. reflexivity.
    + vm_compute. reflexivity.
    + vm_compute. reflexivity.
  - apply (proj1 (proj2 (proj2 (proj2 (proj2 (proj2 (proj2
             (csv_to_mysql_errors_are_caught Excel.reader Excel.read_frame Excel.write_frame
                w "blank.csv" "product_code" "user" false)))))))
             (lines ["PRODUCT_CODE"; "  "; " "]) ["PRODUCT_CODE"] [["  "]; [" "]]
             "PRODUCT_CODE" ["  "; " "]).
    + vm_compute. reflexivity.
    + vm_compute. reflexivity.
    + vm_compute. reflexivity.
    + vm_compute. reflexivity.
    + vm_compute. reflexivity.
Defined.

(** ** C7: saving the result *)

(** [save_to_file] returns whatever happens: an exception of [os.makedirs]
    or of [open] is printed and dropped. *)
Lemma save_to_file_returns (content output_file : string) (w : world) :
  ∃ w', save_to_file content output_file w = (Return tt, w').
Proof.
  unfold save_to_file. unfold_monad.
  destruct (Os.makedirs (Os.dirname output_file) w) as [[[]|e] w1]; [|by eexists].
  destruct (Os.open_write output_file content w1) as [[[]|e] w2]; by eexists.
Qed.

Lemma walk_key (w : world) (absolute : bool) (above below : list string) (k : string) :
  (∃ n, Os.walk w absolute above below = Os.Found k n)
  ∨ Os.walk w absolute above below = Os.Absent k →
  k = Os.key_of absolute (above ++ filter (λ c, c ≠ ".") below).
Proof.
  revert above. induction below as [|c below IH]; intros above Hk.
  { simpl in Hk. rewrite filter_nil, app_nil_r. by destruct Hk as [[n [= <- _]]|[=]]. }
  rewrite filter_cons. simpl in Hk. destruct (decide (c = ".")) as [->|Hc].
  { rewrite decide_False by (intros H; by apply H). by apply IH. }
  rewrite decide_True by done. destruct below as [|c' below].
  - rewrite filter_nil.
    destruct (fs w !! Os.key_of absolute (above ++ [c])) as [n|].
    + by destruct Hk as [[n' [= <- _]]|[=]].
    + by destruct Hk as [[n' [=]]|[= <-]].
  - destruct (fs w !! Os.key_of absolute (above ++ [c])) as [[|data]|].
    + rewrite (IH (above ++ [c])); [by rewrite <- app_assoc|done].
    + by destruct Hk as [[n' [=]]|[=]].
    + by destruct Hk as [[n' [=]]|[=]].
Qed.

(** After a successful write the file system has the content under the key
    of the path. *)
Lemma open_write_lookup (p content : string) (w w' : world) :
  Os.open_write p content w = (Return tt, w') →
  fs w' !! Os.key p = Some (File content).
Proof.
  unfold Os.open_write, Os.resolve. destruct (decide (p = EmptyString)); [done|].
  assert (Hcreate : ∀ k, Os.create k p content w = (Return tt, w') →
                         fs w' !! k = Some (File content)).
  { intros k. unfold Os.create. destruct (Os.ends_with_sep p); [done|].
    case_decide; [done|]. intros [= <-]. simpl. apply lookup_insert_eq. }
  destruct (Os.walk w (Str.startswith p "/") [] (Os.components p)) as [k [|data]|k| |] eqn:Hwalk;
    try done.
  - intros H. unfold Os.key.
    rewrite <- (walk_key w _ [] (Os.components p) k); [by apply Hcreate|].
    left. by eexists.
  - intros H. unfold Os.key.
    rewrite <- (walk_key w _ [] (Os.components p) k); [by apply Hcreate|].
    by right.
Qed.

(** When the directory can be made and the file opened, the file holds the
    content and the path is printed. *)
Lemma save_to_file_writes (content output_file : string) (w w1 w2 : world) :
  Os.makedirs (Os.dirname output_file) w = (Return tt, w1) →
  Os.open_write output_file content w1 = (Return tt, w2) →
  save_to_file content output_file w
  = (Return tt, printed ["Result saved to: " +:+ output_file] w2)
  ∧ fs w2 !! Os.key output_file = Some (File content).
Proof.
  intros Hmk Hopen. split; [|by apply (open_write_lookup _ _ w1)].
  unfold save_to_file. unfold_monad. by rewrite Hmk, Hopen.
Qed.

(** A path without a directory part: [os.path.dirname] gives the empty
    string, which [os.makedirs] refuses; the exception is printed and the
    file is not written. *)
Lemma save_to_file_no_directory (content output_file : string) (w : world) :
  Os.dirname output_file = EmptyString →
  save_to_file content output_file w
  = (Return tt, printed ["Error saving to file: [Errno 2] No such file or directory: ''"] w).
Proof.
  intros Hdir. unfold save_to_file. unfold_monad. by rewrite Hdir.
Qed.

(** C7, on the path [output.txt].  The claim has [save_to_file] write the
    content at every output path.  For a path in the current directory it
    does not: in every world the call prints the error of [os.makedirs('')]
    and leaves the file system as it was, although opening the file itself
    succeeds, as it does in the empty world. *)
Theorem save_to_file_current_directory (content : string) :
  (∀ w, save_to_file content "output.txt" w
        = (Return tt,
           printed ["Error saving to file: [Errno 2] No such file or directory: ''"] w))
  ∧ Os.open_write "output.txt" content (world_of [] [])
    = (Return tt, set_fs {["output.txt" := File content]} (world_of [] [])).
Proof.
  split.
  - intros w. by apply save_to_file_no_directory.
  - reflexivity.
Qed.

(** ** C3 and C9: removing duplicate rows *)

Section FirstOccurrences.

Context {A : Type} `{EqDecision A}.
Implicit Types (x : A) (l seen : list A).

Lemma elem_of_first_occurrences x l : x ∈ first_occurrences l ↔ x ∈ l.
Proof.
  induction l as [|y l IH]; [done|]. simpl.
  rewrite !elem_of_cons, list_elem_of_filter, IH.
  destruct (decide (x = y)); tauto.
Qed.

Lemma NoDup_first_occurrences l : NoDup (first_occurrences l).
Proof.
  induction l as [|y l IH]; simpl; [apply NoDup_nil_2|].
  apply NoDup_cons_2; [|by apply NoDup_filter].
  rewrite list_elem_of_filter. intros [Hne _]. by apply Hne.
Qed.

Lemma sublist_first_occurrences l : first_occurrences l `sublist_of` l.
Proof.
  induction l as [|y l IH]; simpl; [done|].
  apply sublist_skip. etrans; [apply sublist_filter|done].
Qed.

Lemma filter_ne_absent x l : x ∉ l → filter (λ y, y ≠ x) l = l.
Proof.
  induction l as [|y l IH]; [done|]. rewrite not_elem_of_cons. intros [Hne Hx].
  rewrite filter_cons, decide_True by done. by rewrite IH.
Qed.

Lemma first_occurrences_NoDup l : NoDup l → first_occurrences l = l.
Proof.
  induction 1 as [|x l Hx _ IH]; [done|]. simpl. rewrite IH. by rewrite filter_ne_absent.
Qed.

Lemma first_occurrences_idempotent l :
  first_occurrences (first_occurrences l) = first_occurrences l.
Proof. apply first_occurrences_NoDup, NoDup_first_occurrences. Qed.

End FirstOccurrences.

Section DropDuplicates.

Context {Cell : Type} `{EqDecision Cell}.
Implicit Types (r : list Cell) (rs seen : list (list Cell)) (df : Pandas.DataFrame Cell).

(** The rows the mask lets through are the first occurrences that were not
    met before. *)
Lemma drop_masked_duplicated_from seen rs :
  Pandas.drop_masked (Pandas.duplicated_from seen rs) rs
  = filter (λ r, r ∉ seen) (first_occurrences rs).
Proof.
  revert seen. induction rs as [|r rs IH]; intros seen; [done|].
  simpl. rewrite IH, filter_cons, list_filter_filter.
  assert (Hsame : filter (λ r', r' ∉ seen ++ [r]) (first_occurrences rs)
                  = filter (λ r', (r' ∉ seen) ∧ (r' ≠ r)) (first_occurrences rs)).
  { apply list_filter_iff. intros r'.
    rewrite elem_of_app, list_elem_of_singleton. tauto. }
  rewrite Hsame. destruct (decide (r ∈ seen)) as [Hin|Hout].
  - rewrite bool_decide_eq_true_2 by done. rewrite decide_False by tauto. done.
  - rewrite bool_decide_eq_false_2 by done. rewrite decide_True by done. done.
Qed.

Lemma filter_not_in_nil rs : filter (λ r, r ∉ []) rs = rs.
Proof.
  induction rs as [|r rs IH]; [done|].
  rewrite filter_cons, decide_True by apply not_elem_of_nil. by rewrite IH.
Qed.

Lemma drop_duplicates_rows df :
  Pandas.rows (Pandas.drop_duplicates df) = first_occurrences (Pandas.rows df).
Proof.
  unfold Pandas.drop_duplicates, Pandas.duplicated. simpl.
  by rewrite drop_masked_duplicated_from, filter_not_in_nil.
Qed.

(** The mask is true exactly at a row equal to an earlier one. *)
Lemma duplicated_from_lookup seen rs i r :
  rs !! i = Some r →
  Pandas.duplicated_from seen rs !! i = Some (bool_decide (r ∈ seen ++ take i rs)).
Proof.
  revert seen i. induction rs as [|r' rs IH]; intros seen i Hi; [done|].
  destruct i as [|i]; simpl in *.
  - injection Hi as ->. by rewrite app_nil_r.
  - rewrite (IH _ _ Hi). by rewrite <- app_assoc.
Qed.

Lemma duplicated_lookup df i r :
  Pandas.rows df !! i = Some r →
  Pandas.duplicated df !! i = Some (bool_decide (r ∈ take i (Pandas.rows df))).
Proof. intros Hi. unfold Pandas.duplicated. by rewrite (duplicated_from_lookup [] _ i r Hi). Qed.

Lemma drop_duplicates_NoDup df :
  NoDup (Pandas.rows df) → Pandas.drop_duplicates df = df.
Proof.
  intros Hnd. destruct df as [cols rs].
  pose proof (drop_duplicates_rows (Pandas.mkDataFrame cols rs)) as Hrows.
  unfold Pandas.drop_duplicates in *. simpl in *.
  rewrite Hrows. by rewrite first_occurrences_NoDup.
Qed.

(** C9.  Removing the duplicates of a frame whose duplicates have been
    removed gives that frame again: the same columns and the same rows in the
    same order. *)
Theorem drop_duplicates_idempotent df :
  Pandas.drop_duplicates (Pandas.drop_duplicates df) = Pandas.drop_duplicates df.
Proof.
  apply drop_duplicates_NoDup. rewrite drop_duplicates_rows. apply NoDup_first_occurrences.
Qed.

End DropDuplicates.

(** C3.  For an input file that opens and that pandas reads as the frame
    [df], when the output directory can be made and the output file opened,
    [deduplicate_csv] returns the path of a file that holds, as
    [to_csv(index=False)] writes it, the frame with the columns of [df] in
    their order and, of its rows, the first occurrence of each distinct row:
    no row twice, the survivors in their input order, every input row
    present, the mask being true exactly at a row equal to an earlier one.
    The frame is written whatever the number of rows, so a file with a header
    and no row gives a frame with the same columns and no row. *)
Theorem deduplicate_csv_first_occurrences {Cell : Type} `{EqDecision Cell}
    (read_csv : string → outcome (Pandas.DataFrame Cell))
    (to_csv : Pandas.DataFrame Cell → string)
    (w w1 w2 : world) (input_file text : string) (output_dir : option string)
    (df : Pandas.DataFrame Cell) :
  let dir := match output_dir with
             | None => Os.dirname input_file
             | Some d => d
             end in
  let path := Os.join dir ((Os.splitext (Os.basename input_file)).1 +:+
                           "_deduplicated_" +:+ clock w +:+ ".csv") in
  let out := Pandas.drop_duplicates df in
  Os.open_read input_file w = (Return text, w) →
  read_csv text = Return df →
  Os.makedirs dir w = (Return tt, w1) →
  Os.open_write path (to_csv out) w1 = (Return tt, w2) →
  deduplicate_csv read_csv to_csv input_file output_dir w
  = (Return path,
     printed ["Processing complete:";
              "Total rows: " +:+ pretty (length (Pandas.rows df));
              "Unique rows: " +:+ pretty (length (Pandas.rows out));
              "Duplicates removed: " +:+
                pretty (length (Pandas.rows df) - length (Pandas.rows out));
              "Output saved to: " +:+ path] w2)
  ∧ fs w2 !! Os.key path = Some (File (to_csv out))
  ∧ Pandas.columns out = Pandas.columns df
  ∧ Pandas.rows out = first_occurrences (Pandas.rows df)
  ∧ NoDup (Pandas.rows out)
  ∧ Pandas.rows out `sublist_of` Pandas.rows df
  ∧ (∀ r, r ∈ Pandas.rows out ↔ r ∈ Pandas.rows df)
  ∧ (∀ i r, Pandas.rows df !! i = Some r →
            Pandas.duplicated df !! i = Some (bool_decide (r ∈ take i (Pandas.rows df))))
  ∧ (Pandas.rows df = [] → out = df).
Proof.
  intros dir path out Hopen Hread Hmk Hwrite.
  split.
  { unfold deduplicate_csv, now_strftime. unfold_monad. rewrite Hopen, Hread.
    fold dir. rewrite Hmk. fold out. fold path. rewrite Hwrite.
    unfold printed. simpl. by rewrite <- !app_assoc. }
  split; [by apply (open_write_lookup _ _ w1)|].
  split; [done|].
  assert (Hrows : Pandas.rows out = first_occurrences (Pandas.rows df))
    by apply drop_duplicates_rows.
  split; [done|]. rewrite Hrows.
  split; [apply NoDup_first_occurrences|].
  split; [apply sublist_first_occurrences|].
  split; [intros r; apply elem_of_first_occurrences|].
  split; [apply duplicated_lookup|].
  intros Hnil. apply drop_duplicates_NoDup. rewrite Hnil. apply NoDup_nil_2.
Qed.

Lemma deduplicate_csv_first_occurrences_witness :
  let w := world_of [] [("test.csv", skus_csv)] in
  let path := "output/test_deduplicated_20230101_123456.csv" in
  ∃ w2,
    deduplicate_csv Excel.read_frame Excel.write_frame "test.csv" (Some "output") w
    = (Return path,
       printed ["Processing complete:"; "Total rows: 4"; "Unique rows: 2";
                "Duplicates removed: 2"; "Output saved to: " +:+ path] w2)
    ∧ fs w2 !! path
      = Some (File (lines ["STORE_SKU_ID,PRODUCT_CAT_CODE,ONLINE_STATUS";
                           "C0001,AA123,ONLINE"; "C0002,BB456,ONLINE"; ""])).
Proof.
  intros w path.
  pose (df := Pandas.mkDataFrame ["STORE_SKU_ID"; "PRODUCT_CAT_CODE"; "ONLINE_STATUS"]
                [["C0001"; "AA123"; "ONLINE"]; ["C0002"; "BB456"; "ONLINE"];
                 ["C0001"; "AA123"; "ONLINE"]; ["C0002"; "BB456"; "ONLINE"]]).
  pose (w1 := (Os.makedirs "output" w).2).
  pose (text := Excel.write_frame (Pandas.drop_duplicates df)).
  pose (w2 := (Os.open_write path text w1).2).
  assert (H1 : Os.open_read "test.csv" w = (Return skus_csv, w)) by (vm_compute; reflexivity).
  assert (H2 : Excel.read_frame skus_csv = Return df) by (vm_compute; reflexivity).
  assert (H3 : Os.makedirs "output" w = (Return tt, w1)) by (vm_compute; reflexivity).
  assert (H4 : Os.open_write path text w1 = (Return tt, w2)) by (vm_compute; reflexivity).
  exists w2.
  exact (conj (proj1 (deduplicate_csv_first_occurrences Excel.read_frame Excel.write_frame
                        w w1 w2 "test.csv" skus_csv (Some "output") df H1 H2 H3 H4))
              (proj1 (proj2 (deduplicate_csv_first_occurrences Excel.read_frame
                               Excel.write_frame w w1 w2 "test.csv" skus_csv (Some "output")
                               df H1 H2 H3 H4)))).
Defined.

(** ** C4: resolving the column name *)

Lemma find_ext_in {A : Type} (f g : A → bool) (l : list A) :
  (∀ x, x ∈ l → f x = g x) → List.find f l = List.find g l.
Proof.
  induction l as [|x l IH]; intros Hfg; [done|]. simpl.
  rewrite <- (Hfg x) by apply list_elem_of_here.
  destruct (f x); [done|]. apply IH. intros y Hy. apply Hfg. by apply list_elem_of_further.
Qed.

Lemma find_elem_of {A : Type} (f : A → bool) (l : list A) (x : A) :
  List.find f l = Some x → x ∈ l ∧ f x = true.
Proof.
  intros H. apply find_some in H as [Hin Hf]. split; [|done]. by apply list_elem_of_In.
Qed.

Lemma find_is_Some {A : Type} (f : A → bool) (l : list A) (x : A) :
  x ∈ l → f x = true → is_Some (List.find f l).
Proof.
  intros Hin Hf. destruct (List.find f l) as [y|] eqn:Hfind; [by eexists|].
  apply list_elem_of_In in Hin. pose proof (find_none f l Hfind x Hin). congruence.
Qed.

(** With no empty name in the header the search is the two passes: the
    first column equal to the name up to case, else the first column equal
    to it up to case and spaces. *)
Lemma resolve_column_two_passes (header : list string) (column_name : string) :
  EmptyString ∉ header →
  resolve_column header column_name
  = match first_match (same_name column_name) header with
    | Some col => Some col
    | None => first_match (same_name_no_spaces column_name) header
    end.
Proof.
  intros Hne. unfold resolve_column, first_match.
  assert (Htruthy : ∀ f c, List.find f header = Some c → String.eqb c EmptyString = false).
  { intros f c Hc. apply find_elem_of in Hc as [Hin _]. apply String.eqb_neq. by intros ->. }
  destruct (List.find (same_name column_name) header) as [c1|] eqn:H1;
    [|destruct (List.find (same_name_no_spaces column_name) header) as [c2|] eqn:H2];
    rewrite ?truthy_Some, ?(Htruthy _ _ H1), ?(Htruthy _ _ H2); simpl;
    rewrite ?(Htruthy _ _ H1), ?(Htruthy _ _ H2); done.
Qed.

Lemma resolve_column_lower (header : list string) (n1 n2 : string) :
  Str.lower n1 = Str.lower n2 → resolve_column header n1 = resolve_column header n2.
Proof.
  intros H. unfold resolve_column, same_name, same_name_no_spaces. by rewrite H.
Qed.

Lemma resolve_column_spaces (header : list string) (n1 n2 : string) :
  Str.remove_char " " (Str.lower n1) = Str.remove_char " " (Str.lower n2) →
  first_match (same_name n1) header = None →
  first_match (same_name n2) header = None →
  resolve_column header n1 = resolve_column header n2.
Proof.
  intros H H1 H2. unfold resolve_column. rewrite H1, H2.
  unfold same_name_no_spaces. by rewrite H.
Qed.

Lemma lower_product_code_named (c : string) : Str.lower c = "product code" → c ≠ EmptyString.
Proof. by intros H ->. Qed.

(** [productcode] reaches the column [Product Code] when that spelling, up
    to case, is the only one in the header that matches without spaces. *)
Lemma resolve_productcode (header : list string) :
  "Product Code" ∈ header →
  (∀ c, c ∈ header →
        Str.remove_char " " (Str.lower c) = "productcode" → Str.lower c = "product code") →
  resolve_column header "productcode" = resolve_column header "PRODUCT CODE".
Proof.
  intros Hin Honly.
  assert (Hsame : first_match (same_name_no_spaces "productcode") header
                  = first_match (same_name "PRODUCT CODE") header).
  { apply find_ext_in. intros c Hc. unfold same_name_no_spaces, same_name.
    change (Str.remove_char " " (Str.lower "productcode")) with "productcode".
    change (Str.lower "PRODUCT CODE") with "product code".
    destruct (String.eqb_spec (Str.lower c) "product code") as [E|E].
    - rewrite E. reflexivity.
    - apply String.eqb_neq. intros E'. by apply E, Honly. }
  assert (Hnone : first_match (same_name "productcode") header = None).
  { destruct (first_match (same_name "productcode") header) as [c|] eqn:Hc; [|done].
    apply find_elem_of in Hc as [Hc Heq]. unfold same_name in Heq.
    apply String.eqb_eq in Heq. change (Str.lower "productcode") with "productcode" in Heq.
    assert (Hpc : Str.lower c = "product code").
    { apply Honly; [done|]. by rewrite Heq. }
    rewrite Heq in Hpc. discriminate. }
  destruct (find_is_Some (same_name "PRODUCT CODE") header "Product Code" Hin eq_refl)
    as [c Hc].
  assert (Hnamed : String.eqb c EmptyString = false).
  { apply String.eqb_neq, lower_product_code_named.
    apply find_elem_of in Hc as [_ Heq]. by apply String.eqb_eq in Heq. }
  unfold resolve_column. rewrite Hnone, Hsame. unfold first_match in *. rewrite Hc. simpl.
  rewrite !Hnamed. simpl. by rewrite ?Hnamed.
Qed.

Lemma resolve_product_underscore (header : list string) :
  (∀ c, c ∈ header → Str.remove_char " " (Str.lower c) ≠ "product_code") →
  resolve_column header "product_code" = None.
Proof.
  intros Hno.
  assert (H2 : first_match (same_name_no_spaces "product_code") header = None).
  { destruct (first_match (same_name_no_spaces "product_code") header) as [c|] eqn:Hc; [|done].
    apply find_elem_of in Hc as [Hc Heq]. unfold same_name_no_spaces in Heq.
    apply String.eqb_eq in Heq. by apply Hno in Heq. }
  assert (H1 : first_match (same_name "product_code") header = None).
  { destruct (first_match (same_name "product_code") header) as [c|] eqn:Hc; [|done].
    apply find_elem_of in Hc as [Hc Heq]. unfold same_name in Heq.
    apply String.eqb_eq in Heq. exfalso. apply (Hno c Hc). by rewrite Heq. }
  unfold resolve_column. by rewrite H1, H2.
Qed.

(** The claim as stated fails: with the header [Product Code], the name
    [product_code] resolves to nothing (its underscore is no space), while
    [PRODUCT CODE] gives the column. *)
Lemma product_code_underscore_counterexample :
  (csv_column_to_mysql_tuple Excel.reader "test.csv" "product_code" true
     (world_of [] [("test.csv", product_code_csv)])).1
  = Return None
  ∧ (csv_column_to_mysql_tuple Excel.reader "test.csv" "PRODUCT CODE" true
       (world_of [] [("test.csv", product_code_csv)])).1
    = Return (Some "('ABC123', 'DEF456')").
Proof. split; vm_compute; reflexivity. Qed.

(** C4, amended.  On a file that opens and has a header, what
    [csv_column_to_mysql_tuple] returns depends on the column name through
    the resolved column only, and the resolution is in two passes: with no
    empty name in the header, the first column equal to the name up to case
    and, only when there is none, the first column equal to it up to case
    once the spaces are removed.  So two names equal up to case give the
    same result, as do two names equal up to case and spaces when neither
    matches a column exactly.  In particular [product code] and
    [PRODUCT CODE] give the same result; so does [productcode] when the
    header has [Product Code] and every column matching [productcode] without
    spaces is [product code] up to case; and [product_code] resolves to
    nothing unless a column matches it with its underscore. *)
Theorem column_resolution_case_and_spaces
    (csv_reader : string → list Csv.item) (w : world) (csv_file : string)
    (add_quotes : bool) (text : string) (header : list string) (items : list Csv.item) :
  Os.open_read csv_file w = (Return text, w) →
  csv_reader text = Csv.Rec header :: items →
  let result := λ column_name,
    (csv_column_to_mysql_tuple csv_reader csv_file column_name add_quotes w).1 in
  (∀ name, result name = Return (tuple_value header items name add_quotes))
  ∧ (EmptyString ∉ header →
     ∀ name, resolve_column header name
             = match first_match (same_name name) header with
               | Some col => Some col
               | None => first_match (same_name_no_spaces name) header
               end)
  ∧ (∀ n1 n2, Str.lower n1 = Str.lower n2 → result n1 = result n2)
  ∧ (∀ n1 n2,
       Str.remove_char " " (Str.lower n1) = Str.remove_char " " (Str.lower n2) →
       first_match (same_name n1) header = None →
       first_match (same_name n2) header = None →
       result n1 = result n2)
  ∧ result "product code" = result "PRODUCT CODE"
  ∧ ("Product Code" ∈ header →
     (∀ c, c ∈ header →
           Str.remove_char " " (Str.lower c) = "productcode" → Str.lower c = "product code") →
     result "productcode" = result "PRODUCT CODE")
  ∧ ((∀ c, c ∈ header → Str.remove_char " " (Str.lower c) ≠ "product_code") →
     result "product_code" = Return None).
Proof.
  intros Hopen Hread result.
  assert (Hres : ∀ name, result name = Return (tuple_value header items name add_quotes)).
  { intros name. unfold result.
    destruct (tuple_run csv_reader w csv_file name add_quotes text header items Hopen Hread)
      as [out [Hrun _]].
    by rewrite Hrun. }
  assert (Hsame : ∀ n1 n2, resolve_column header n1 = resolve_column header n2 →
                           result n1 = result n2).
  { intros n1 n2 H. rewrite !Hres. unfold tuple_value. by rewrite H. }
  split; [exact Hres|].
  split; [intros Hne name; by apply resolve_column_two_passes|].
  split; [intros n1 n2 H; by apply Hsame, resolve_column_lower|].
  split; [intros n1 n2 H H1 H2; by apply Hsame, resolve_column_spaces|].
  split; [by apply Hsame, resolve_column_lower|].
  split; [intros Hin Honly; by apply Hsame, resolve_productcode|].
  intros Hno. rewrite Hres. unfold tuple_value. by rewrite resolve_product_underscore.
Qed.

Lemma column_resolution_case_and_spaces_witness :
  let w := world_of [] [("test.csv", product_code_csv)] in
  let result := λ column_name,
    (csv_column_to_mysql_tuple Excel.reader "test.csv" column_name true w).1 in
  result "product code" = result "PRODUCT CODE"
  ∧ result "productcode" = result "PRODUCT CODE"
  ∧ result "PRODUCT CODE" = Return (Some "('ABC123', 'DEF456')")
  ∧ result "product_code" = Return None.
Proof.
  intros w result.
  assert (H1 : Os.open_read "test.csv" w = (Return product_code_csv, w))
    by (vm_compute; reflexivity).
  assert (H2 : Excel.reader product_code_csv
               = Csv.Rec ["Product Code"] :: [Csv.Rec ["ABC123"]; Csv.Rec ["DEF456"]])
    by (vm_compute; reflexivity).
  assert (Hin : "Product Code" ∈ ["Product Code"]) by apply list_elem_of_here.
  assert (Honly : ∀ c, c ∈ ["Product Code"] →
                       Str.remove_char " " (Str.lower c) = "productcode" →
                       Str.lower c = "product code").
  { intros c Hc _. apply list_elem_of_singleton in Hc. rewrite Hc. reflexivity. }
  assert (Hno : ∀ c, c ∈ ["Product Code"] →
                     Str.remove_char " " (Str.lower c) ≠ "product_code").
  { intros c Hc. apply list_elem_of_singleton in Hc. rewrite Hc. discriminate. }
  pose proof (column_resolution_case_and_spaces Excel.reader w "test.csv" true
                product_code_csv ["Product Code"] [Csv.Rec ["ABC123"]; Csv.Rec ["DEF456"]]
                H1 H2) as (Hres & _ & _ & _ & Hcase & Hspace & Hunder).
  split; [exact Hcase|]. split; [exact (Hspace Hin Honly)|].
  split; [exact (Hres "PRODUCT CODE")|]. exact (Hunder Hno).
Defined.

(** ** C5: splitting the literal back *)

Lemma drop_closing_app (s : string) : drop_closing (s +:+ ")") = s.
Proof.
  induction s as [|c s IH]; [done|].
  destruct s as [|d s]; [done|].
  change (drop_closing (String c (String d s) +:+ ")"))
    with (String c (drop_closing (String d s +:+ ")"))).
  by rewrite IH.
Qed.

Lemma trim_parens_tuple_literal (add_quotes : bool) (values : list string) :
  trim_parens (tuple_literal add_quotes values)
  = Str.join ", " (map (λ v, if add_quotes then "'" +:+ v +:+ "'" else v) values).
Proof. unfold tuple_literal. simpl. apply drop_closing_app. Qed.

Lemma prefix_nil (s : string) : String.prefix EmptyString s = true.
Proof. by destruct s. Qed.

Lemma prefix_cons (a b : ascii) (s1 s2 : string) :
  String.prefix (String a s1) (String b s2)
  = if ascii_dec a b then String.prefix s1 s2 else false.
Proof. reflexivity. Qed.

(** A separator begins at the head of [String c (v +:+ ", " +:+ rest)] only
    if one begins at the head of [String c v]. *)
Lemma prefix_sep_app (c : ascii) (v rest : string) :
  String.prefix ", " (String c (v +:+ ", " +:+ rest)) = String.prefix ", " (String c v).
Proof.
  rewrite !prefix_cons. destruct (ascii_dec "," c); [|done].
  destruct v as [|d v]; [reflexivity|].
  change (String d v +:+ ", " +:+ rest) with (String d (v +:+ ", " +:+ rest)).
  rewrite !prefix_cons. destruct (ascii_dec " " d); [|done]. by rewrite !prefix_nil.
Qed.

Lemma contains_cons (sub : string) (c : ascii) (s : string) :
  Str.contains sub (String c s) = false →
  String.prefix sub (String c s) = false ∧ Str.contains sub s = false.
Proof. simpl. intros H. by apply orb_false_elim in H. Qed.

Lemma split_from_token (v rest : string) :
  Str.contains ", " v = false →
  Str.split_from ", " 0 (v +:+ ", " +:+ rest) = v :: Str.split_from ", " 0 rest.
Proof.
  induction v as [|c v IH]; intros Hv.
  { change (EmptyString +:+ ", " +:+ rest) with (String "," (String " " rest)).
    cbn [Str.split_from]. rewrite !prefix_cons.
    destruct (ascii_dec "," ","); [|done]. destruct (ascii_dec " " " "); [|done].
    by rewrite prefix_nil. }
  apply contains_cons in Hv as [Hhead Hv].
  change (String c v +:+ ", " +:+ rest) with (String c (v +:+ ", " +:+ rest)).
  cbn [Str.split_from]. rewrite prefix_sep_app, Hhead. by rewrite (IH Hv).
Qed.

Lemma split_from_last (v : string) :
  Str.contains ", " v = false → Str.split_from ", " 0 v = [v].
Proof.
  induction v as [|c v IH]; intros Hv; [done|].
  apply contains_cons in Hv as [Hhead Hv].
  cbn [Str.split_from]. rewrite Hhead. by rewrite (IH Hv).
Qed.

(** [', '.join(vs).split(', ')] gives [vs] back when [vs] is not empty and no
    element holds the separator. *)
Lemma split_join (vs : list string) :
  vs ≠ [] →
  Forall (λ v, Str.contains ", " v = false) vs →
  Str.split ", " (Str.join ", " vs) = vs.
Proof.
  intros Hne Hvs. unfold Str.split, Str.join.
  induction Hvs as [|v vs Hv Hvs IH]; [done|].
  destruct vs as [|v' vs].
  - simpl. by apply split_from_last.
  - change (String.concat ", " (v :: v' :: vs))
      with (v +:+ ", " +:+ String.concat ", " (v' :: vs)).
    rewrite split_from_token by done. by rewrite IH.
Qed.

Lemma contains_quoted_end (v : string) :
  Str.contains ", " (v +:+ "'") = Str.contains ", " v.
Proof.
  induction v as [|c v IH]; [done|].
  change (String c v +:+ "'") with (String c (v +:+ "'")).
  cbn [Str.contains]. rewrite IH. f_equal.
  rewrite !prefix_cons. destruct (ascii_dec "," c); [|done].
  destruct v as [|d v]; [reflexivity|].
  change (String d v +:+ "'") with (String d (v +:+ "'")).
  rewrite !prefix_cons. destruct (ascii_dec " " d); [|done]. by rewrite !prefix_nil.
Qed.

Lemma contains_quoted (v : string) :
  Str.contains ", " ("'" +:+ v +:+ "'") = Str.contains ", " v.
Proof. change ("'" +:+ v +:+ "'") with (String "'" (v +:+ "'")). apply contains_quoted_end. Qed.

(** The claim as stated fails twice.  With the default [add_quotes] the
    pieces are the values between quotes, not the values; and without
    quotes a value that holds a comma and a space comes back in two pieces. *)
Lemma split_back_counterexample :
  ((csv_column_to_mysql_tuple Excel.reader "test.csv" "PRODUCT_CODE" true
      (world_of [] [("test.csv", products_csv)])).1
   = Return (Some "('ABC123', 'DEF456')")
   ∧ Str.split ", " (trim_parens "('ABC123', 'DEF456')") = ["'ABC123'"; "'DEF456'"]
   ∧ kept_values ["ABC123"; " DEF456 "] = ["ABC123"; "DEF456"])
  ∧ ((csv_column_to_mysql_tuple Excel.reader "test.csv" "NOTE" false
        (world_of [] [("test.csv", notes_csv)])).1
     = Return (Some "(a, b)")
     ∧ Str.split ", " (trim_parens "(a, b)") = ["a"; "b"]
     ∧ kept_values ["a, b"] = ["a, b"]).
Proof. repeat split; vm_compute; reflexivity. Qed.

(** C5, amended.  When [csv_column_to_mysql_tuple] succeeds on a column in
    which every row has a value, and no kept value holds a comma followed by
    a space, the returned string without its outer parentheses, split at
    each comma followed by a space, is the list of the trimmed values that
    are not empty, in row order: each between single quotes when
    [add_quotes] is set, as they are when it is not. *)
Theorem csv_column_to_mysql_tuple_splits_back
    (csv_reader : string → list Csv.item) (w : world) (csv_file column_name : string)
    (add_quotes : bool) (text : string) (header : list string)
    (records : list (list string)) (col : string) (vals : list string) (s : string) :
  Os.open_read csv_file w = (Return text, w) →
  csv_reader text = map Csv.Rec (header :: records) →
  resolve_column header column_name = Some col →
  mapM (cell col) (data_rows header records) = Some vals →
  Forall (λ v, Str.contains ", " v = false) (kept_values vals) →
  (csv_column_to_mysql_tuple csv_reader csv_file column_name add_quotes w).1 = Return (Some s) →
  Str.split ", " (trim_parens s)
  = if add_quotes then map (λ v, "'" +:+ v +:+ "'") (kept_values vals) else kept_values vals.
Proof.
  intros Hopen Hread Hcol Hvals Hsep Hrun.
  destruct (tuple_run csv_reader w csv_file column_name add_quotes text header
              (map Csv.Rec records) Hopen Hread) as [out [Hrun' _]].
  rewrite Hrun' in Hrun. simpl in Hrun. unfold tuple_value in Hrun. rewrite Hcol in Hrun.
  rewrite (for_records_collect col header records vals [] Hvals) in Hrun. simpl in Hrun.
  destruct (kept_values vals) as [|v kept] eqn:Hkept; [discriminate|].
  injection Hrun as <-. rewrite trim_parens_tuple_literal.
  destruct add_quotes.
  - apply split_join; [done|].
    apply Forall_fmap. eapply Forall_impl; [exact Hsep|].
    intros v' Hv'. unfold compose. cbv beta in *. by rewrite contains_quoted.
  - rewrite map_id. by apply split_join.
Qed.

Lemma csv_column_to_mysql_tuple_splits_back_witness :
  Str.split ", " (trim_parens "('ABC123', 'DEF456')") = ["'ABC123'"; "'DEF456'"]
  ∧ Str.split ", " (trim_parens "(ABC123, DEF456)") = ["ABC123"; "DEF456"].
Proof.
  pose (w := world_of [] [("test.csv", products_csv)]).
  assert (H1 : Os.open_read "test.csv" w = (Return products_csv, w)) by (vm_compute; reflexivity).
  assert (H2 : Excel.reader products_csv
               = map Csv.Rec (["PRODUCT_CODE"] :: [["ABC123"]; []; [" DEF456 "]]))
    by (vm_compute; reflexivity).
  assert (H3 : resolve_column ["PRODUCT_CODE"] "product_code" = Some "PRODUCT_CODE")
    by (vm_compute; reflexivity).
  assert (H4 : mapM (cell "PRODUCT_CODE")
                 (data_rows ["PRODUCT_CODE"] [["ABC123"]; []; [" DEF456 "]])
               = Some ["ABC123"; " DEF456 "]) by (vm_compute; reflexivity).
  assert (H5 : Forall (λ v, Str.contains ", " v = false) (kept_values ["ABC123"; " DEF456 "]))
    by (repeat constructor).
  assert (H6 : (csv_column_to_mysql_tuple Excel.reader "test.csv" "product_code" true w).1
               = Return (Some "('ABC123', 'DEF456')")) by (vm_compute; reflexivity).
  assert (H7 : (csv_column_to_mysql_tuple Excel.reader "test.csv" "product_code" false w).1
               = Return (Some "(ABC123, DEF456)")) by (vm_compute; reflexivity).
  split.
  - exact (csv_column_to_mysql_tuple_splits_back Excel.reader w "test.csv" "product_code" true
             products_csv ["PRODUCT_CODE"] [["ABC123"]; []; [" DEF456 "]] "PRODUCT_CODE"
             ["ABC123"; " DEF456 "] "('ABC123', 'DEF456')" H1 H2 H3 H4 H5 H6).
  - exact (csv_column_to_mysql_tuple_splits_back Excel.reader w "test.csv" "product_code" false
             products_csv ["PRODUCT_CODE"] [["ABC123"]; []; [" DEF456 "]] "PRODUCT_CODE"
             ["ABC123"; " DEF456 "] "(ABC123, DEF456)" H1 H2 H3 H4 H5 H7).
Defined.

(* ===================================================================== *)
(** * Further properties of the tools *)

(** ** The file system under the tools *)

Lemma grows_by_dirs_refl (w : world) : grows_by_dirs w w.
Proof. repeat split. intros k. by left. Qed.

Lemma grows_by_dirs_trans (w1 w2 w3 : world) :
  grows_by_dirs w1 w2 → grows_by_dirs w2 w3 → grows_by_dirs w1 w3.
Proof.
  intros (Hd1 & Ho1 & Hc1 & H1) (Hd2 & Ho2 & Hc2 & H2).
  repeat split; [congruence..|].
  intros k. destruct (H1 k) as [E1|[E1 E1']], (H2 k) as [E2|[E2 E2']].
  - left. congruence.
  - right. split; congruence.
  - right. split; congruence.
  - congruence.
Qed.

Lemma walk_absent (w : world) (absolute : bool) (above below : list string) (k : string) :
  Os.walk w absolute above below = Os.Absent k → fs w !! k = None.
Proof.
  revert above. induction below as [|c below IH]; intros above; simpl; [done|].
  destruct (decide (c = ".")); [apply IH|].
  destruct below as [|c' below].
  - destruct (fs w !! Os.key_of absolute (above ++ [c])) eqn:E; [done|]. by intros [= <-].
  - destruct (fs w !! Os.key_of absolute (above ++ [c])) as [[|data]|]; [apply IH|done..].
Qed.

Lemma walk_found_file (w : world) (absolute : bool) (above below : list string)
    (k data : string) :
  Os.walk w absolute above below = Os.Found k (File data) → fs w !! k = Some (File data).
Proof.
  revert above. induction below as [|c below IH]; intros above; simpl; [done|].
  destruct (decide (c = ".")); [apply IH|].
  destruct below as [|c' below].
  - destruct (fs w !! Os.key_of absolute (above ++ [c])) eqn:E; [|done]. by intros [= <- <-].
  - destruct (fs w !! Os.key_of absolute (above ++ [c])) as [[|data']|]; [apply IH|done..].
Qed.

Lemma resolve_absent (w : world) (p k : string) :
  Os.resolve w p = Os.Absent k → fs w !! k = None.
Proof. unfold Os.resolve. case_decide; [done|]. apply walk_absent. Qed.

Lemma mkdir_grows (p : string) (w w' : world) (o : outcome unit) :
  Os.mkdir p w = (o, w') → grows_by_dirs w w'.
Proof.
  unfold Os.mkdir. destruct (Os.resolve w p) as [k n|k| |] eqn:Hres;
    try (intros [= <- <-]; apply grows_by_dirs_refl).
  case_decide; intros [= <- <-]; [apply grows_by_dirs_refl|].
  repeat split. intros k'. simpl. destruct (decide (k' = k)) as [->|Hne].
  - right. rewrite lookup_insert_eq. split; [by apply (resolve_absent w p)|done].
  - left. by rewrite lookup_insert_ne.
Qed.

Lemma make_missing_grows (ps : list string) (w w' : world) (o : outcome unit) :
  Os.make_missing ps w = (o, w') → grows_by_dirs w w'.
Proof.
  revert w. induction ps as [|p ps IH]; intros w; simpl.
  - intros [= <- <-]. apply grows_by_dirs_refl.
  - destruct (Os.stat w p); [apply IH|].
    unfold_monad. destruct (Os.mkdir p w) as [[[]|e] w1] eqn:Hmk.
    + intros H. eapply grows_by_dirs_trans; [by eapply mkdir_grows|by eapply IH].
    + intros [= <- <-]. by eapply mkdir_grows.
Qed.

Lemma makedirs_grows (name : string) (w w' : world) (o : outcome unit) :
  Os.makedirs name w = (o, w') → grows_by_dirs w w'.
Proof.
  unfold Os.makedirs. unfold_monad.
  destruct (Os.make_missing (Os.ancestors name) w) as [[[]|e] w1] eqn:Hmm.
  - destruct (Os.mkdir name w1) as [[[]|e] w2] eqn:Hmk.
    + intros [= <- <-].
      eapply grows_by_dirs_trans; [by eapply make_missing_grows|by eapply mkdir_grows].
    + intros H.
      assert (w' = w2) as -> by (destruct (Os.stat w2 name) as [[|?]|]; congruence).
      eapply grows_by_dirs_trans; [by eapply make_missing_grows|by eapply mkdir_grows].
  - intros [= <- <-]. by eapply make_missing_grows.
Qed.

(** [open] for writing changes the entry under the key of the path or nothing. *)
Lemma open_write_world (p content : string) (w w' : world) (o : outcome unit) :
  Os.open_write p content w = (o, w') →
  (o = Return tt ∧ w' = set_fs (<[Os.key p := File content]> (fs w)) w
   ∧ fs w !! Os.key p ≠ Some Dir)
  ∨ ((∃ e, o = Raise e) ∧ w' = w).
Proof.
  unfold Os.open_write, Os.resolve. destruct (decide (p = EmptyString)).
  { intros [= <- <-]. right. split; [by eexists|done]. }
  assert (Hcreate : ∀ k, k = Os.key p → fs w !! k ≠ Some Dir →
            Os.create k p content w = (o, w') →
            (o = Return tt ∧ w' = set_fs (<[Os.key p := File content]> (fs w)) w
             ∧ fs w !! Os.key p ≠ Some Dir)
            ∨ ((∃ e, o = Raise e) ∧ w' = w)).
  { intros k -> Hk. unfold Os.create. destruct (Os.ends_with_sep p).
    { intros [= <- <-]. right. split; [by eexists|done]. }
    case_decide; intros [= <- <-]; [right; split; [by eexists|done]|by left]. }
  destruct (Os.walk w (Str.startswith p "/") [] (Os.components p)) as [k [|data]|k| |] eqn:Hwalk;
    try (intros [= <- <-]; right; split; [by eexists|done]).
  - apply Hcreate.
    + unfold Os.key. apply (walk_key w _ [] (Os.components p) k). left. by eexists.
    + apply walk_found_file in Hwalk. congruence.
  - apply Hcreate.
    + unfold Os.key. apply (walk_key w _ [] (Os.components p) k). by right.
    + apply walk_absent in Hwalk. congruence.
Qed.

Lemma walk_insert_file (w : world) (absolute : bool) (above below : list string)
    (k content : string) :
  (∃ data, Os.walk w absolute above below = Os.Found k (File data))
  ∨ Os.walk w absolute above below = Os.Absent k →
  Os.walk (set_fs (<[k := File content]> (fs w)) w) absolute above below
  = Os.Found k (File content).
Proof.
  revert above. induction below as [|c below IH]; intros above; simpl.
  { by intros [[data [=]]|[=]]. }
  destruct (decide (c = ".")); [apply IH|].
  destruct below as [|c' below].
  - destruct (fs w !! Os.key_of absolute (above ++ [c])) as [nd|] eqn:E.
    + intros [[data [= <- ->]]|[=]]. by rewrite lookup_insert_eq.
    + intros [[data [=]]|[= <-]]. by rewrite lookup_insert_eq.
  - destruct (fs w !! Os.key_of absolute (above ++ [c])) as [[|data']|] eqn:E;
      [|by intros [[data [=]]|[=]]..].
    intros H.
    assert (Hne : Os.key_of absolute (above ++ [c]) ≠ k).
    { intros Hk. subst k. destruct H as [[data H]|H].
      - apply walk_found_file in H. congruence.
      - apply walk_absent in H. congruence. }
    rewrite lookup_insert_ne by done. rewrite E. by apply IH.
Qed.

(** What is written can be read back. *)
Lemma open_read_after_write (p content : string) (w w' : world) :
  Os.open_write p content w = (Return tt, w') →
  Os.open_read p w' = (Return content, w').
Proof.
  unfold Os.open_write, Os.open_read, Os.resolve. destruct (decide (p = EmptyString)); [done|].
  assert (Hcreate : ∀ k,
            (∃ data, Os.walk w (Str.startswith p "/") [] (Os.components p) = Os.Found k (File data))
            ∨ Os.walk w (Str.startswith p "/") [] (Os.components p) = Os.Absent k →
            Os.create k p content w = (Return tt, w') →
            match Os.walk w' (Str.startswith p "/") [] (Os.components p) with
            | Os.Found k0 Dir => (Raise (Os.EISDIR p), w')
            | Os.Found k0 (File data) =>
                if Os.ends_with_sep p then (Raise (Os.ENOTDIR p), w')
                else if decide (k0 ∈ denied w') then (Raise (Os.EACCES p), w')
                     else (Return data, w')
            | Os.NotDirectory => (Raise (Os.ENOTDIR p), w')
            | _ => (Raise (Os.ENOENT p), w')
            end = (Return content, w')).
  { intros k Hwalk. unfold Os.create. destruct (Os.ends_with_sep p); [done|].
    destruct (decide (k ∈ denied w)) as [|Hk]; [done|]. intros [= <-].
    rewrite (walk_insert_file w _ [] _ k content Hwalk). simpl.
    by rewrite decide_False. }
  destruct (Os.walk w (Str.startswith p "/") [] (Os.components p)) as [k [|data]|k| |] eqn:Hwalk;
    try done.
  - apply Hcreate. left. by eexists.
  - apply Hcreate. by right.
Qed.

Lemma has_char_split_last (p : string) :
  Str.has_char Os.sep p = false → Os.split_last p = (EmptyString, p).
Proof.
  induction p as [|c p IH]; [done|]. simpl.
  destruct (decide (c = Os.sep)); [done|]. intros H. rewrite (IH H), H. done.
Qed.

Lemma dirname_bare (p : string) :
  Str.has_char Os.sep p = false → Os.dirname p = EmptyString.
Proof.
  intros H. unfold Os.dirname, Os.path_split. by rewrite (has_char_split_last p H).
Qed.

Lemma walk_fs (w w' : world) (absolute : bool) (above below : list string) :
  fs w' = fs w → Os.walk w' absolute above below = Os.walk w absolute above below.
Proof.
  intros Hfs. revert above. induction below as [|c below IH]; intros above; simpl; [done|].
  rewrite Hfs. destruct (decide (c = ".")); [apply IH|].
  destruct below as [|c' below]; [done|].
  destruct (fs w !! Os.key_of absolute (above ++ [c])) as [[|data]|]; [apply IH|done..].
Qed.

Lemma open_read_printed (p : string) (out : list string) (w : world) (o : outcome string) :
  Os.open_read p w = (o, w) → Os.open_read p (printed out w) = (o, printed out w).
Proof.
  unfold Os.open_read, Os.resolve. destruct (decide (p = EmptyString)).
  { by intros [= <-]. }
  rewrite (walk_fs w (printed out w)) by done.
  destruct (Os.walk w (Str.startswith p "/") [] (Os.components p)) as [k [|data]|k| |];
    try by intros [= <-].
  destruct (Os.ends_with_sep p); [by intros [= <-]|].
  simpl. case_decide; by intros [= <-].
Qed.




Lemma save_to_file_no_separator (content output_file : string) (w : world) :
  Str.has_char "/" output_file = false →
  save_to_file content output_file w
  = (Return tt, printed ["Error saving to file: [Errno 2] No such file or directory: ''"] w).
Proof. intros H. apply save_to_file_no_directory. by apply dirname_bare. Qed.

(** X9.  An output path without a separator is never written: the call
    prints the error of [os.makedirs] on the empty directory name and leaves
    the file system as it was, in every world. *)
Theorem save_to_file_bare_name (content output_file : string) (w : world) :
  Str.has_char "/" output_file = false →
  save_to_file content output_file w
  = (Return tt, printed ["Error saving to file: [Errno 2] No such file or directory: ''"] w).
Proof. apply save_to_file_no_separator. Qed.

Lemma save_to_file_bare_name_witness :
  save_to_file "(ABC123, DEF456)" "output_codes.txt" (world_of [] [("test.csv", products_csv)])
  = (Return tt, printed ["Error saving to file: [Errno 2] No such file or directory: ''"]
                  (world_of [] [("test.csv", products_csv)])).
Proof.
  apply (save_to_file_bare_name "(ABC123, DEF456)" "output_codes.txt"). vm_compute. reflexivity.
Defined.

Lemma list_remove_elem_of (x y : string) (l : list string) :
  y ∈ list_remove x l → y ∈ l.
Proof.
  induction l as [|z l IH]; simpl; [done|].
  case_decide; rewrite !elem_of_cons; [tauto|]. intros [->|Hy]; [tauto|]. right. by apply IH.
Qed.

Lemma list_remove_nil (x : string) (l : list string) :
  list_remove x l = [] → l = [] ∨ l = [x].
Proof.
  destruct l as [|y l]; simpl; [tauto|]. case_decide; [|done]. intros ->. right. by subst.
Qed.

Lemma list_remove_middle (x : string) (l1 l2 : list string) :
  x ∉ l1 → list_remove x (l1 ++ x :: l2) = l1 ++ l2.
Proof.
  induction l1 as [|y l1 IH]; simpl; intros Hx.
  - by rewrite decide_True.
  - apply not_elem_of_cons in Hx as [Hne Hx]. rewrite decide_False by done. by rewrite IH.
Qed.

Section Main.

Variable csv_reader : string → list Csv.item.

(** What [main] does once the arguments are read. *)
Lemma main_finish_total (result : option string) (output_file : option string) (w : world) :
  ∃ w', (match result with
         | Some text =>
             if truthy result then
               match output_file with
               | Some path => if truthy output_file then save_to_file text path else mret tt
               | None => mret tt
               end ;;
               print text
             else mret tt
         | None => mret tt
         end) w = (Return tt, w').
Proof.
  destruct result as [text|]; [|by eexists]. destruct (truthy (Some text)); [|by eexists].
  unfold_monad. destruct output_file as [path|]; [|by eexists].
  destruct (truthy (Some path)); [|by eexists].
  destruct (save_to_file_returns text path w) as [w' ->]. by eexists.
Qed.

Lemma main_returns (prog csv_file : string) (args0 : list string) (w : world) :
  args0 ≠ ["--no-quotes"] →
  ∃ w', main csv_reader (prog :: csv_file :: args0) w = (Return tt, w').
Proof.
  intros Hflag. unfold main. destruct args0 as [|a args0]; [by eexists|].
  set (args := if negb (bool_decide ("--no-quotes" ∈ a :: args0))
               then a :: args0 else list_remove "--no-quotes" (a :: args0)).
  assert (Hargs : args ≠ []).
  { unfold args. destruct (bool_decide ("--no-quotes" ∈ a :: args0)); simpl negb; cbv iota; [|done].
    intros H. apply list_remove_nil in H as [H|H]; [done|by apply Hflag]. }
  destruct (last args) as [last_arg|] eqn:Hlast; [|by apply last_None in Hlast].
  destruct (if (1 <? length args)%nat && Str.startswith last_arg "output"
            then (Str.join " " (removelast args), Some last_arg)
            else (Str.join " " args, None)) as [column_name output_file].
  unfold_monad.
  destruct (String.eqb (Str.lower column_name) "update_script").
  - destruct (update_total csv_reader w csv_file (default EmptyString (head args)))
      as (r & out & -> & _).
    apply main_finish_total.
  - destruct (tuple_total csv_reader w csv_file column_name
                (negb (bool_decide ("--no-quotes" ∈ a :: args0)))) as (r & out & -> & _).
    apply main_finish_total.
Qed.

Lemma main_flag_alone (prog csv_file : string) (w : world) :
  main csv_reader [prog; csv_file; "--no-quotes"] w
  = (Raise (Exn IndexError "list index out of range"), w).
Proof. reflexivity. Qed.

End Main.

(** X11.  [main] ends without an exception on every command line but one: when
    the only argument after the file is [--no-quotes], the list of
    arguments is empty once the flag is taken out, and the [IndexError] of
    [args[-1]] leaves [main] before anything is read or printed. *)
Theorem main_raises_on_flag_alone (csv_reader : string → list Csv.item)
    (argv : list string) (w : world) (e : exn) (w' : world) :
  main csv_reader argv w = (Raise e, w')
  ↔ (∃ prog csv_file, argv = [prog; csv_file; "--no-quotes"])
    ∧ e = Exn IndexError "list index out of range" ∧ w' = w.
Proof.
  split.
  - intros Hrun. destruct argv as [|prog [|csv_file args0]]; try done.
    destruct (decide (args0 = ["--no-quotes"])) as [->|Hne].
    + rewrite main_flag_alone in Hrun. injection Hrun as <- <-. split; [by eexists _, _|done].
    + destruct (main_returns csv_reader prog csv_file args0 w Hne) as [w'' H]. congruence.
  - intros [(prog & csv_file & ->) [-> ->]]. apply main_flag_alone.
Qed.

Section MainFrame.

Variable csv_reader : string → list Csv.item.

Lemma main_finish_bare (result : option string) (output_file : option string) (w : world) :
  (∀ path, output_file = Some path → Str.has_char "/" path = false) →
  ∃ out, (match result with
          | Some text =>
              if truthy result then
                match output_file with
                | Some path => if truthy output_file then save_to_file text path else mret tt
                | None => mret tt
                end ;;
                print text
              else mret tt
          | None => mret tt
          end) w = (Return tt, printed out w).
Proof.
  intros Hbare. destruct result as [text|]; [|exists []; by rewrite printed_nil].
  destruct (truthy (Some text)); [|exists []; by rewrite printed_nil].
  unfold_monad. destruct output_file as [path|]; [|print_done].
  destruct (truthy (Some path)); [|print_done].
  rewrite (save_to_file_no_separator text path w (Hbare path eq_refl)). print_done.
Qed.

Lemma printed_printed (out1 out2 : list string) (w : world) :
  printed out2 (printed out1 w) = printed (out1 ++ out2) w.
Proof. unfold printed. simpl. by rewrite app_assoc. Qed.

(** X12.  [main] only prints, unless an argument starts with [output] and
    has a separator in it: without such an argument the file system is
    left as it was, whatever the file holds. *)
Theorem main_writes_only_below_output (argv : list string) (w : world) :
  (∀ a, a ∈ argv → Str.startswith a "output" = true → Str.has_char "/" a = false) →
  ∃ o out, main csv_reader argv w = (o, printed out w).
Proof.
  intros Hbare. unfold main.
  destruct argv as [|prog [|csv_file [|a args0]]]; try (eexists; print_done).
  set (args := if negb (bool_decide ("--no-quotes" ∈ a :: args0))
               then a :: args0 else list_remove "--no-quotes" (a :: args0)).
  assert (Hargs : ∀ x, x ∈ args → x ∈ prog :: csv_file :: a :: args0).
  { intros x Hx. do 2 apply list_elem_of_further. unfold args in Hx.
    destruct (negb (bool_decide ("--no-quotes" ∈ a :: args0))); [done|].
    by apply (list_remove_elem_of "--no-quotes"). }
  destruct (last args) as [last_arg|] eqn:Hlast;
    [|exists (Raise (Exn IndexError "list index out of range")), []; by rewrite printed_nil].
  assert (Hin : last_arg ∈ args).
  { apply last_Some in Hlast as [l' ->]. apply elem_of_app. right. apply list_elem_of_here. }
  assert (Hout : ∀ column_name output_file,
            (if (1 <? length args)%nat && Str.startswith last_arg "output"
             then (Str.join " " (removelast args), Some last_arg)
             else (Str.join " " args, None)) = (column_name, output_file) →
            ∀ path, output_file = Some path → Str.has_char "/" path = false).
  { intros column_name output_file Hparse path ->.
    destruct (Str.startswith last_arg "output") eqn:Hstart.
    - destruct (1 <? length args)%nat; simpl in Hparse; [|done].
      injection Hparse as _ <-. apply Hbare; [by apply Hargs|done].
    - rewrite andb_false_r in Hparse. done. }
  destruct (if (1 <? length args)%nat && Str.startswith last_arg "output"
            then (Str.join " " (removelast args), Some last_arg)
            else (Str.join " " args, None)) as [column_name output_file] eqn:Hparse.
  specialize (Hout column_name output_file eq_refl).
  unfold_monad.
  destruct (String.eqb (Str.lower column_name) "update_script").
  - destruct (update_total csv_reader w csv_file (default EmptyString (head args)))
      as (r & out & -> & _).
    destruct (main_finish_bare r output_file (printed out w) Hout) as [out' Hfin].
    eexists _, _. etrans; [exact Hfin|]. by rewrite printed_printed.
  - destruct (tuple_total csv_reader w csv_file column_name
                (negb (bool_decide ("--no-quotes" ∈ a :: args0)))) as (r & out & -> & _).
    destruct (main_finish_bare r output_file (printed out w) Hout) as [out' Hfin].
    eexists _, _. etrans; [exact Hfin|]. by rewrite printed_printed.
Qed.

End MainFrame.

Lemma main_writes_only_below_output_witness :
  ∃ o out,
    main Excel.reader ["csv_to_mysql.py"; "test.csv"; "PRODUCT_CODE"; "output.txt"]
      (world_of [] [("test.csv", products_csv)])
    = (o, printed out (world_of [] [("test.csv", products_csv)])).
Proof.
  apply (main_writes_only_below_output Excel.reader).
  intros a Ha _. repeat (apply elem_of_cons in Ha as [->|Ha]; [vm_compute; reflexivity|]).
  by apply elem_of_nil in Ha.
Defined.

Lemma join_cons_nonempty (sep x : string) (l : list string) :
  x ≠ EmptyString → Str.join sep (x :: l) ≠ EmptyString.
Proof.
  intros Hx. unfold Str.join. destruct l as [|y l]; simpl; [done|].
  destruct x; [done|]. discriminate.
Qed.

(** X13.  The update-script mode of [main] has no argument for the table: the
    table of the statements is the word that selects the mode, as it was
    typed. *)
Theorem main_update_script_table_name
    (csv_reader : string → list Csv.item) (w : world) (prog csv_file mode text : string)
    (header : list string) (records : list (list string)) :
  Os.open_read csv_file w = (Return text, w) →
  csv_reader text = map Csv.Rec (header :: records) →
  "id" ∈ header →
  NoDup header →
  Forall (λ r, r = [] ∨ length r = length header) records →
  Exists (λ r, r ≠ []) records →
  Str.lower mode = "update_script" →
  main csv_reader [prog; csv_file; mode] w
  = (Return tt,
     printed [Str.join newline
                (map (update_line mode header) (filter (λ r, r ≠ []) records))] w).
Proof.
  intros Hopen Hread Hid Hnd Hrect Hex Hmode.
  assert (Hrun : csv_to_mysql_update_script csv_reader csv_file mode w
                 = (Return (Some (Str.join newline
                      (map (update_line mode header) (filter (λ r, r ≠ []) records)))), w)).
  { unfold csv_to_mysql_update_script. unfold_monad. rewrite Hopen, Hread.
    unfold Csv.for_rows, Csv.fieldnames. simpl.
    by rewrite (for_records_update mode header records [] Hnd Hid Hrect). }
  assert (Htruthy : String.eqb (Str.join newline
            (map (update_line mode header) (filter (λ r, r ≠ []) records))) EmptyString = false).
  { apply String.eqb_neq.
    destruct (filter (λ r, r ≠ []) records) as [|r rs] eqn:Hf.
    - exfalso. apply Exists_exists in Hex as (r & Hin & Hr).
      assert (H : r ∈ filter (λ r, r ≠ []) records) by by apply list_elem_of_filter.
      rewrite Hf in H. by apply elem_of_nil in H.
    - simpl map. by apply join_cons_nonempty. }
  unfold main. rewrite (no_flag_1 mode (update_mode_not_flag mode Hmode)). simpl.
  rewrite Hmode. simpl. unfold_monad. rewrite Hrun. simpl. rewrite Htruthy. done.
Qed.

Lemma main_update_script_table_name_witness :
  main Excel.reader ["csv_to_mysql.py"; "test.csv"; "Update_Script"]
    (world_of [] [("test.csv", users_csv)])
  = (Return tt,
     printed [lines ["Update Update_Script set name = 'may', age = 10 where id = 1;";
                     "Update Update_Script set name = 'Allen', age = 15 where id = 2;"]]
       (world_of [] [("test.csv", users_csv)])).
Proof.
  pose (w := world_of [] [("test.csv", users_csv)]).
  assert (H1 : Os.open_read "test.csv" w = (Return users_csv, w)) by (vm_compute; reflexivity).
  assert (H2 : Excel.reader users_csv
               = map Csv.Rec (["id"; "name"; "age"] :: [["1"; "'may'"; "10"]; ["2"; "'Allen'"; "15"]]))
    by (vm_compute; reflexivity).
  assert (H3 : "id" ∈ ["id"; "name"; "age"]) by (apply list_elem_of_here).
  assert (H4 : NoDup ["id"; "name"; "age"]) by (apply (bool_decide_unpack _); vm_compute; exact I).
  assert (H5 : Forall (λ r : list string, r = [] ∨ length r = length ["id"; "name"; "age"])
                 [["1"; "'may'"; "10"]; ["2"; "'Allen'"; "15"]])
    by (repeat constructor).
  assert (H6 : Exists (λ r : list string, r ≠ []) [["1"; "'may'"; "10"]; ["2"; "'Allen'"; "15"]])
    by (apply Exists_cons_hd; discriminate).
  assert (H7 : Str.lower "Update_Script" = "update_script") by reflexivity.
  exact (main_update_script_table_name Excel.reader w "csv_to_mysql.py" "test.csv"
           "Update_Script" users_csv ["id"; "name"; "age"]
           [["1"; "'may'"; "10"]; ["2"; "'Allen'"; "15"]] H1 H2 H3 H4 H5 H6 H7).
Defined.

(** X17.  The flag [--no-quotes] may stand anywhere after the file, even after
    the output path; only its first occurrence is the flag. *)
Theorem main_flag_anywhere (csv_reader : string → list Csv.item)
    (prog csv_file : string) (before after : list string) (w : world) :
  "--no-quotes" ∉ before →
  main csv_reader (prog :: csv_file :: before ++ "--no-quotes" :: after) w
  = main csv_reader (prog :: csv_file :: "--no-quotes" :: before ++ after) w.
Proof.
  intros Hflag. destruct before as [|a before]; [done|].
  unfold main.
  change ((a :: before) ++ "--no-quotes" :: after) with (a :: (before ++ "--no-quotes" :: after)).
  assert (H1 : bool_decide ("--no-quotes" ∈ a :: (before ++ "--no-quotes" :: after)) = true).
  { apply bool_decide_eq_true. apply list_elem_of_further, elem_of_app. right.
    apply list_elem_of_here. }
  assert (H2 : bool_decide ("--no-quotes" ∈ "--no-quotes" :: (a :: before) ++ after) = true).
  { apply bool_decide_eq_true. apply list_elem_of_here. }
  rewrite H1, H2. simpl negb. cbv iota.
  change (a :: (before ++ "--no-quotes" :: after)) with ((a :: before) ++ "--no-quotes" :: after).
  rewrite (list_remove_middle "--no-quotes" (a :: before) after Hflag).
  change (list_remove "--no-quotes" ("--no-quotes" :: (a :: before) ++ after))
    with ((a :: before) ++ after).
  done.
Qed.

Lemma main_flag_anywhere_witness :
  main Excel.reader ["csv_to_mysql.py"; "test.csv"; "product"; "code"; "output/r.txt"; "--no-quotes"]
    (world_of [] [("test.csv", product_code_csv)])
  = main Excel.reader ["csv_to_mysql.py"; "test.csv"; "--no-quotes"; "product"; "code"; "output/r.txt"]
      (world_of [] [("test.csv", product_code_csv)]).
Proof.
  apply (main_flag_anywhere Excel.reader "csv_to_mysql.py" "test.csv"
           ["product"; "code"; "output/r.txt"] []).
  apply (bool_decide_unpack _). vm_compute. exact I.
Defined.

(** ** The values of a tuple *)

Lemma rstrip_head (c : ascii) (s : string) :
  Str.isspace c = false → Str.rstrip (String c s) = String c (Str.rstrip s).
Proof. intros Hc. simpl. rewrite Hc. by destruct (Str.rstrip s). Qed.

Lemma rstrip_idempotent (s : string) : Str.rstrip (Str.rstrip s) = Str.rstrip s.
Proof.
  induction s as [|c s IH]; [done|]. simpl.
  destruct (Str.rstrip s) as [|d t] eqn:E.
  - destruct (Str.isspace c) eqn:Hc; [done|]. simpl. by rewrite Hc.
  - change (Str.rstrip (String c (String d t)))
      with (match Str.rstrip (String d t) with
            | EmptyString => if Str.isspace c then EmptyString else String c EmptyString
            | t' => String c t'
            end).
    by rewrite IH.
Qed.

Lemma lstrip_head (s : string) :
  match Str.lstrip s with
  | EmptyString => True
  | String c _ => Str.isspace c = false
  end.
Proof.
  induction s as [|c s IH]; [done|]. simpl. destruct (Str.isspace c) eqn:Hc; [done|].
  simpl. done.
Qed.

Lemma strip_idempotent (s : string) : Str.strip (Str.strip s) = Str.strip s.
Proof.
  unfold Str.strip. pose proof (lstrip_head s) as H.
  destruct (Str.lstrip s) as [|c t]; [done|].
  rewrite (rstrip_head c t H). simpl Str.lstrip. rewrite H.
  rewrite (rstrip_head c _ H). by rewrite rstrip_idempotent.
Qed.


Lemma collect_value_trimmed (col : string) (row : Csv.dict) (values out : list string) :
  Forall is_trimmed values →
  collect_value col row values = Return out →
  Forall is_trimmed out.
Proof.
  intros Hvalues. unfold collect_value. unfold_monad.
  destruct (Csv.getitem row col) as [[s| |l]|e]; try done.
  destruct (String.eqb_spec (Str.strip s) EmptyString) as [E|E]; intros [= <-]; [done|].
  apply Forall_app. split; [done|]. apply Forall_singleton. split; [done|apply strip_idempotent].
Qed.

Lemma for_records_trimmed (col : string) (fields : option (list string))
    (items : list Csv.item) (values out : list string) :
  Forall is_trimmed values →
  Csv.for_records fields items (collect_value col) values = Return out →
  Forall is_trimmed out.
Proof.
  revert values. induction items as [|[row|e] items IH]; intros values Hvalues; simpl.
  - by intros [= <-].
  - destruct row as [|f row]; [by apply IH|].
    destruct fields as [header|]; [|done]. unfold_monad.
    destruct (collect_value col (Csv.row_dict header (f :: row)) values) as [values'|e] eqn:Hc;
      [|done].
    apply IH. by apply (collect_value_trimmed col (Csv.row_dict header (f :: row)) values).
  - done.
Qed.

(** X1.  Whatever the file, the world and the arguments, a string that
    [csv_column_to_mysql_tuple] returns is the literal of at least one value,
    and no value in it is empty or has white space at either end. *)
Theorem csv_column_to_mysql_tuple_values
    (csv_reader : string → list Csv.item) (w w' : world) (csv_file column_name : string)
    (add_quotes : bool) (s : string) :
  csv_column_to_mysql_tuple csv_reader csv_file column_name add_quotes w = (Return (Some s), w') →
  ∃ values, values ≠ [] ∧ s = tuple_literal add_quotes values
            ∧ Forall (λ v, v ≠ EmptyString ∧ Str.strip v = v) values.
Proof.
  intros Hrun.
  destruct (open_read_world csv_file w) as [[text|e] Hopen].
  - destruct (csv_reader text) as [|[header|e] items] eqn:Hread.
    + revert Hrun. unfold csv_column_to_mysql_tuple. unfold_monad. rewrite Hopen, Hread. done.
    + destruct (tuple_run csv_reader w csv_file column_name add_quotes text header items
                  Hopen Hread) as [out [Hrun' _]].
      rewrite Hrun' in Hrun. injection Hrun as Hs _. unfold tuple_value in Hs.
      destruct (resolve_column header column_name) as [col|]; [|done].
      destruct (Csv.for_records (Some header) items (collect_value col) [])
        as [[|v vs]|e] eqn:Hloop; try done.
      injection Hs as <-. exists (v :: vs). split; [done|]. split; [done|].
      by apply (for_records_trimmed col (Some header) items [] (v :: vs)).
    + revert Hrun. unfold csv_column_to_mysql_tuple. unfold_monad. rewrite Hopen, Hread. simpl.
      by destruct (is_FileNotFoundError e).
  - revert Hrun. unfold csv_column_to_mysql_tuple. unfold_monad. rewrite Hopen.
    by destruct (is_FileNotFoundError e).
Qed.

Lemma csv_column_to_mysql_tuple_values_witness :
  ∃ values, values ≠ [] ∧ "('ABC123', 'DEF456')" = tuple_literal true values
            ∧ Forall (λ v, v ≠ EmptyString ∧ Str.strip v = v) values.
Proof.
  apply (csv_column_to_mysql_tuple_values Excel.reader
           (world_of [] [("test.csv", products_csv)])
           (printed ["Available columns: PRODUCT_CODE"] (world_of [] [("test.csv", products_csv)]))
           "test.csv" "product_code" true).
  vm_compute. reflexivity.
Defined.

Lemma find_none_forall {A : Type} (f : A → bool) (l : list A) :
  Forall (λ x, f x = false) l → List.find f l = None.
Proof. induction 1 as [|x l Hx _ IH]; [done|]. simpl. by rewrite Hx. Qed.

Section TupleEdges.

Variable csv_reader : string → list Csv.item.

Opaque String.append Str.join.

(** X2.  When no column of the header equals the name once both are in lower
    case and without spaces, [csv_column_to_mysql_tuple] prints the
    columns, the warning of the first pass and the error of the second, and
    returns [None] without reading a row: what follows the header does not
    matter, not even a record on which the reader raises. *)
Theorem csv_column_to_mysql_tuple_no_column
    (w : world) (csv_file column_name : string) (add_quotes : bool)
    (text : string) (header : list string) (items : list Csv.item) :
  Os.open_read csv_file w = (Return text, w) →
  csv_reader text = Csv.Rec header :: items →
  Forall (λ col, Str.remove_char " " (Str.lower col)
                 ≠ Str.remove_char " " (Str.lower column_name)) header →
  csv_column_to_mysql_tuple csv_reader csv_file column_name add_quotes w
  = (Return None,
     printed ["Available columns: " +:+ Str.join ", " header;
              "Warning: Column '" +:+ column_name +:+ "' not found exactly, trying to find a match...";
              "Error: Could not find column matching '" +:+ column_name +:+ "'"] w).
Proof.
  intros Hopen Hread Hno.
  assert (H2 : first_match (same_name_no_spaces column_name) header = None).
  { apply find_none_forall. eapply Forall_impl; [exact Hno|].
    intros col Hcol. by apply String.eqb_neq. }
  assert (H1 : first_match (same_name column_name) header = None).
  { apply find_none_forall. eapply Forall_impl; [exact Hno|].
    intros col Hcol. apply String.eqb_neq. intros E. apply Hcol. by rewrite E. }
  unfold csv_column_to_mysql_tuple. unfold_monad. rewrite Hopen, Hread. simpl.
  rewrite H1, H2. simpl. unfold printed. simpl. by rewrite <- !app_assoc.
Qed.

(** X4.  On a file without a record (an empty file) the two functions
    differ: the extractor has no header to join, reports the [TypeError] and
    returns [None]; the update script has no row, prints nothing and returns
    the empty string. *)
Theorem csv_to_mysql_empty_file
    (w : world) (csv_file column_name table_name : string) (add_quotes : bool) (text : string) :
  Os.open_read csv_file w = (Return text, w) →
  csv_reader text = [] →
  csv_column_to_mysql_tuple csv_reader csv_file column_name add_quotes w
  = (Return None, printed ["Error: An unexpected error occurred: can only join an iterable"] w)
  ∧ csv_to_mysql_update_script csv_reader csv_file table_name w
    = (Return (Some EmptyString), w).
Proof.
  intros Hopen Hread. split.
  - unfold csv_column_to_mysql_tuple. unfold_monad. by rewrite Hopen, Hread.
  - unfold csv_to_mysql_update_script. unfold_monad. by rewrite Hopen, Hread.
Qed.

Transparent String.append Str.join.

End TupleEdges.

Lemma csv_column_to_mysql_tuple_no_column_witness :
  csv_column_to_mysql_tuple Excel.reader "test.csv" "NONEXISTENT" true
    (world_of [] [("test.csv", lines ["PRODUCT_CODE"; "ABC123"])])
  = (Return None,
     printed ["Available columns: PRODUCT_CODE";
              "Warning: Column 'NONEXISTENT' not found exactly, trying to find a match...";
              "Error: Could not find column matching 'NONEXISTENT'"]
       (world_of [] [("test.csv", lines ["PRODUCT_CODE"; "ABC123"])])).
Proof.
  apply (csv_column_to_mysql_tuple_no_column Excel.reader
           (world_of [] [("test.csv", lines ["PRODUCT_CODE"; "ABC123"])])
           "test.csv" "NONEXISTENT" true (lines ["PRODUCT_CODE"; "ABC123"])
           ["PRODUCT_CODE"] [Csv.Rec ["ABC123"]]).
  - vm_compute. reflexivity.
  - vm_compute. reflexivity.
  - apply Forall_singleton. vm_compute. discriminate.
Defined.

Lemma csv_to_mysql_empty_file_witness :
  csv_column_to_mysql_tuple Excel.reader "empty.csv" "PRODUCT_CODE" true
    (world_of [] [("empty.csv", EmptyString)])
  = (Return None, printed ["Error: An unexpected error occurred: can only join an iterable"]
                    (world_of [] [("empty.csv", EmptyString)]))
  ∧ csv_to_mysql_update_script Excel.reader "empty.csv" "user" (world_of [] [("empty.csv", EmptyString)])
    = (Return (Some EmptyString), world_of [] [("empty.csv", EmptyString)]).
Proof.
  apply (csv_to_mysql_empty_file Excel.reader (world_of [] [("empty.csv", EmptyString)])
           "empty.csv" "PRODUCT_CODE" "user" true EmptyString).
  - vm_compute. reflexivity.
  - vm_compute. reflexivity.
Defined.


Lemma dict_get_set_eq (d : Csv.dict) (k : option string) (v : Csv.value) :
  Csv.dict_get (Csv.dict_set d k v) k = Some v.
Proof.
  induction d as [|[k' v'] d IH]; simpl.
  - by rewrite decide_True.
  - destruct (decide (k' = k)) as [->|Hne]; simpl.
    + by rewrite decide_True.
    + by rewrite decide_False.
Qed.

Lemma dict_get_set_ne (d : Csv.dict) (k k' : option string) (v : Csv.value) :
  k ≠ k' → Csv.dict_get (Csv.dict_set d k v) k' = Csv.dict_get d k'.
Proof.
  intros Hne. induction d as [|[k0 v0] d IH]; simpl.
  - by rewrite decide_False.
  - destruct (decide (k0 = k)) as [->|Hne0]; simpl.
    + by rewrite !decide_False.
    + destruct (decide (k0 = k')); [done|apply IH].
Qed.

Lemma dict_get_rest_value (keys : list string) (d : Csv.dict) (col : string) :
  col ∈ keys →
  Csv.dict_get (fold_left (λ d key, Csv.dict_set d (Some key) Csv.VNone) keys d) (Some col)
  = Some Csv.VNone.
Proof.
  induction keys as [|key keys IH] using rev_ind; [by intros ?%elem_of_nil|].
  rewrite fold_left_app. simpl. intros Hin.
  destruct (decide (key = col)) as [->|Hne]; [apply dict_get_set_eq|].
  rewrite dict_get_set_ne by congruence. apply IH.
  apply elem_of_app in Hin as [Hin|Hin]; [done|]. apply list_elem_of_singleton in Hin. congruence.
Qed.

(** A row that ends before a column has [None] there. *)
Lemma row_dict_short (header row : list string) (col : string) :
  col ∈ drop (length row) header →
  Csv.dict_get (Csv.row_dict header row) (Some col) = Some Csv.VNone.
Proof.
  intros Hin. unfold Csv.row_dict.
  assert (Hlen : (length row < length header)%nat).
  { destruct (decide (length row < length header)%nat) as [|Hge]; [done|].
    rewrite drop_ge in Hin by lia. by apply elem_of_nil in Hin. }
  rewrite (proj2 (Nat.ltb_ge _ _)) by lia. rewrite (proj2 (Nat.ltb_lt _ _)) by lia.
  by apply dict_get_rest_value.
Qed.

Lemma for_records_collect_app (col : string) (header : list string)
    (good : list (list string)) (items : list Csv.item) (vals acc : list string) :
  mapM (cell col) (data_rows header good) = Some vals →
  Csv.for_records (Some header) (map Csv.Rec good ++ items) (collect_value col) acc
  = Csv.for_records (Some header) items (collect_value col) (acc ++ kept_values vals).
Proof.
  revert vals acc. induction good as [|r good IH]; intros vals acc Hm.
  - simpl in Hm. injection Hm as <-. simpl. by rewrite app_nil_r.
  - unfold data_rows in Hm. rewrite filter_cons in Hm. destruct r as [|f r].
    + rewrite decide_False in Hm by (intros ?; congruence). simpl. by apply IH.
    + rewrite decide_True in Hm by done. simpl in Hm.
      destruct (cell col (Csv.row_dict header (f :: r))) as [v|] eqn:Hc; [|done].
      simpl in Hm.
      destruct (mapM (cell col) (map (Csv.row_dict header) (filter (λ r0, r0 ≠ []) good)))
        as [vs|] eqn:Hvs; [|done].
      simpl in Hm. injection Hm as <-.
      change (Csv.for_records (Some header) (map Csv.Rec ((f :: r) :: good) ++ items)
                (collect_value col) acc)
        with (acc' ← collect_value col (Csv.row_dict header (f :: r)) acc;
              Csv.for_records (Some header) (map Csv.Rec good ++ items) (collect_value col) acc').
      rewrite (collect_value_cell _ _ _ _ Hc). unfold_monad.
      rewrite (IH vs) by exact Hvs. rewrite (kept_values_cons v vs). by rewrite app_assoc.
Qed.

Lemma collect_value_short (col : string) (row : Csv.dict) (values : list string) :
  Csv.dict_get row (Some col) = Some Csv.VNone →
  collect_value col row values
  = Raise (Exn AttributeError "'NoneType' object has no attribute 'strip'").
Proof. intros H. unfold collect_value, Csv.getitem. by rewrite H. Qed.

Lemma for_records_raise {S : Type} (fields : option (list string)) (header row : list string)
    (rest : list Csv.item) (body : Csv.dict → S → outcome S) (acc : S) (e : exn) :
  row ≠ [] → fields = Some header →
  body (Csv.row_dict header row) acc = Raise e →
  Csv.for_records fields (Csv.Rec row :: rest) body acc = Raise e.
Proof.
  intros Hrow -> Hbody. destruct row as [|f row]; [done|].
  change (Csv.for_records (Some header) (Csv.Rec (f :: row) :: rest) body acc)
    with (acc' ← body (Csv.row_dict header (f :: row)) acc;
          Csv.for_records (Some header) rest body acc').
  by rewrite Hbody.
Qed.

(** X3.  One row that ends before the column costs the whole result.
    The values of the rows before it are dropped: the [AttributeError] of
    [None.strip()] is caught, reported as an unexpected error, and [None] is
    returned, whatever follows the row. *)
Theorem csv_column_to_mysql_tuple_short_row
    (csv_reader : string → list Csv.item) (w : world) (csv_file column_name : string)
    (add_quotes : bool) (text : string) (header : list string)
    (good : list (list string)) (bad : list string) (rest : list Csv.item)
    (col : string) (vals : list string) :
  Os.open_read csv_file w = (Return text, w) →
  csv_reader text = Csv.Rec header :: map Csv.Rec good ++ Csv.Rec bad :: rest →
  resolve_column header column_name = Some col →
  mapM (cell col) (data_rows header good) = Some vals →
  bad ≠ [] →
  col ∈ drop (length bad) header →
  csv_column_to_mysql_tuple csv_reader csv_file column_name add_quotes w
  = (Return None,
     printed (search_lines header column_name
              ++ ["Error: An unexpected error occurred: 'NoneType' object has no attribute 'strip'"])
       w).
Proof.
  intros Hopen Hread Hcol Hvals Hbad Hshort.
  rewrite (tuple_transcript csv_reader w csv_file column_name add_quotes text header
             (map Csv.Rec good ++ Csv.Rec bad :: rest) col Hopen Hread Hcol).
  rewrite (for_records_collect_app col header good _ vals [] Hvals).
  rewrite (for_records_raise (Some header) header bad rest (collect_value col) _
             (Exn AttributeError "'NoneType' object has no attribute 'strip'") Hbad eq_refl).
  - reflexivity.
  - apply collect_value_short. by apply row_dict_short.
Qed.

Lemma csv_column_to_mysql_tuple_short_row_witness :
  csv_column_to_mysql_tuple Excel.reader "test.csv" "age" true
    (world_of [] [("test.csv", lines ["id,age"; "1,10"; "2"; "3,30"])])
  = (Return None,
     printed ["Available columns: id, age";
              "Error: An unexpected error occurred: 'NoneType' object has no attribute 'strip'"]
       (world_of [] [("test.csv", lines ["id,age"; "1,10"; "2"; "3,30"])])).
Proof.
  apply (csv_column_to_mysql_tuple_short_row Excel.reader
           (world_of [] [("test.csv", lines ["id,age"; "1,10"; "2"; "3,30"])])
           "test.csv" "age" true (lines ["id,age"; "1,10"; "2"; "3,30"])
           ["id"; "age"] [["1"; "10"]] ["2"] [Csv.Rec ["3"; "30"]] "age" ["10"]).
  - vm_compute. reflexivity.
  - vm_compute. reflexivity.
  - vm_compute. reflexivity.
  - vm_compute. reflexivity.
  - discriminate.
  - simpl. apply list_elem_of_here.
Defined.

(** X14.  In its column mode [main] prints what the search for the column
    prints and then the literal, on the same standard output: the literal is
    the last line, after the list of the columns and, when the name is found
    in the second pass only, the two lines of that pass. *)
Theorem main_prints_search_then_tuple
    (csv_reader : string → list Csv.item) (w : world) (prog csv_file column_name : string)
    (text : string) (header : list string) (records : list (list string))
    (col : string) (vals : list string) :
  Os.open_read csv_file w = (Return text, w) →
  csv_reader text = map Csv.Rec (header :: records) →
  resolve_column header column_name = Some col →
  mapM (cell col) (data_rows header records) = Some vals →
  kept_values vals ≠ [] →
  column_name ≠ "--no-quotes" →
  Str.lower column_name ≠ "update_script" →
  main csv_reader [prog; csv_file; column_name] w
  = (Return tt,
     printed (search_lines header column_name ++ [tuple_literal true (kept_values vals)]) w).
Proof.
  intros Hopen Hread Hcol Hvals Hkept Hflag Hmode.
  pose proof (tuple_transcript csv_reader w csv_file column_name true text header
                (map Csv.Rec records) col Hopen Hread Hcol) as Hrun.
  rewrite (for_records_collect col header records vals [] Hvals) in Hrun. simpl in Hrun.
  destruct (kept_values vals) as [|v kept] eqn:Hk; [done|].
  unfold main. rewrite (no_flag_1 column_name Hflag). simpl.
  apply String.eqb_neq in Hmode. rewrite Hmode. unfold_monad. rewrite Hrun.
  unfold printed. simpl. by rewrite <- app_assoc.
Qed.

Lemma main_prints_search_then_tuple_witness :
  main Excel.reader ["csv_to_mysql.py"; "test.csv"; "productcode"]
    (world_of [] [("test.csv", product_code_csv)])
  = (Return tt,
     printed ["Available columns: Product Code";
              "Warning: Column 'productcode' not found exactly, trying to find a match...";
              "Found matching column: 'Product Code'";
              "('ABC123', 'DEF456')"]
       (world_of [] [("test.csv", product_code_csv)])).
Proof.
  apply (main_prints_search_then_tuple Excel.reader
           (world_of [] [("test.csv", product_code_csv)]) "csv_to_mysql.py" "test.csv"
           "productcode" product_code_csv ["Product Code"] [["ABC123"]; ["DEF456"]]
           "Product Code" ["ABC123"; "DEF456"]).
  - vm_compute. reflexivity.
  - vm_compute. reflexivity.
  - vm_compute. reflexivity.
  - vm_compute. reflexivity.
  - vm_compute. discriminate.
  - discriminate.
  - vm_compute. discriminate.
Defined.

Lemma has_char_app (c : ascii) (s t : string) :
  Str.has_char c (s +:+ t) = Str.has_char c s || Str.has_char c t.
Proof. induction s as [|d s IH]; [done|]. simpl. by case_decide. Qed.

Lemma has_char_lower_space (s : string) :
  Str.has_char " " s = true → Str.has_char " " (Str.lower s) = true.
Proof.
  induction s as [|c s IH]; [done|]. simpl.
  destruct (decide (c = " "%char)) as [->|Hne]; [done|]. intros H.
  case_decide; [done|]. by apply IH.
Qed.

Lemma join_two_has_space (a b : string) (l : list string) :
  Str.has_char " " (Str.join " " (a :: b :: l)) = true.
Proof.
  change (Str.join " " (a :: b :: l)) with (a +:+ " " +:+ Str.join " " (b :: l)).
  rewrite has_char_app. apply orb_true_intro. by right.
Qed.

(** X16.  A column name typed as several words is the name typed as one
    argument: the words are joined with one space each.  Here the words hold
    no flag and the last one does not start with [output]. *)
Theorem main_joins_words (csv_reader : string → list Csv.item)
    (prog csv_file : string) (word : string) (words : list string) (w : world) :
  "--no-quotes" ∉ word :: words →
  (∀ last_word, last (word :: words) = Some last_word →
                Str.startswith last_word "output" = false) →
  main csv_reader (prog :: csv_file :: word :: words) w
  = main csv_reader [prog; csv_file; Str.join " " (word :: words)] w.
Proof.
  intros Hflag Hout. destruct words as [|word2 words]; [done|].
  assert (Hspace : Str.has_char " " (Str.join " " (word :: word2 :: words)) = true)
    by apply join_two_has_space.
  assert (Hmode : String.eqb (Str.lower (Str.join " " (word :: word2 :: words))) "update_script"
                  = false).
  { apply String.eqb_neq. intros E. apply has_char_lower_space in Hspace.
    rewrite E in Hspace. discriminate. }
  assert (Hjoined : Str.join " " (word :: word2 :: words) ≠ "--no-quotes").
  { intros E. rewrite E in Hspace. discriminate. }
  unfold main.
  rewrite (no_flag_1 _ Hjoined). rewrite (bool_decide_eq_false_2 _ Hflag).
  change (negb false) with true. cbv iota.
  destruct (last (word :: word2 :: words)) as [last_word|] eqn:Hlast;
    [|by apply last_None in Hlast].
  cbv beta iota. rewrite (Hout last_word eq_refl), andb_false_r.
  change (last [Str.join " " (word :: word2 :: words)])
    with (Some (Str.join " " (word :: word2 :: words))).
  cbv beta iota.
  change ((1 <? length [Str.join " " (word :: word2 :: words)])%nat
          && Str.startswith (Str.join " " (word :: word2 :: words)) "output") with false.
  cbv beta iota.
  change (Str.join " " [Str.join " " (word :: word2 :: words)])
    with (Str.join " " (word :: word2 :: words)).
  by rewrite Hmode.
Qed.

Lemma main_joins_words_witness :
  main Excel.reader ["csv_to_mysql.py"; "test.csv"; "Product"; "Code"]
    (world_of [] [("test.csv", product_code_csv)])
  = main Excel.reader ["csv_to_mysql.py"; "test.csv"; "Product Code"]
      (world_of [] [("test.csv", product_code_csv)]).
Proof.
  apply (main_joins_words Excel.reader "csv_to_mysql.py" "test.csv" "Product" ["Code"]).
  - apply (bool_decide_unpack _). vm_compute. exact I.
  - intros last_word [= <-]. vm_compute. reflexivity.
Defined.

(** ** Rows of any length in the update script *)


Lemma fold_dict_set_fresh_gen {A : Type} (f : A → option string) (g : A → Csv.value)
    (l : list A) (d : Csv.dict) :
  NoDup (f <$> l) →
  (∀ k, k ∈ f <$> l → k ∉ d.*1) →
  fold_left (λ d a, Csv.dict_set d (f a) (g a)) l d = d ++ map (λ a, (f a, g a)) l.
Proof.
  revert d. induction l as [|a l IH]; intros d Hnd Hfresh; simpl.
  - by rewrite app_nil_r.
  - rewrite fmap_cons, NoDup_cons in Hnd. destruct Hnd as [Hk Hnd].
    rewrite dict_set_fresh by (apply Hfresh; rewrite fmap_cons; apply list_elem_of_here).
    rewrite IH; [by rewrite <- app_assoc|done|].
    intros k' Hk'. rewrite fmap_app, elem_of_app. intros [Hin|Hin].
    + revert Hin. apply Hfresh. rewrite fmap_cons. by apply list_elem_of_further.
    + simpl in Hin. apply list_elem_of_singleton in Hin. congruence.
Qed.

Lemma dict_of_zip_entries (header row : list string) :
  NoDup header → Csv.dict_of_zip header row = map entry (zip header row).
Proof.
  intros Hnd. unfold Csv.dict_of_zip.
  rewrite (fold_dict_set_fresh_gen (λ kv : string * string, Some kv.1) (λ kv, Csv.VStr kv.2)).
  - done.
  - replace ((λ kv : string * string, Some kv.1) <$> zip header row)
      with (Some <$> (zip header row).*1) by (by rewrite <- list_fmap_compose).
    apply (NoDup_fmap_2 _).
    assert (Hsub : (zip header row).*1 `sublist_of` header).
    { clear Hnd. revert row.
      induction header as [|c header IH]; intros [|v row]; simpl; try apply sublist_nil_l.
      apply sublist_skip, IH. }
    exact (sublist_NoDup _ _ Hnd Hsub).
  - intros k _. apply not_elem_of_nil.
Qed.

Lemma zip_replicate (l : list string) (x : string) :
  zip l (replicate (length l) x) = map (λ k, (k, x)) l.
Proof. induction l as [|k l IH]; [done|]. simpl. by rewrite IH. Qed.

Lemma zip_entries_keys (header row : list string) (k : string) :
  Some k ∈ (map entry (zip header row)).*1 → k ∈ take (length row) header.
Proof.
  revert row. induction header as [|c header IH]; intros [|v row]; simpl;
    try by intros ?%elem_of_nil.
  rewrite !elem_of_cons. intros [[= ->]|H]; [by left|]. right. by apply IH.
Qed.

Lemma show_entries (l : list (string * string)) : map show_item (map entry l) = l.
Proof. induction l as [|[c v] l IH]; [done|]. simpl. by rewrite IH. Qed.

(** With no name twice in the header, the row of [DictReader] shows as the
    fields by position. *)
Lemma row_dict_shown (header row : list string) :
  NoDup header → map show_item (Csv.row_dict header row) = shown_fields header row.
Proof.
  intros Hnd. unfold Csv.row_dict, shown_fields. rewrite dict_of_zip_entries by done.
  destruct (length header <? length row)%nat eqn:Hlong.
  - apply Nat.ltb_lt in Hlong.
    rewrite dict_set_fresh.
    + rewrite map_app, show_entries. simpl.
      replace (length header - length row)%nat with 0%nat by lia. simpl.
      by rewrite app_nil_r.
    + intros H. apply list_elem_of_fmap in H as [[k v] [Hk Hin]]. simpl in Hk. subst k.
      apply list_elem_of_fmap in Hin as [[c v'] [[=] _]].
  - apply Nat.ltb_ge in Hlong. rewrite app_nil_r.
    destruct (length row <? length header)%nat eqn:Hshort.
    + apply Nat.ltb_lt in Hshort.
      rewrite (fold_dict_set_fresh_gen (λ key : string, Some key) (λ _, Csv.VNone)).
      * rewrite map_app, show_entries, map_map. simpl.
        rewrite <- (take_drop (length row) header) at 3.
        rewrite zip_with_app by (rewrite length_take; lia).
        f_equal.
        -- clear. revert row. induction header as [|c header IH]; intros [|v row]; simpl; try done.
           by rewrite IH.
        -- replace (length header - length row)%nat with (length (drop (length row) header))
             by (rewrite length_drop; lia).
           by rewrite zip_replicate.
      * apply (NoDup_fmap_2 _).
        exact (sublist_NoDup _ _ Hnd (sublist_drop header (length row))).
      * intros k Hk Hin. apply list_elem_of_fmap in Hk as [c [-> Hc]].
        apply zip_entries_keys in Hin.
        rewrite <- (take_drop (length row) header) in Hnd.
        apply NoDup_app in Hnd as (_ & Hdisj & _). by apply (Hdisj c).
    + apply Nat.ltb_ge in Hshort.
      replace (length header - length row)%nat with 0%nat by lia. simpl.
      by rewrite show_entries, app_nil_r.
Qed.

Lemma set_clause_shown (d : Csv.dict) :
  map (λ kv : option string * Csv.value, Csv.format_key kv.1 +:+ " = " +:+ Csv.format_value kv.2)
    (filter (λ kv, kv.1 ≠ Some "id") d)
  = map (λ cv, cv.1 +:+ " = " +:+ cv.2) (filter (λ cv, cv.1 ≠ "id") (map show_item d)).
Proof.
  induction d as [|[k v] d IH]; [done|].
  change (map show_item ((k, v) :: d)) with (show_item (k, v) :: map show_item d).
  rewrite (filter_cons (λ kv : option string * Csv.value, kv.1 ≠ Some "id")).
  rewrite (filter_cons (λ cv : string * string, cv.1 ≠ "id")).
  unfold show_item at 1. cbn [fst snd].
  destruct k as [c|]; cbn [Csv.format_key].
  - destruct (decide (c = "id")) as [->|Hne].
    + rewrite (decide_False (P := Some "id" ≠ Some "id")) by (intros H; by apply H).
      rewrite (decide_False (P := "id" ≠ "id")) by (intros H; by apply H). done.
    + rewrite (decide_True (P := Some c ≠ Some "id")) by congruence.
      rewrite (decide_True (P := c ≠ "id")) by done.
      rewrite !map_cons. f_equal. exact IH.
  - rewrite (decide_True (P := None ≠ Some "id")) by done.
    rewrite (decide_True (P := "None" ≠ "id")) by done.
    rewrite !map_cons. f_equal. exact IH.
Qed.

Lemma dict_get_shown (d : Csv.dict) :
  List.find (λ cv, String.eqb cv.1 "id") (map show_item d)
  = (λ v, ("id", Csv.format_value v)) <$> Csv.dict_get d (Some "id").
Proof.
  induction d as [|[k v] d IH]; [done|]. simpl.
  destruct k as [c|]; simpl.
  - destruct (String.eqb_spec c "id") as [->|Hne].
    + by rewrite decide_True.
    + rewrite decide_False by congruence. done.
  - done.
Qed.

Lemma find_id_shown (header row : list string) :
  "id" ∈ header →
  is_Some (List.find (λ cv, String.eqb cv.1 "id") (shown_fields header row)).
Proof.
  intros Hid. unfold shown_fields.
  assert (Hin : ∃ v, ("id", v) ∈ zip header (row ++ replicate (length header - length row) "None")).
  { apply list_elem_of_lookup in Hid as [i Hi].
    assert (Hlt : (i < length (row ++ replicate (length header - length row) "None"))%nat).
    { apply lookup_lt_Some in Hi. rewrite length_app, length_replicate. lia. }
    apply lookup_lt_is_Some in Hlt as [v Hv]. exists v.
    apply list_elem_of_lookup. exists i. rewrite lookup_zip_with. by rewrite Hi, Hv. }
  destruct Hin as [v Hin].
  apply (find_is_Some _ _ ("id", v)); [|done]. apply elem_of_app. by left.
Qed.

Lemma append_update_shown (table_name : string) (header row statements : list string) :
  NoDup header → "id" ∈ header →
  append_update table_name (Csv.row_dict header row) statements
  = Return (statements ++ [shown_line table_name header row]).
Proof.
  intros Hnd Hid. unfold append_update, shown_line, Csv.getitem.
  rewrite set_clause_shown. rewrite row_dict_shown by done.
  pose proof (dict_get_shown (Csv.row_dict header row)) as Hget.
  rewrite row_dict_shown in Hget by done.
  destruct (find_id_shown header row Hid) as [cv Hcv]. rewrite Hcv in Hget. rewrite Hcv.
  destruct (Csv.dict_get (Csv.row_dict header row) (Some "id")) as [v|]; [|done].
  simpl in Hget. injection Hget as ->. done.
Qed.

Lemma for_records_shown (table_name : string) (header : list string)
    (records : list (list string)) (acc : list string) :
  NoDup header → "id" ∈ header →
  Csv.for_records (Some header) (map Csv.Rec records) (append_update table_name) acc
  = Return (acc ++ map (shown_line table_name header) (filter (λ r, r ≠ []) records)).
Proof.
  intros Hnd Hid. revert acc.
  induction records as [|r records IH]; intros acc.
  - simpl. by rewrite app_nil_r.
  - rewrite filter_cons. destruct r as [|f r].
    + rewrite decide_False by (intros H; by apply H). simpl. apply IH.
    + rewrite decide_True by done.
      change (Csv.for_records (Some header) (map Csv.Rec ((f :: r) :: records))
                (append_update table_name) acc)
        with (acc' ← append_update table_name (Csv.row_dict header (f :: r)) acc;
              Csv.for_records (Some header) (map Csv.Rec records)
                (append_update table_name) acc').
      rewrite append_update_shown by done. unfold_monad.
      rewrite IH. simpl. by rewrite <- app_assoc.
Qed.

(** X5.  With a column [id] and no name twice in the header, the update
    script never fails on the length of a row.  A row that ends early is
    written with the text [None] in the columns it does not reach, also
    after [where id =]; a row with more fields than the header gets, as its
    last assignment, [None = ] and the surplus as a Python list. *)
Theorem csv_to_mysql_update_script_any_row_length
    (csv_reader : string → list Csv.item) (w : world) (csv_file table_name text : string)
    (header : list string) (records : list (list string)) :
  Os.open_read csv_file w = (Return text, w) →
  csv_reader text = map Csv.Rec (header :: records) →
  "id" ∈ header →
  NoDup header →
  csv_to_mysql_update_script csv_reader csv_file table_name w
  = (Return (Some (Str.join newline
                     (map (shown_line table_name header) (filter (λ r, r ≠ []) records)))),
     w).
Proof.
  intros Hopen Hread Hid Hnd.
  unfold csv_to_mysql_update_script. unfold_monad. rewrite Hopen, Hread.
  unfold Csv.for_rows. simpl Csv.line_num. simpl Nat.eqb. cbv beta iota.
  unfold Csv.fieldnames. simpl.
  rewrite (for_records_shown table_name header records [] Hnd Hid). done.
Qed.

Lemma csv_to_mysql_update_script_any_row_length_witness :
  csv_to_mysql_update_script Excel.reader "test.csv" "t"
    (world_of [] [("test.csv", lines ["name,id,age"; "may,1,10,x,y"; "Allen"; "Bob,3"])])
  = (Return (Some (lines ["Update t set name = may, age = 10, None = ['x', 'y'] where id = 1;";
                          "Update t set name = Allen, age = None where id = None;";
                          "Update t set name = Bob, age = None where id = 3;"])),
     world_of [] [("test.csv", lines ["name,id,age"; "may,1,10,x,y"; "Allen"; "Bob,3"])]).
Proof.
  apply (csv_to_mysql_update_script_any_row_length Excel.reader
           (world_of [] [("test.csv", lines ["name,id,age"; "may,1,10,x,y"; "Allen"; "Bob,3"])])
           "test.csv" "t" (lines ["name,id,age"; "may,1,10,x,y"; "Allen"; "Bob,3"])
           ["name"; "id"; "age"] [["may"; "1"; "10"; "x"; "y"]; ["Allen"]; ["Bob"; "3"]]).
  - vm_compute. reflexivity.
  - vm_compute. reflexivity.
  - apply list_elem_of_further, list_elem_of_here.
  - apply (bool_decide_unpack _). vm_compute. exact I.
Defined.

(** X6.  [csv_to_mysql_update_script] prints nothing when it returns a
    script, and exactly one line, which starts with [Error: ], when it
    returns [None]. *)
Theorem csv_to_mysql_update_script_silent
    (csv_reader : string → list Csv.item) (w : world) (csv_file table_name : string) :
  (∃ script, csv_to_mysql_update_script csv_reader csv_file table_name w
             = (Return (Some script), w))
  ∨ (∃ line, csv_to_mysql_update_script csv_reader csv_file table_name w
             = (Return None, printed [line] w)
             ∧ Str.startswith line "Error: " = true).
Proof.
  destruct (open_read_world csv_file w) as [[text|e] Hopen];
    unfold csv_to_mysql_update_script; unfold_monad; rewrite Hopen.
  - destruct (Csv.for_rows (Csv.DictReader_new (csv_reader text))
                (append_update table_name) []) as [statements|e].
    + left. by eexists.
    + right. destruct (is_FileNotFoundError e); by eexists.
  - right. destruct (is_FileNotFoundError e); by eexists.
Qed.

(** ** The runs of [deduplicate_csv] *)

Section DeduplicateRuns.

Context {Cell : Type} `{EqDecision Cell}.
Variable read_csv : string → outcome (Pandas.DataFrame Cell).
Variable to_csv : Pandas.DataFrame Cell → string.


Lemma open_read_returns (p : string) (w w' : world) (o : outcome string) :
  Os.open_read p w = (o, w') → w' = w.
Proof. destruct (open_read_world p w) as [o' H]. rewrite H. by intros [= _ <-]. Qed.

(** A run that returns has read a frame, made the directory, written the
    frame without its duplicates and printed the summary. *)
Lemma deduplicate_csv_returns (input_file : string) (output_dir : option string)
    (w w' : world) (path : string) :
  deduplicate_csv read_csv to_csv input_file output_dir w = (Return path, w') →
  ∃ text df w1 w2,
    Os.open_read input_file w = (Return text, w)
    ∧ read_csv text = Return df
    ∧ Os.makedirs (output_directory input_file output_dir) w = (Return tt, w1)
    ∧ Os.open_write path (to_csv (Pandas.drop_duplicates df)) w1 = (Return tt, w2)
    ∧ path = output_path_at input_file output_dir (clock w)
    ∧ w' = printed (summary (length (Pandas.rows df))
                      (length (Pandas.rows (Pandas.drop_duplicates df))) path) w2.
Proof.
  unfold deduplicate_csv, now_strftime, output_path_at, output_directory, summary.
  unfold_monad.
  destruct (Os.open_read input_file w) as [[text|e] w0] eqn:Hopen; [|done].
  pose proof (open_read_returns _ _ _ _ Hopen) as ->.
  destruct (read_csv text) as [df|e] eqn:Hread; [|done].
  destruct (Os.makedirs _ w) as [[[]|e] w1] eqn:Hmk; [|done].
  destruct (Os.open_write _ _ w1) as [[[]|e] w2] eqn:Hwrite; [|done].
  intros [= <- <-]. exists text, df, w1, w2. repeat split; try done.
  unfold printed. simpl. by rewrite <- !app_assoc.
Qed.

(** A run that raises has printed nothing and written no file. *)
Lemma deduplicate_csv_raises (input_file : string) (output_dir : option string)
    (w w' : world) (e : exn) :
  deduplicate_csv read_csv to_csv input_file output_dir w = (Raise e, w') →
  grows_by_dirs w w'.
Proof.
  unfold deduplicate_csv, now_strftime. unfold_monad.
  destruct (Os.open_read input_file w) as [[text|e0] w0] eqn:Hopen;
    pose proof (open_read_returns _ _ _ _ Hopen) as ->.
  2: { intros [= _ <-]. apply grows_by_dirs_refl. }
  destruct (read_csv text) as [df|e0] eqn:Hread.
  2: { intros [= _ <-]. apply grows_by_dirs_refl. }
  destruct (Os.makedirs _ w) as [[[]|e0] w1] eqn:Hmk; apply makedirs_grows in Hmk.
  2: { by intros [= _ <-]. }
  destruct (Os.open_write _ _ w1) as [o w2] eqn:Hwrite.
  apply open_write_world in Hwrite as [(-> & -> & _)|[[e1 ->] ->]]; [done|].
  by intros [= _ <-].
Qed.

End DeduplicateRuns.



Section Counts.

Context {A : Type} `{EqDecision A}.
Implicit Types (x : A) (l : list A).

Lemma length_filter_le (P : A → Prop) `{∀ x, Decision (P x)} l :
  (length (filter P l) ≤ length l)%nat.
Proof.
  induction l as [|x l IH]; [done|]. rewrite filter_cons. case_decide; simpl; lia.
Qed.

Lemma length_filter_all (P : A → Prop) `{∀ x, Decision (P x)} l :
  length (filter P l) = length l → Forall P l.
Proof.
  induction l as [|x l IH]; [by intros; apply Forall_nil_2|]. rewrite filter_cons.
  assert (length (filter P l) ≤ length l)%nat by apply length_filter_le.
  case_decide; simpl; intros Hlen; [|lia].
  apply Forall_cons_2; [done|]. apply IH. lia.
Qed.

Lemma length_first_occurrences l : (length (first_occurrences l) ≤ length l)%nat.
Proof.
  induction l as [|x l IH]; [done|]. simpl.
  assert (length (filter (λ y, y ≠ x) (first_occurrences l)) ≤ length (first_occurrences l))%nat
    by apply length_filter_le.
  lia.
Qed.

Lemma length_first_occurrences_NoDup l :
  length (first_occurrences l) = length l → NoDup l.
Proof.
  induction l as [|x l IH]; [intros; apply NoDup_nil_2|]. simpl. intros Hlen.
  assert (length (filter (λ y, y ≠ x) (first_occurrences l)) ≤ length (first_occurrences l))%nat
    by apply length_filter_le.
  pose proof (length_first_occurrences l).
  apply NoDup_cons_2.
  - intros Hin. apply elem_of_first_occurrences in Hin.
    assert (Hall : Forall (λ y, y ≠ x) (first_occurrences l)).
    { apply (length_filter_all (λ y, y ≠ x)). lia. }
    rewrite Forall_forall in Hall. by apply (Hall x).
  - apply IH. lia.
Qed.

End Counts.

(** X18.  The numbers of the summary agree.  The rows kept and the rows
    removed add up to the rows read; a frame with a row keeps its first row;
    and nothing is removed exactly when no row occurs twice, in which case
    the frame written is the frame read. *)
Theorem drop_duplicates_counts {Cell : Type} `{EqDecision Cell} (df : Pandas.DataFrame Cell) :
  let total_rows := length (Pandas.rows df) in
  let unique_rows := length (Pandas.rows (Pandas.drop_duplicates df)) in
  let duplicates := (total_rows - unique_rows)%nat in
  (unique_rows + duplicates = total_rows)%nat
  ∧ head (Pandas.rows (Pandas.drop_duplicates df)) = head (Pandas.rows df)
  ∧ (duplicates = 0%nat ↔ NoDup (Pandas.rows df))
  ∧ (duplicates = 0%nat → Pandas.drop_duplicates df = df).
Proof.
  intros total_rows unique_rows duplicates.
  assert (Hrows : Pandas.rows (Pandas.drop_duplicates df) = first_occurrences (Pandas.rows df))
    by apply drop_duplicates_rows.
  assert (Hle : (unique_rows ≤ total_rows)%nat).
  { unfold unique_rows, total_rows. rewrite Hrows. apply length_first_occurrences. }
  assert (Hnd : duplicates = 0%nat → NoDup (Pandas.rows df)).
  { intros Hz. apply length_first_occurrences_NoDup. rewrite <- Hrows.
    unfold duplicates, unique_rows, total_rows in *. lia. }
  split; [unfold duplicates; lia|].
  split; [rewrite Hrows; by destruct (Pandas.rows df)|].
  split.
  - split; [exact Hnd|]. intros H. unfold duplicates, unique_rows, total_rows.
    rewrite (drop_duplicates_NoDup df H). lia.
  - intros Hz. apply drop_duplicates_NoDup. by apply Hnd.
Qed.

(** X21.  Run on its own output, [deduplicate_csv] removes nothing and
    writes the same text again, provided pandas reads the text it wrote as
    the frame it wrote. *)
Theorem deduplicate_csv_twice {Cell : Type} `{EqDecision Cell}
    (read_csv : string → outcome (Pandas.DataFrame Cell))
    (to_csv : Pandas.DataFrame Cell → string)
    (input_file text : string) (output_dir output_dir2 : option string)
    (df : Pandas.DataFrame Cell) (w w1 w2 : world) (path1 path2 : string) :
  let out := Pandas.drop_duplicates df in
  Os.open_read input_file w = (Return text, w) →
  read_csv text = Return df →
  read_csv (to_csv out) = Return out →
  deduplicate_csv read_csv to_csv input_file output_dir w = (Return path1, w1) →
  deduplicate_csv read_csv to_csv path1 output_dir2 w1 = (Return path2, w2) →
  fs w2 !! Os.key path2 = Some (File (to_csv out))
  ∧ stdout w2 = stdout w1 ++ ["Processing complete:";
                              "Total rows: " +:+ pretty (length (Pandas.rows out));
                              "Unique rows: " +:+ pretty (length (Pandas.rows out));
                              "Duplicates removed: 0";
                              "Output saved to: " +:+ path2].
Proof.
  intros out Hopen Hread Hround Hrun1 Hrun2.
  apply deduplicate_csv_returns in Hrun1
    as (text1 & df1 & wa & wb & Hopen1 & Hread1 & _ & Hwrite1 & _ & ->).
  rewrite Hopen in Hopen1. injection Hopen1 as <-.
  rewrite Hread in Hread1. injection Hread1 as <-. fold out in Hwrite1.
  apply deduplicate_csv_returns in Hrun2
    as (text2 & df2 & wc & wd & Hopen2 & Hread2 & Hmk2 & Hwrite2 & _ & ->).
  rewrite (open_read_printed path1 _ wb (Return (to_csv out))) in Hopen2
    by (by apply (open_read_after_write _ _ wa)).
  injection Hopen2 as <-. rewrite Hround in Hread2. injection Hread2 as <-.
  assert (Hsame : Pandas.drop_duplicates out = out).
  { apply drop_duplicates_NoDup. unfold out. rewrite drop_duplicates_rows.
    apply NoDup_first_occurrences. }
  rewrite Hsame in *. split.
  - simpl. by apply (open_write_lookup _ _ wc).
  - unfold summary. simpl. rewrite Nat.sub_diag.
    apply open_write_world in Hwrite2 as [(_ & -> & _)|[[e [=]] _]].
    simpl.
    assert (Hwc : stdout wc = stdout (printed (summary (length (Pandas.rows df))
                     (length (Pandas.rows out)) path1) wb)).
    { apply makedirs_grows in Hmk2 as (_ & Ho & _). exact Ho. }
    rewrite Hwc. done.
Qed.

Lemma deduplicate_csv_twice_witness :
  let w := world_of [] [("test.csv", skus_csv)] in
  let path1 := "output/test_deduplicated_20230101_123456.csv" in
  let path2 := "again/test_deduplicated_20230101_123456_deduplicated_20230101_123456.csv" in
  let w1 := (deduplicate_csv Excel.read_frame Excel.write_frame "test.csv" (Some "output") w).2 in
  let w2 := (deduplicate_csv Excel.read_frame Excel.write_frame path1 (Some "again") w1).2 in
  fs w2 !! path2 = fs w1 !! path1
  ∧ fs w2 !! path2
    = Some (File (lines ["STORE_SKU_ID,PRODUCT_CAT_CODE,ONLINE_STATUS";
                         "C0001,AA123,ONLINE"; "C0002,BB456,ONLINE"; ""]))
  ∧ stdout w2 = stdout w1 ++ ["Processing complete:"; "Total rows: 2"; "Unique rows: 2";
                              "Duplicates removed: 0"; "Output saved to: " +:+ path2].
Proof.
  intros w path1 path2 w1 w2.
  pose (df := Pandas.mkDataFrame ["STORE_SKU_ID"; "PRODUCT_CAT_CODE"; "ONLINE_STATUS"]
                [["C0001"; "AA123"; "ONLINE"]; ["C0002"; "BB456"; "ONLINE"];
                 ["C0001"; "AA123"; "ONLINE"]; ["C0002"; "BB456"; "ONLINE"]]).
  assert (H1 : Os.open_read "test.csv" w = (Return skus_csv, w)) by (vm_compute; reflexivity).
  assert (H2 : Excel.read_frame skus_csv = Return df) by (vm_compute; reflexivity).
  assert (H3 : Excel.read_frame (Excel.write_frame (Pandas.drop_duplicates df))
               = Return (Pandas.drop_duplicates df)) by (vm_compute; reflexivity).
  assert (H4 : deduplicate_csv Excel.read_frame Excel.write_frame "test.csv" (Some "output") w
               = (Return path1, w1)) by (vm_compute; reflexivity).
  assert (H5 : deduplicate_csv Excel.read_frame Excel.write_frame path1 (Some "again") w1
               = (Return path2, w2)) by (vm_compute; reflexivity).
  destruct (deduplicate_csv_twice Excel.read_frame Excel.write_frame "test.csv" skus_csv
              (Some "output") (Some "again") df w w1 w2 path1 path2 H1 H2 H3 H4 H5)
    as [Hfile Hout].
  split; [vm_compute; reflexivity|]. split; [exact Hfile|exact Hout].
Defined.

(** ** The helper of the tests *)




(** ** The input of [deduplicate_csv] is not its output *)

Lemma append_nil_r (s : string) : s +:+ EmptyString = s.
Proof.
  induction s as [|c s IH]; [done|].
  change (String c (s +:+ EmptyString) = String c s). by rewrite IH.
Qed.

Lemma append_assoc (s t u : string) : (s +:+ t) +:+ u = s +:+ t +:+ u.
Proof.
  induction s as [|c s IH]; [done|].
  change (String c ((s +:+ t) +:+ u) = String c (s +:+ t +:+ u)). by rewrite IH.
Qed.

Lemma split_last_snd_cons (c : ascii) (s : string) :
  (Os.split_last (String c s)).2
  = if Str.has_char Os.sep s then (Os.split_last s).2
    else if decide (c = Os.sep) then s else String c s.
Proof.
  simpl. destruct (Os.split_last s) as [h t]. simpl.
  destruct (Str.has_char Os.sep s); [done|]. by case_decide.
Qed.

(** The last piece between separators is what [posixpath.split] gives as
    the tail. *)
Lemma split_sep_last (cur p : string) :
  last (Os.split_sep cur p)
  = Some (if Str.has_char Os.sep p then (Os.split_last p).2 else cur +:+ p).
Proof.
  revert cur. induction p as [|c p IH]; intros cur.
  - simpl. by rewrite append_nil_r.
  - cbn [Os.split_sep Str.has_char]. rewrite split_last_snd_cons.
    destruct (decide (c = Os.sep)) as [->|Hne].
    + change (last (cur :: Os.split_sep EmptyString p)) with
        (match Os.split_sep EmptyString p with
         | [] => Some cur
         | _ => last (Os.split_sep EmptyString p)
         end).
      pose proof (IH EmptyString) as Hlast.
      destruct (Os.split_sep EmptyString p) as [|x l] eqn:E; [done|].
      rewrite Hlast. by destruct (Str.has_char Os.sep p).
    + rewrite IH. destruct (Str.has_char Os.sep p); [done|].
      by rewrite append_assoc.
Qed.

Lemma split_sep_last_basename (p : string) :
  last (Os.split_sep EmptyString p) = Some (Os.basename p).
Proof.
  rewrite split_sep_last. unfold Os.basename, Os.path_split.
  destruct (Str.has_char Os.sep p) eqn:E.
  - by destruct (Os.split_last p).
  - by rewrite (has_char_split_last p E).
Qed.

Lemma has_char_basename (p : string) : Str.has_char Os.sep (Os.basename p) = false.
Proof.
  unfold Os.basename, Os.path_split.
  assert (H : Str.has_char Os.sep (Os.split_last p).2 = false).
  { induction p as [|c p IH]; [done|]. rewrite split_last_snd_cons.
    destruct (Str.has_char Os.sep p) eqn:E; [done|].
    case_decide; [done|]. simpl. by rewrite decide_False. }
  by destruct (Os.split_last p).
Qed.

Lemma last_filter {A : Type} (P : A → Prop) `{∀ x, Decision (P x)} (l : list A) (x : A) :
  last l = Some x → P x → last (filter P l) = Some x.
Proof.
  intros Hlast HP. apply last_Some in Hlast as [l' ->].
  rewrite filter_app, filter_cons, decide_True by done. rewrite filter_nil. apply last_snoc.
Qed.

(** The text after the last separator of a key is its last component. *)
Lemma split_last_snd_app (before c : string) :
  Str.has_char Os.sep c = false →
  (Os.split_last (before +:+ String Os.sep c)).2 = c.
Proof.
  intros Hc. induction before as [|a before IH].
  - change (EmptyString +:+ String Os.sep c) with (String Os.sep c).
    rewrite split_last_snd_cons, Hc. by rewrite decide_True.
  - change (String a before +:+ String Os.sep c) with (String a (before +:+ String Os.sep c)).
    assert (Hsep : Str.has_char Os.sep (before +:+ String Os.sep c) = true).
    { rewrite has_char_app. apply orb_true_intro. right. reflexivity. }
    rewrite split_last_snd_cons, Hsep. exact IH.
Qed.

Lemma join_snoc (sep : string) (cs : list string) (c : string) :
  Str.join sep (cs ++ [c])
  = match cs with
    | [] => c
    | _ => Str.join sep cs +:+ sep +:+ c
    end.
Proof.
  unfold Str.join. induction cs as [|x cs IH]; [done|].
  destruct cs as [|y cs]; [done|].
  change (String.concat sep ((x :: y :: cs) ++ [c]))
    with (x +:+ sep +:+ String.concat sep ((y :: cs) ++ [c])).
  rewrite IH.
  change (String.concat sep (x :: y :: cs)) with (x +:+ sep +:+ String.concat sep (y :: cs)).
  by rewrite !append_assoc.
Qed.

Lemma key_of_last (absolute : bool) (cs : list string) (c : string) :
  Str.has_char Os.sep c = false →
  (Os.split_last (Os.key_of absolute (cs ++ [c]))).2 = c.
Proof.
  intros Hc. unfold Os.key_of. rewrite join_snoc. destruct cs as [|x cs].
  - destruct absolute.
    + apply (split_last_snd_app EmptyString c Hc).
    + change ((Os.split_last c).2 = c). by rewrite (has_char_split_last c Hc).
  - rewrite <- append_assoc. apply (split_last_snd_app _ c Hc).
Qed.

Lemma key_last (p c : string) :
  last (Os.split_sep EmptyString p) = Some c →
  c ≠ EmptyString → c ≠ "." → Str.has_char Os.sep c = false →
  (Os.split_last (Os.key p)).2 = c.
Proof.
  intros Hlast Hne Hdot Hsep. unfold Os.key, Os.components.
  assert (H : last (filter (λ c, c ≠ ".") (filter (λ c, c ≠ EmptyString)
                      (Os.split_sep EmptyString p))) = Some c).
  { apply last_filter; [|done]. by apply last_filter. }
  apply last_Some in H as [cs ->]. by apply key_of_last.
Qed.

Lemma rev_app_head (s : string) (d : ascii) (acc acc' : string) :
  match String.rev_app (String d s) acc with
  | String c _ => if decide (c = Os.sep) then true else false
  | EmptyString => false
  end
  = match String.rev_app (String d s) acc' with
    | String c _ => if decide (c = Os.sep) then true else false
    | EmptyString => false
    end.
Proof.
  revert d acc acc'. induction s as [|e s IH]; intros d acc acc'; [done|].
  change (String.rev_app (String d (String e s)) acc)
    with (String.rev_app (String e s) (String d acc)).
  change (String.rev_app (String d (String e s)) acc')
    with (String.rev_app (String e s) (String d acc')).
  apply IH.
Qed.

Lemma ends_with_sep_cons (c : ascii) (s : string) :
  Os.ends_with_sep (String c s)
  = match s with
    | EmptyString => if decide (c = Os.sep) then true else false
    | _ => Os.ends_with_sep s
    end.
Proof.
  unfold Os.ends_with_sep, String.rev. destruct s as [|d s]; [done|].
  change (String.rev_app (String c (String d s)) EmptyString)
    with (String.rev_app (String d s) (String c EmptyString)).
  apply rev_app_head.
Qed.

(** A path that does not end with a separator has a last component. *)
Lemma basename_nonempty (p : string) :
  p ≠ EmptyString → Os.ends_with_sep p = false → Os.basename p ≠ EmptyString.
Proof.
  unfold Os.basename, Os.path_split.
  assert (H : p ≠ EmptyString → Os.ends_with_sep p = false → (Os.split_last p).2 ≠ EmptyString).
  { induction p as [|c p IH]; [done|]. intros _. rewrite ends_with_sep_cons, split_last_snd_cons.
    destruct p as [|d p].
    - simpl. by case_decide.
    - intros Hend. destruct (Str.has_char Os.sep (String d p)); [by apply IH|].
      by case_decide. }
  intros Hne Hend. specialize (H Hne Hend). by destruct (Os.split_last p).
Qed.

Lemma ends_with_sep_app (d : string) :
  Os.ends_with_sep d = true → ∃ before, d = before +:+ String Os.sep EmptyString.
Proof.
  induction d as [|c d IH]; [done|]. rewrite ends_with_sep_cons. destruct d as [|c' d].
  - case_decide; [|done]. intros _. exists EmptyString. by subst.
  - intros H. destruct (IH H) as [before ->]. by exists (String c before).
Qed.

Lemma startswith_sep_has_char (s : string) :
  Str.startswith s "/" = true → Str.has_char Os.sep s = true.
Proof.
  destruct s as [|c s]; [done|]. unfold Str.startswith. rewrite prefix_cons.
  destruct (ascii_dec "/" c) as [<-|]; [done|done].
Qed.

(** The tail of [os.path.join(dir, name)] is [name] when [name] holds no
    separator. *)
Lemma basename_join (dir name : string) :
  Str.has_char Os.sep name = false → Os.basename (Os.join dir name) = name.
Proof.
  intros Hname. unfold Os.basename, Os.path_split.
  assert (H : (Os.split_last (Os.join dir name)).2 = name).
  { unfold Os.join.
    destruct (Str.startswith name "/") eqn:Hstart.
    { apply startswith_sep_has_char in Hstart. congruence. }
    case_decide; [by rewrite (has_char_split_last name Hname)|].
    destruct (Os.ends_with_sep dir) eqn:Hend.
    - apply ends_with_sep_app in Hend as [before ->]. rewrite append_assoc.
      by apply split_last_snd_app.
    - by apply split_last_snd_app. }
  by destruct (Os.split_last (Os.join dir name)).
Qed.

Lemma split_dot_spec (s root ext : string) :
  Os.split_dot s = Some (root, ext) →
  s = root +:+ ext ∧ ∃ ext', ext = String "." ext'.
Proof.
  revert root. induction s as [|c s IH]; intros root; [done|]. simpl.
  destruct (Os.split_dot s) as [[r e]|].
  - intros [= <- <-]. destruct (IH r eq_refl) as [-> Hext]. done.
  - case_decide; [|done]. intros [= <- <-]. subst c. split; [done|]. by eexists.
Qed.

(** The name without its extension: the name is the stem followed by
    nothing or by a dot and more. *)
Lemma splitext_stem (name : string) :
  Str.has_char Os.sep name = false →
  ∃ ext, name = (Os.splitext name).1 +:+ ext
         ∧ (ext = EmptyString ∨ ∃ ext', ext = String "." ext').
Proof.
  intros Hname. unfold Os.splitext. rewrite (has_char_split_last name Hname).
  destruct (Os.split_dot name) as [[root ext]|] eqn:Hdot.
  - destruct (Os.all_dots root).
    + exists EmptyString. rewrite append_nil_r. by split; [|left].
    + apply split_dot_spec in Hdot as [-> Hext]. exists ext. by split; [|right].
  - exists EmptyString. rewrite append_nil_r. by split; [|left].
Qed.

Lemma has_char_lower_stem (name : string) :
  Str.has_char Os.sep name = false → Str.has_char Os.sep (Os.splitext name).1 = false.
Proof.
  intros Hname. destruct (splitext_stem name Hname) as (ext & Heq & _).
  rewrite Heq in Hname. rewrite has_char_app in Hname. by apply orb_false_elim in Hname as [? _].
Qed.

(** The name of the output is never the name of the input. *)
Lemma output_name_fresh (name timestamp : string) :
  Str.has_char Os.sep name = false →
  (Os.splitext name).1 +:+ "_deduplicated_" +:+ timestamp +:+ ".csv" ≠ name.
Proof.
  intros Hname Heq. destruct (splitext_stem name Hname) as (ext & Hstem & Hext).
  pose proof (eq_trans Heq Hstem) as Heq'. apply String.app_inj in Heq'.
  destruct Hext as [->|[ext' ->]]; discriminate.
Qed.

Lemma walk_file_last (w : world) (absolute : bool) (above below : list string)
    (k data : string) :
  Os.walk w absolute above below = Os.Found k (File data) →
  ∃ c, last below = Some c ∧ c ≠ ".".
Proof.
  revert above. induction below as [|c below IH]; intros above; simpl; [done|].
  destruct (decide (c = ".")) as [->|Hc].
  - intros H. destruct (IH _ H) as (c' & Hlast & Hc'). exists c'. split; [|done].
    destruct below; [done|]. done.
  - destruct below as [|c' below].
    + intros _. by exists c.
    + destruct (fs w !! Os.key_of absolute (above ++ [c])) as [[|data']|]; [|done..].
      intros H. destruct (IH _ H) as (c'' & Hlast & Hc''). by exists c''.
Qed.

Lemma walk_preserved (w w' : world) (absolute : bool) (above below : list string)
    (k : string) (n : node) :
  Os.walk w absolute above below = Os.Found k n →
  (∀ k', fs w !! k' = Some Dir → fs w' !! k' = Some Dir) →
  fs w' !! k = fs w !! k →
  Os.walk w' absolute above below = Os.Found k n.
Proof.
  intros Hwalk Hdirs Hk. revert above Hwalk.
  induction below as [|c below IH]; intros above; simpl; [done|].
  destruct (decide (c = ".")); [apply IH|].
  destruct below as [|c' below].
  - destruct (fs w !! Os.key_of absolute (above ++ [c])) as [nd|] eqn:E; [|done].
    intros [= <- <-]. by rewrite Hk, E.
  - destruct (fs w !! Os.key_of absolute (above ++ [c])) as [[|data']|] eqn:E; [|done..].
    rewrite (Hdirs _ E). apply IH.
Qed.

Lemma open_read_inv (p text : string) (w : world) :
  Os.open_read p w = (Return text, w) →
  p ≠ EmptyString ∧ Os.ends_with_sep p = false ∧ (Os.key p ∉ denied w)
  ∧ Os.walk w (Str.startswith p "/") [] (Os.components p) = Os.Found (Os.key p) (File text).
Proof.
  unfold Os.open_read, Os.resolve. destruct (decide (p = EmptyString)); [done|].
  destruct (Os.walk w (Str.startswith p "/") [] (Os.components p)) as [k [|data]|k| |] eqn:Hwalk;
    try done.
  destruct (Os.ends_with_sep p); [done|]. case_decide; [done|]. intros [= ->].
  assert (k = Os.key p) as ->.
  { unfold Os.key. apply (walk_key w _ [] (Os.components p) k). left. by eexists. }
  done.
Qed.

(** A file that can be read can still be read, with the same text, in a
    world that has kept the directories and the entry of the file. *)
Lemma open_read_stable (p text : string) (w w' : world) :
  Os.open_read p w = (Return text, w) →
  denied w' = denied w →
  (∀ k, fs w !! k = Some Dir → fs w' !! k = Some Dir) →
  fs w' !! Os.key p = fs w !! Os.key p →
  Os.open_read p w' = (Return text, w').
Proof.
  intros Hopen Hdenied Hdirs Hkey.
  apply open_read_inv in Hopen as (Hne & Hend & Hden & Hwalk).
  unfold Os.open_read, Os.resolve. rewrite decide_False by done.
  rewrite (walk_preserved w w' _ _ _ _ _ Hwalk Hdirs Hkey). rewrite Hend, Hdenied.
  by rewrite decide_False.
Qed.

(** The last component of the key of a file that can be read is the base
    name of its path. *)
Lemma key_basename (p text : string) (w : world) :
  Os.open_read p w = (Return text, w) → (Os.split_last (Os.key p)).2 = Os.basename p.
Proof.
  intros Hopen. apply open_read_inv in Hopen as (Hne & Hend & _ & Hwalk).
  pose proof (basename_nonempty p Hne Hend) as Hbase.
  apply walk_file_last in Hwalk as (c & Hlast & Hdot).
  assert (c = Os.basename p) as ->.
  { unfold Os.components in Hlast.
    rewrite (last_filter (λ c, c ≠ EmptyString) _ (Os.basename p)
               (split_sep_last_basename p) Hbase) in Hlast.
    congruence. }
  apply key_last; [apply split_sep_last_basename|done|done|apply has_char_basename].
Qed.

Lemma output_key_fresh (input_file text timestamp : string) (output_dir : option string)
    (w : world) :
  Os.open_read input_file w = (Return text, w) →
  Str.has_char "/" timestamp = false →
  Os.key (output_path_at input_file output_dir timestamp) ≠ Os.key input_file.
Proof.
  intros Hopen Hts Hkey. unfold output_path_at in Hkey.
  set (name := (Os.splitext (Os.basename input_file)).1 +:+ "_deduplicated_"
               +:+ timestamp +:+ ".csv") in *.
  assert (Hname : Str.has_char Os.sep name = false).
  { unfold name. rewrite !has_char_app.
    rewrite (has_char_lower_stem _ (has_char_basename input_file)).
    change (Str.has_char Os.sep timestamp) with (Str.has_char "/" timestamp). by rewrite Hts. }
  assert (Hmark : Str.has_char "_" name = true).
  { unfold name. rewrite !has_char_app. apply orb_true_intro. right. reflexivity. }
  assert (Hlast : (Os.split_last (Os.key (Os.join (output_directory input_file output_dir) name))).2
                  = name).
  { apply key_last.
    - rewrite split_sep_last_basename. by rewrite basename_join.
    - intros E. rewrite E in Hmark. discriminate.
    - intros E. rewrite E in Hmark. discriminate.
    - exact Hname. }
  rewrite Hkey, (key_basename input_file text w Hopen) in Hlast.
  by apply (output_name_fresh (Os.basename input_file) timestamp (has_char_basename input_file)).
Qed.

(** X20.  [deduplicate_csv] never writes over its input.  Whatever the
    outcome of the call, the input file reads afterwards as it did before:
    the name of the output has [_deduplicated_] and the time after the stem
    of the input, so that it differs from the name of the input in every
    directory. *)
Theorem deduplicate_csv_keeps_input {Cell : Type} `{EqDecision Cell}
    (read_csv : string → outcome (Pandas.DataFrame Cell))
    (to_csv : Pandas.DataFrame Cell → string)
    (input_file text : string) (output_dir : option string)
    (w w' : world) (o : outcome string) :
  Os.open_read input_file w = (Return text, w) →
  Str.has_char "/" (clock w) = false →
  deduplicate_csv read_csv to_csv input_file output_dir w = (o, w') →
  Os.open_read input_file w' = (Return text, w').
Proof.
  intros Hopen Hclock Hrun. destruct o as [path|e].
  - apply deduplicate_csv_returns in Hrun
      as (text1 & df & w1 & w2 & _ & _ & Hmk & Hwrite & -> & ->).
    apply open_read_printed.
    apply makedirs_grows in Hmk as (Hd & _ & _ & Hfs).
    apply open_write_world in Hwrite as [(_ & -> & Hnodir)|[[e [=]] _]].
    pose proof (output_key_fresh input_file text (clock w) output_dir w Hopen Hclock) as Hfresh.
    apply (open_read_stable _ _ w); [done|done| |].
    + intros k Hk. unfold set_fs. cbn [fs]. destruct (Hfs k) as [E|[E _]]; [|congruence].
      rewrite lookup_insert_ne; [congruence|]. intros <-. apply Hnodir. congruence.
    + unfold set_fs. cbn [fs]. rewrite lookup_insert_ne by done.
      destruct (Hfs (Os.key input_file)) as [E|[E _]]; [done|].
      apply open_read_inv in Hopen as (_ & _ & _ & Hwalk).
      apply walk_found_file in Hwalk. congruence.
  - apply deduplicate_csv_raises in Hrun as (Hd & _ & _ & Hfs).
    apply (open_read_stable _ _ w); [done|done| |].
    + intros k Hk. destruct (Hfs k) as [E|[E _]]; congruence.
    + destruct (Hfs (Os.key input_file)) as [E|[E _]]; [done|].
      apply open_read_inv in Hopen as (_ & _ & _ & Hwalk).
      apply walk_found_file in Hwalk. congruence.
Qed.

Lemma deduplicate_csv_keeps_input_witness :
  let w := world_of ["data"] [("data/test.csv", skus_csv)] in
  let w' := (deduplicate_csv Excel.read_frame Excel.write_frame "data/test.csv" None w).2 in
  fs w' !! "data/test_deduplicated_20230101_123456.csv"
  = Some (File (lines ["STORE_SKU_ID,PRODUCT_CAT_CODE,ONLINE_STATUS";
                       "C0001,AA123,ONLINE"; "C0002,BB456,ONLINE"; ""]))
  ∧ Os.open_read "data/test.csv" w' = (Return skus_csv, w').
Proof.
  intros w w'. split; [vm_compute; reflexivity|].
  apply (deduplicate_csv_keeps_input Excel.read_frame Excel.write_frame "data/test.csv"
           skus_csv None w w'
           (deduplicate_csv Excel.read_frame Excel.write_frame "data/test.csv" None w).1).
  - vm_compute. reflexivity.
  - vm_compute. reflexivity.
  - unfold w'. by destruct (deduplicate_csv _ _ _ _ w).
Defined.

(** ** A directory of one name and a file in it *)


Lemma split_sep_bare (cur s : string) :
  Str.has_char Os.sep s = false → Os.split_sep cur s = [cur +:+ s].
Proof.
  revert cur. induction s as [|c s IH]; intros cur Hs.
  - simpl. by rewrite append_nil_r.
  - simpl in Hs. simpl. destruct (decide (c = Os.sep)); [done|].
    rewrite (IH _ Hs). by rewrite append_assoc.
Qed.

Lemma split_sep_app (cur a b : string) :
  Os.split_sep cur (a +:+ String Os.sep b) = Os.split_sep cur a ++ Os.split_sep EmptyString b.
Proof.
  revert cur. induction a as [|c a IH]; intros cur.
  - reflexivity.
  - change (String c a +:+ String Os.sep b) with (String c (a +:+ String Os.sep b)). simpl.
    destruct (decide (c = Os.sep)); by rewrite IH.
Qed.

Lemma components_name (d : string) : is_name d → Os.components d = [d].
Proof.
  intros (Hne & _ & _ & Hsep). unfold Os.components. rewrite (split_sep_bare _ _ Hsep).
  change (EmptyString +:+ d) with d. rewrite filter_cons, decide_True by done. done.
Qed.

Lemma components_in_dir (d name : string) :
  is_name d → is_name name → Os.components (d +:+ "/" +:+ name) = [d; name].
Proof.
  intros Hd Hname. unfold Os.components.
  change (d +:+ "/" +:+ name) with (d +:+ String Os.sep name).
  rewrite split_sep_app, filter_app.
  fold (Os.components d). fold (Os.components name).
  by rewrite (components_name d Hd), (components_name name Hname).
Qed.

Lemma startswith_name (d rest : string) :
  is_name d → Str.startswith (d +:+ rest) "/" = false.
Proof.
  intros (Hne & _ & _ & Hsep). destruct d as [|c d]; [done|].
  change (String c d +:+ rest) with (String c (d +:+ rest)).
  unfold Str.startswith. rewrite prefix_cons. simpl in Hsep.
  destruct (ascii_dec "/" c) as [<-|]; [|done]. by rewrite decide_True in Hsep.
Qed.

Lemma ends_with_sep_name (name : string) : is_name name → Os.ends_with_sep name = false.
Proof.
  intros (Hne & _ & _ & Hsep). induction name as [|c name IH]; [done|].
  rewrite ends_with_sep_cons. simpl in Hsep.
  destruct (decide (c = Os.sep)); [done|]. destruct name as [|c' name]; [done|].
  by apply IH.
Qed.

Lemma ends_with_sep_append (s t : string) :
  t ≠ EmptyString → Os.ends_with_sep (s +:+ t) = Os.ends_with_sep t.
Proof.
  intros Ht. induction s as [|c s IH]; [done|].
  change (String c s +:+ t) with (String c (s +:+ t)). rewrite ends_with_sep_cons.
  destruct (s +:+ t) as [|c' r] eqn:E; [|done].
  destruct s as [|c0 s]; [|discriminate E]. exfalso. by apply Ht.
Qed.

Lemma rstrip_sep_name (d : string) : Str.has_char Os.sep d = false → Os.rstrip_sep d = d.
Proof.
  induction d as [|c d IH]; [done|]. simpl. destruct (decide (c = Os.sep)); [done|].
  intros H. rewrite (IH H). by destruct d.
Qed.

Lemma ancestors_from_name (before rest : string) :
  Str.has_char Os.sep rest = false → Os.ancestors_from before rest = [].
Proof.
  revert before. induction rest as [|c rest IH]; intros before; [done|]. simpl.
  destruct (decide (c = Os.sep)) as [|Hc]; [done|]. intros H.
  rewrite decide_False by tauto. by rewrite (IH _ H).
Qed.

Lemma ancestors_name (d : string) : is_name d → Os.ancestors d = [].
Proof.
  intros (Hne & _ & _ & Hsep). unfold Os.ancestors, Os.canon.
  rewrite (rstrip_sep_name d Hsep). rewrite decide_False by done.
  by apply ancestors_from_name.
Qed.

Lemma split_last_in_dir (d name : string) :
  Str.has_char Os.sep name = false →
  Os.split_last (d +:+ String Os.sep name) = (d +:+ String Os.sep EmptyString, name).
Proof.
  intros Hname. induction d as [|c d IH].
  - change (EmptyString +:+ String Os.sep name) with (String Os.sep name). simpl.
    rewrite (has_char_split_last name Hname), Hname. done.
  - change (String c d +:+ String Os.sep name) with (String c (d +:+ String Os.sep name)).
    cbn [Os.split_last]. rewrite IH.
    assert (Hsep : Str.has_char Os.sep (d +:+ String Os.sep name) = true).
    { rewrite has_char_app. apply orb_true_intro. right. reflexivity. }
    by rewrite Hsep.
Qed.

Lemma rstrip_sep_dir (d : string) :
  d ≠ EmptyString → Str.has_char Os.sep d = false →
  Os.rstrip_sep (d +:+ String Os.sep EmptyString) = d.
Proof.
  intros Hne Hsep. induction d as [|c d IH]; [done|].
  change (String c d +:+ String Os.sep EmptyString)
    with (String c (d +:+ String Os.sep EmptyString)).
  cbn [Os.rstrip_sep]. simpl in Hsep. destruct (decide (c = Os.sep)) as [|Hc]; [done|].
  destruct d as [|c' d].
  - done.
  - rewrite IH by done. done.
Qed.

Lemma dirname_in_dir (d name : string) :
  is_name d → is_name name → Os.dirname (d +:+ "/" +:+ name) = d.
Proof.
  intros (Hne & _ & _ & Hsep) (_ & _ & _ & Hname). unfold Os.dirname, Os.path_split.
  change (d +:+ "/" +:+ name) with (d +:+ String Os.sep name).
  rewrite (split_last_in_dir d name Hname). rewrite (rstrip_sep_dir d Hne Hsep).
  by rewrite decide_False.
Qed.

Lemma resolve_name (w : world) (d : string) :
  is_name d →
  Os.resolve w d = match fs w !! d with
                   | Some n => Os.Found d n
                   | None => Os.Absent d
                   end.
Proof.
  intros Hd. unfold Os.resolve. rewrite decide_False by apply Hd.
  rewrite (components_name d Hd).
  rewrite <- (append_nil_r d) at 1. rewrite (startswith_name d EmptyString Hd).
  simpl. rewrite decide_False by apply Hd. done.
Qed.

Lemma resolve_in_dir (w : world) (d name : string) :
  is_name d → is_name name → fs w !! d = Some Dir →
  Os.resolve w (d +:+ "/" +:+ name)
  = match fs w !! (d +:+ "/" +:+ name) with
    | Some n => Os.Found (d +:+ "/" +:+ name) n
    | None => Os.Absent (d +:+ "/" +:+ name)
    end.
Proof.
  intros Hd Hname Hdir. unfold Os.resolve.
  rewrite decide_False by (destruct Hd as (Hne & _); by destruct d).
  rewrite (components_in_dir d name Hd Hname), (startswith_name d _ Hd).
  simpl. rewrite decide_False by apply Hd. rewrite decide_False by apply Hname.
  change (Os.key_of false [d]) with d. rewrite Hdir.
  change (Os.key_of false [d; name]) with (d +:+ "/" +:+ name). done.
Qed.

Lemma world_eta (w : world) : set_fs (fs w) w = w.
Proof. by destruct w. Qed.

(** [os.makedirs(d, exist_ok=True)] for a directory of one name that is
    there, or is not there and may be made. *)
Lemma makedirs_name (w : world) (d : string) :
  is_name d →
  fs w !! d = Some Dir ∨ (fs w !! d = None ∧ d ∉ denied w) →
  Os.makedirs d w = (Return tt, set_fs (<[d := Dir]> (fs w)) w).
Proof.
  intros Hd Hfs. unfold Os.makedirs. rewrite (ancestors_name d Hd). unfold_monad. simpl.
  unfold Os.mkdir, Os.stat. rewrite (resolve_name w d Hd).
  destruct Hfs as [Hdir|[Hnone Hden]].
  - rewrite Hdir. rewrite (resolve_name w d Hd), Hdir.
    rewrite (insert_id (fs w) d Dir Hdir). by rewrite world_eta.
  - rewrite Hnone. by rewrite decide_False.
Qed.

Lemma open_write_in_dir (w : world) (d name content : string) :
  is_name d → is_name name → fs w !! d = Some Dir →
  fs w !! (d +:+ "/" +:+ name) ≠ Some Dir →
  (d +:+ "/" +:+ name) ∉ denied w →
  Os.open_write (d +:+ "/" +:+ name) content w
  = (Return tt, set_fs (<[d +:+ "/" +:+ name := File content]> (fs w)) w).
Proof.
  intros Hd Hname Hdir Hfile Hden. unfold Os.open_write.
  rewrite (resolve_in_dir w d name Hd Hname Hdir).
  assert (Hend : Os.ends_with_sep (d +:+ "/" +:+ name) = false).
  { change (d +:+ "/" +:+ name) with (d +:+ String Os.sep name).
    rewrite ends_with_sep_append by done.
    rewrite ends_with_sep_cons. destruct name as [|c name]; [by destruct Hname|].
    by apply ends_with_sep_name. }
  destruct (fs w !! (d +:+ "/" +:+ name)) as [[|data]|]; [done| |];
    unfold Os.create; rewrite Hend; by rewrite decide_False.
Qed.

Lemma append_not_self (d rest : string) : rest ≠ EmptyString → d ≠ d +:+ rest.
Proof.
  intros Hrest Heq. rewrite <- (append_nil_r d) in Heq at 1.
  apply String.app_inj in Heq. by apply Hrest.
Qed.

Lemma save_to_file_one_level (content d name : string) (w : world) :
  is_name d → is_name name →
  fs w !! d = Some Dir ∨ (fs w !! d = None ∧ d ∉ denied w) →
  fs w !! (d +:+ "/" +:+ name) ≠ Some Dir →
  (d +:+ "/" +:+ name) ∉ denied w →
  save_to_file content (d +:+ "/" +:+ name) w
  = (Return tt,
     printed ["Result saved to: " +:+ d +:+ "/" +:+ name]
       (set_fs (<[d +:+ "/" +:+ name := File content]> (<[d := Dir]> (fs w))) w)).
Proof.
  intros Hd Hname Hdir Hfile Hden. unfold save_to_file. unfold_monad.
  rewrite (dirname_in_dir d name Hd Hname). rewrite (makedirs_name w d Hd Hdir).
  rewrite (open_write_in_dir (set_fs (<[d := Dir]> (fs w)) w) d name content Hd Hname).
  - done.
  - simpl. apply lookup_insert_eq.
  - simpl. rewrite lookup_insert_ne by (by apply append_not_self). done.
  - done.
Qed.

(** X10.  [save_to_file] does save under a path made of a directory and a
    file name.  When the directory is there or may be made, and nothing
    stands in the way of the file, the call makes the directory if it has to,
    leaves the file with the content as its whole text, an older text being
    lost, and prints the path. *)
Theorem save_to_file_in_directory (content d name : string) (w : world) :
  is_name d → is_name name →
  fs w !! d = Some Dir ∨ (fs w !! d = None ∧ d ∉ denied w) →
  fs w !! (d +:+ "/" +:+ name) ≠ Some Dir →
  (d +:+ "/" +:+ name) ∉ denied w →
  save_to_file content (d +:+ "/" +:+ name) w
  = (Return tt,
     printed ["Result saved to: " +:+ d +:+ "/" +:+ name]
       (set_fs (<[d +:+ "/" +:+ name := File content]> (<[d := Dir]> (fs w))) w)).
Proof. apply save_to_file_one_level. Qed.

Lemma save_to_file_in_directory_witness :
  save_to_file "(ABC123, DEF456)" "output/codes.txt"
    (world_of ["output"] [("output/codes.txt", "old")])
  = (Return tt,
     printed ["Result saved to: output/codes.txt"]
       (set_fs (<["output/codes.txt" := File "(ABC123, DEF456)"]>
                  (<["output" := Dir]> (fs (world_of ["output"] [("output/codes.txt", "old")]))))
          (world_of ["output"] [("output/codes.txt", "old")]))).
Proof.
  apply (save_to_file_in_directory "(ABC123, DEF456)" "output" "codes.txt").
  - repeat split; discriminate.
  - repeat split; discriminate.
  - left. vm_compute. reflexivity.
  - vm_compute. discriminate.
  - apply not_elem_of_empty.
Defined.

Lemma output_name_is_name (input_file timestamp : string) :
  Str.has_char "/" timestamp = false →
  is_name ((Os.splitext (Os.basename input_file)).1 +:+ "_deduplicated_" +:+ timestamp +:+ ".csv").
Proof.
  intros Hts.
  set (name := (Os.splitext (Os.basename input_file)).1 +:+ "_deduplicated_"
               +:+ timestamp +:+ ".csv").
  assert (Hmark : Str.has_char "_" name = true).
  { unfold name. rewrite !has_char_app. apply orb_true_intro. right. reflexivity. }
  repeat split.
  - intros E. rewrite E in Hmark. discriminate.
  - intros E. rewrite E in Hmark. discriminate.
  - intros E. rewrite E in Hmark. discriminate.
  - unfold name. rewrite !has_char_app.
    rewrite (has_char_lower_stem _ (has_char_basename input_file)).
    change (Str.has_char Os.sep timestamp) with (Str.has_char "/" timestamp). by rewrite Hts.
Qed.

Lemma join_output (name : string) :
  Str.has_char Os.sep name = false → Os.join "output" name = "output" +:+ "/" +:+ name.
Proof.
  intros Hname. unfold Os.join.
  destruct (Str.startswith name "/") eqn:Hstart; [|done].
  apply startswith_sep_has_char in Hstart. congruence.
Qed.

(** X22.  The command line of the tool, with its default directory
    [output].  For an input that pandas reads, when [output] is a directory
    or may be made and nothing stands in the way of the output file, the run
    succeeds: it makes [output] if it has to, writes there the frame without
    its duplicates under the stem of the input followed by [_deduplicated_],
    the time and [.csv], prints the summary and returns the path. *)
Theorem deduplicate_main_default_directory {Cell : Type} `{EqDecision Cell}
    (read_csv : string → outcome (Pandas.DataFrame Cell))
    (to_csv : Pandas.DataFrame Cell → string)
    (input_file text : string) (df : Pandas.DataFrame Cell) (w : world) :
  let path := "output/" +:+ (Os.splitext (Os.basename input_file)).1
              +:+ "_deduplicated_" +:+ clock w +:+ ".csv" in
  let out := Pandas.drop_duplicates df in
  Os.open_read input_file w = (Return text, w) →
  read_csv text = Return df →
  Str.has_char "/" (clock w) = false →
  fs w !! "output" = Some Dir ∨ (fs w !! "output" = None ∧ "output" ∉ denied w) →
  fs w !! path ≠ Some Dir →
  path ∉ denied w →
  deduplicate_main read_csv to_csv input_file None w
  = (Return path,
     printed ["Processing complete:";
              "Total rows: " +:+ pretty (length (Pandas.rows df));
              "Unique rows: " +:+ pretty (length (Pandas.rows out));
              "Duplicates removed: " +:+
                pretty (length (Pandas.rows df) - length (Pandas.rows out));
              "Output saved to: " +:+ path]
       (set_fs (<[path := File (to_csv out)]> (<["output" := Dir]> (fs w))) w)).
Proof.
  intros path out Hopen Hread Hclock Hdir Hfile Hden.
  pose proof (output_name_is_name input_file (clock w) Hclock) as Hname.
  assert (Houtput : is_name "output") by (repeat split; discriminate).
  unfold deduplicate_main, deduplicate_csv, now_strftime. unfold_monad.
  rewrite Hopen, Hread.
  change (default "output" None) with "output".
  rewrite (makedirs_name w "output" Houtput Hdir).
  rewrite (join_output _ (proj2 (proj2 (proj2 Hname)))).
  rewrite (open_write_in_dir (set_fs (<["output" := Dir]> (fs w)) w) "output" _
             (to_csv (Pandas.drop_duplicates df)) Houtput Hname).
  - unfold printed, set_fs. cbn [fs denied stdout clock]. by rewrite <- !app_assoc.
  - unfold set_fs. cbn [fs]. apply lookup_insert_eq.
  - unfold set_fs. cbn [fs]. rewrite lookup_insert_ne by (by apply (append_not_self "output")).
    exact Hfile.
  - exact Hden.
Qed.

Lemma deduplicate_main_default_directory_witness :
  let w := world_of [] [("test.csv", skus_csv)] in
  let path := "output/test_deduplicated_20230101_123456.csv" in
  let run := deduplicate_main Excel.read_frame Excel.write_frame "test.csv" None w in
  run.1 = Return path
  ∧ fs run.2 !! "output" = Some Dir
  ∧ fs run.2 !! path
    = Some (File (lines ["STORE_SKU_ID,PRODUCT_CAT_CODE,ONLINE_STATUS";
                         "C0001,AA123,ONLINE"; "C0002,BB456,ONLINE"; ""]))
  ∧ stdout run.2 = ["Processing complete:"; "Total rows: 4"; "Unique rows: 2";
                    "Duplicates removed: 2"; "Output saved to: " +:+ path].
Proof.
  intros w path run.
  pose (df := Pandas.mkDataFrame ["STORE_SKU_ID"; "PRODUCT_CAT_CODE"; "ONLINE_STATUS"]
                [["C0001"; "AA123"; "ONLINE"]; ["C0002"; "BB456"; "ONLINE"];
                 ["C0001"; "AA123"; "ONLINE"]; ["C0002"; "BB456"; "ONLINE"]]).
  assert (H1 : Os.open_read "test.csv" w = (Return skus_csv, w)) by (vm_compute; reflexivity).
  assert (H2 : Excel.read_frame skus_csv = Return df) by (vm_compute; reflexivity).
  assert (H3 : Str.has_char "/" (clock w) = false) by (vm_compute; reflexivity).
  assert (H4 : fs w !! "output" = Some Dir ∨ (fs w !! "output" = None ∧ "output" ∉ denied w)).
  { right. split; [vm_compute; reflexivity|]. apply not_elem_of_empty. }
  assert (H5 : fs w !! ("output/" +:+ (Os.splitext (Os.basename "test.csv")).1
                        +:+ "_deduplicated_" +:+ clock w +:+ ".csv") ≠ Some Dir)
    by (vm_compute; discriminate).
  assert (H6 : ("output/" +:+ (Os.splitext (Os.basename "test.csv")).1
                +:+ "_deduplicated_" +:+ clock w +:+ ".csv") ∉ denied w)
    by apply not_elem_of_empty.
  pose proof (deduplicate_main_default_directory Excel.read_frame Excel.write_frame
                "test.csv" skus_csv df w H1 H2 H3 H4 H5 H6) as Hrun.
  unfold run. rewrite Hrun. repeat split; vm_compute; reflexivity.
Defined.

Lemma truthy_in_dir (d rest : string) : d ≠ EmptyString → truthy (Some (d +:+ rest)) = true.
Proof. intros Hd. by destruct d. Qed.

Lemma truthy_tuple_literal (add_quotes : bool) (values : list string) :
  truthy (Some (tuple_literal add_quotes values)) = true.
Proof. reflexivity. Qed.

(** X15.  [main] with a column and an output path under a directory.  When
    the column gives at least one value, the directory is there or may be
    made and nothing stands in the way of the file, [main] prints what the
    search prints, saves the literal, says so, and prints the literal: the
    file holds exactly the literal, with its quotes. *)
Theorem main_saves_result
    (csv_reader : string → list Csv.item) (w : world)
    (prog csv_file column_name d name text : string)
    (header : list string) (records : list (list string)) (col : string) (vals : list string) :
  let path := d +:+ "/" +:+ name in
  let literal := tuple_literal true (kept_values vals) in
  Os.open_read csv_file w = (Return text, w) →
  csv_reader text = map Csv.Rec (header :: records) →
  resolve_column header column_name = Some col →
  mapM (cell col) (data_rows header records) = Some vals →
  kept_values vals ≠ [] →
  column_name ≠ "--no-quotes" →
  Str.lower column_name ≠ "update_script" →
  Str.startswith path "output" = true →
  is_name d → is_name name →
  fs w !! d = Some Dir ∨ (fs w !! d = None ∧ d ∉ denied w) →
  fs w !! path ≠ Some Dir →
  path ∉ denied w →
  main csv_reader [prog; csv_file; column_name; path] w
  = (Return tt,
     printed (search_lines header column_name ++ ["Result saved to: " +:+ path; literal])
       (set_fs (<[path := File literal]> (<[d := Dir]> (fs w))) w)).
Proof.
  intros path literal Hopen Hread Hcol Hvals Hkept Hflag Hmode Hout Hd Hname Hdir Hfile Hden.
  pose proof (tuple_transcript csv_reader w csv_file column_name true text header
                (map Csv.Rec records) col Hopen Hread Hcol) as Hrun.
  rewrite (for_records_collect col header records vals [] Hvals) in Hrun.
  change ([] ++ kept_values vals) with (kept_values vals) in Hrun.
  fold literal in Hrun.
  assert (Hrun' : csv_column_to_mysql_tuple csv_reader csv_file column_name true w
                  = (Return (Some literal), printed (search_lines header column_name) w)).
  { rewrite Hrun. unfold literal. by destruct (kept_values vals). }
  clear Hrun.
  pose proof (save_to_file_one_level literal d name
                (printed (search_lines header column_name) w) Hd Hname Hdir Hfile Hden) as Hsave.
  fold path in Hsave.
  unfold main. rewrite (no_flag_2 column_name path Hflag (output_not_flag path Hout)).
  change (negb false) with true. cbv iota.
  change (last [column_name; path]) with (Some path). cbv beta iota.
  rewrite Hout.
  change ((1 <? length [column_name; path])%nat && true) with true. cbv beta iota.
  change (Str.join " " (removelast [column_name; path])) with column_name.
  apply String.eqb_neq in Hmode. rewrite Hmode.
  unfold_monad. rewrite Hrun'.
  rewrite (truthy_tuple_literal true (kept_values vals) : truthy (Some literal) = true).
  rewrite (truthy_in_dir d _ (proj1 Hd) : truthy (Some path) = true).
  rewrite Hsave.
  unfold printed, set_fs. cbn [fs denied stdout clock]. by rewrite <- !app_assoc.
Qed.

Lemma main_saves_result_witness :
  let w := world_of [] [("test.csv", products_csv)] in
  let run := main Excel.reader ["csv_to_mysql.py"; "test.csv"; "product_code"; "output/codes.txt"] w in
  run.1 = Return tt
  ∧ fs run.2 !! "output/codes.txt" = Some (File "('ABC123', 'DEF456')")
  ∧ stdout run.2 = ["Available columns: PRODUCT_CODE"; "Result saved to: output/codes.txt";
                    "('ABC123', 'DEF456')"].
Proof.
  intros w run.
  assert (H1 : Os.open_read "test.csv" w = (Return products_csv, w)) by (vm_compute; reflexivity).
  assert (H2 : Excel.reader products_csv
               = map Csv.Rec (["PRODUCT_CODE"] :: [["ABC123"]; []; [" DEF456 "]]))
    by (vm_compute; reflexivity).
  assert (H3 : resolve_column ["PRODUCT_CODE"] "product_code" = Some "PRODUCT_CODE")
    by (vm_compute; reflexivity).
  assert (H4 : mapM (cell "PRODUCT_CODE")
                 (data_rows ["PRODUCT_CODE"] [["ABC123"]; []; [" DEF456 "]])
               = Some ["ABC123"; " DEF456 "]) by (vm_compute; reflexivity).
  assert (H5 : kept_values ["ABC123"; " DEF456 "] ≠ []) by (vm_compute; discriminate).
  assert (H6 : "product_code" ≠ "--no-quotes") by discriminate.
  assert (H7 : Str.lower "product_code" ≠ "update_script") by (vm_compute; discriminate).
  assert (H8 : Str.startswith ("output" +:+ "/" +:+ "codes.txt") "output" = true)
    by (vm_compute; reflexivity).
  assert (H9 : is_name "output") by (repeat split; discriminate).
  assert (H10 : is_name "codes.txt") by (repeat split; discriminate).
  assert (H11 : fs w !! "output" = Some Dir ∨ (fs w !! "output" = None ∧ "output" ∉ denied w)).
  { right. split; [vm_compute; reflexivity|]. apply not_elem_of_empty. }
  assert (H12 : fs w !! ("output" +:+ "/" +:+ "codes.txt") ≠ Some Dir)
    by (vm_compute; discriminate).
  assert (H13 : ("output" +:+ "/" +:+ "codes.txt") ∉ denied w) by apply not_elem_of_empty.
  pose proof (main_saves_result Excel.reader w "csv_to_mysql.py" "test.csv" "product_code"
                "output" "codes.txt" products_csv ["PRODUCT_CODE"]
                [["ABC123"]; []; [" DEF456 "]] "PRODUCT_CODE" ["ABC123"; " DEF456 "]
                H1 H2 H3 H4 H5 H6 H7 H8 H9 H10 H11 H12 H13) as Hrun.
  unfold run. change "output/codes.txt" with ("output" +:+ "/" +:+ "codes.txt").
  rewrite Hrun. repeat split; vm_compute; reflexivity.
Defined.

(** ** The models on concrete inputs *)

Example lower_ex : Str.lower "Product Code" = "product code".
Proof. reflexivity. Qed.

Example strip_ex : Str.strip "  a b  " = "a b".
Proof. reflexivity. Qed.

Example split_ex : Str.split ", " "a, b,, c, " = ["a"; "b,"; "c"; ""].
Proof. reflexivity. Qed.

Example dirname_ex :
  map Os.dirname ["output/r.txt"; "output.txt"; "/a"; "a/b/"; "a//b"; "///"]
  = ["output"; ""; "/"; "a/b"; "a"; "///"].
Proof. reflexivity. Qed.

Example basename_ex :
  map Os.basename ["output/r.txt"; "output.txt"; "/a"; "a/b/"] = ["r.txt"; "output.txt"; "a"; ""].
Proof. reflexivity. Qed.

Example splitext_ex :
  map (λ p, (Os.splitext p).1) ["d.x/test.csv"; "a.tar.gz"; ".bashrc"; "d.x/noext"; "..a.b"]
  = ["d.x/test"; "a.tar"; ".bashrc"; "d.x/noext"; "..a"].
Proof. reflexivity. Qed.

Example join_ex :
  [Os.join "out" "f.csv"; Os.join "out/" "f.csv"; Os.join "" "f.csv"; Os.join "a" "/f"]
  = ["out/f.csv"; "out/f.csv"; "f.csv"; "/f"].
Proof. reflexivity. Qed.

Example excel_records_ex :
  Excel.records notes_csv = [["NOTE"]; ["a, b"]]
  ∧ Excel.records products_csv = [["PRODUCT_CODE"]; ["ABC123"]; []; [" DEF456 "]].
Proof. split; vm_compute; reflexivity. Qed.

(** The tests of [tests/test_csv_to_mysql.py]. *)

Example test_basic_conversion :
  (csv_column_to_mysql_tuple Excel.reader "test.csv" "PRODUCT_CODE" true
     (world_of [] [("test.csv", three_codes_csv)])).1
  = Return (Some "('ABC123', 'DEF456', 'GHI789')").
Proof. vm_compute. reflexivity. Qed.

Example test_without_quotes :
  (csv_column_to_mysql_tuple Excel.reader "test.csv" "PRODUCT_CODE" false
     (world_of [] [("test.csv", three_codes_csv)])).1
  = Return (Some "(ABC123, DEF456, GHI789)").
Proof. vm_compute. reflexivity. Qed.

Example test_column_with_spaces :
  (csv_column_to_mysql_tuple Excel.reader "test.csv" "Product Code" true
     (world_of [] [("test.csv", product_code_csv)])).1
  = Return (Some "('ABC123', 'DEF456')").
Proof. vm_compute. reflexivity. Qed.

Example test_case_insensitive_column :
  (csv_column_to_mysql_tuple Excel.reader "test.csv" "product_code" true
     (world_of [] [("test.csv", lines ["PRODUCT_CODE"; "ABC123"; "DEF456"])])).1
  = Return (Some "('ABC123', 'DEF456')").
Proof. vm_compute. reflexivity. Qed.

Example test_empty_column :
  (csv_column_to_mysql_tuple Excel.reader "test.csv" "PRODUCT_CODE" true
     (world_of [] [("test.csv", lines ["PRODUCT_CODE"; "ABC123"; ""; "DEF456"])])).1
  = Return (Some "('ABC123', 'DEF456')").
Proof. vm_compute. reflexivity. Qed.

Example test_column_not_found :
  csv_column_to_mysql_tuple Excel.reader "test.csv" "NONEXISTENT" true
    (world_of [] [("test.csv", lines ["PRODUCT_CODE"; "ABC123"])])
  = (Return None,
     printed ["Available columns: PRODUCT_CODE";
              "Warning: Column 'NONEXISTENT' not found exactly, trying to find a match...";
              "Error: Could not find column matching 'NONEXISTENT'"]
       (world_of [] [("test.csv", lines ["PRODUCT_CODE"; "ABC123"])])).
Proof. vm_compute. reflexivity. Qed.

Example test_file_not_found :
  csv_column_to_mysql_tuple Excel.reader "nonexistent.csv" "PRODUCT_CODE" true (world_of [] [])
  = (Return None, printed ["Error: File 'nonexistent.csv' not found."] (world_of [] [])).
Proof. vm_compute. reflexivity. Qed.

(** Outside the rows that C1 and C2 are about.  A row shorter than the
    header has [None] in the columns it does not reach: the extractor ends
    on the [AttributeError] of [None.strip()] and the update script shows
    [None]; the surplus of a longer row appears under the key [None]; of two
    columns of one name the last gives the value. *)
Example short_row_in_tuple :
  csv_column_to_mysql_tuple Excel.reader "test.csv" "age" true
    (world_of [] [("test.csv", lines ["id,age"; "1,10"; "2"])])
  = (Return None,
     printed ["Available columns: id, age";
              "Error: An unexpected error occurred: 'NoneType' object has no attribute 'strip'"]
       (world_of [] [("test.csv", lines ["id,age"; "1,10"; "2"])])).
Proof. vm_compute. reflexivity. Qed.

Example ragged_rows_in_update_script :
  (csv_to_mysql_update_script Excel.reader "test.csv" "t"
     (world_of [] [("test.csv", lines ["id,name"; "1,may,x"; "2"])])).1
  = Return (Some (lines ["Update t set name = may, None = ['x'] where id = 1;";
                         "Update t set name = None where id = 2;"])).
Proof. vm_compute. reflexivity. Qed.

Example repeated_column_in_update_script :
  (csv_to_mysql_update_script Excel.reader "test.csv" "t"
     (world_of [] [("test.csv", lines ["id,a,a"; "1,x,y"])])).1
  = Return (Some "Update t set a = y where id = 1;").
Proof. vm_compute. reflexivity. Qed.

(** A column whose name is empty is found and then taken for no match. *)
Example empty_column_name :
  resolve_column [""; "a"] "" = None ∧ resolve_column [" "; ""] "" = Some " ".
Proof. split; reflexivity. Qed.

(** [main]: the output path, the result printed, and the table name of the
    update-script mode, which is the word that selects the mode. *)
Example main_saves_and_prints :
  main Excel.reader ["csv_to_mysql.py"; "test.csv"; "product"; "code"; "--no-quotes"; "output/r.txt"]
    (world_of [] [("test.csv", product_code_csv)])
  = (Return tt,
     printed ["Available columns: Product Code"; "Result saved to: output/r.txt";
              "(ABC123, DEF456)"]
       (set_fs (<["output/r.txt" := File "(ABC123, DEF456)"]>
                  (<["output" := Dir]> (fs (world_of [] [("test.csv", product_code_csv)]))))
          (world_of [] [("test.csv", product_code_csv)]))).
Proof. vm_compute. reflexivity. Qed.

Example main_update_script_table :
  (main Excel.reader ["csv_to_mysql.py"; "test.csv"; "update_script"]
     (world_of [] [("test.csv", users_csv)])).2.(stdout)
  = [lines ["Update update_script set name = 'may', age = 10 where id = 1;";
            "Update update_script set name = 'Allen', age = 15 where id = 2;"]].
Proof. vm_compute. reflexivity. Qed.

Example main_flag_only :
  main Excel.reader ["csv_to_mysql.py"; "test.csv"; "--no-quotes"]
    (world_of [] [("test.csv", users_csv)])
  = (Raise (Exn IndexError "list index out of range"), world_of [] [("test.csv", users_csv)]).
Proof. vm_compute. reflexivity. Qed.

(** The tests of [tests/test_deduplicate_csv.py], and the example of the
    docstring, whose call without a directory ends in [os.makedirs('')]. *)

Example test_basic_deduplication :
  Pandas.drop_duplicates
    (Pandas.mkDataFrame ["STORE_SKU_ID"; "PRODUCT_CAT_CODE"; "ONLINE_STATUS"]
       [["C0001"; "AA123"; "ONLINE"]; ["C0001"; "AA123"; "ONLINE"];
        ["C0002"; "BB456"; "ONLINE"]; ["C0002"; "BB456"; "ONLINE"]])
  = Pandas.mkDataFrame ["STORE_SKU_ID"; "PRODUCT_CAT_CODE"; "ONLINE_STATUS"]
      [["C0001"; "AA123"; "ONLINE"]; ["C0002"; "BB456"; "ONLINE"]].
Proof. vm_compute. reflexivity. Qed.

Example test_empty_file :
  (deduplicate_csv Excel.read_frame Excel.write_frame "test.csv" (Some "output")
     (world_of [] [("test.csv", "STORE_SKU_ID,PRODUCT_CAT_CODE,ONLINE_STATUS")])).2.(fs)
  !! "output/test_deduplicated_20230101_123456.csv"
  = Some (File (lines ["STORE_SKU_ID,PRODUCT_CAT_CODE,ONLINE_STATUS"; ""])).
Proof. vm_compute. reflexivity. Qed.

Example test_output_directory_creation :
  (deduplicate_csv Excel.read_frame Excel.write_frame "test.csv" (Some "new_output")
     (world_of [] [("test.csv", skus_csv)])).2.(fs) !! "new_output"
  = Some Dir.
Proof. vm_compute. reflexivity. Qed.

Example deduplicate_summary :
  (deduplicate_csv Excel.read_frame Excel.write_frame "test.csv" (Some "output")
     (world_of [] [("test.csv", skus_csv)])).2.(stdout)
  = ["Processing complete:"; "Total rows: 4"; "Unique rows: 2"; "Duplicates removed: 2";
     "Output saved to: output/test_deduplicated_20230101_123456.csv"].
Proof. vm_compute. reflexivity. Qed.

Example docstring_call_without_directory :
  deduplicate_csv Excel.read_frame Excel.write_frame "source.csv" None
    (world_of [] [("source.csv", lines ["ID"; "1"; "2"; "2"; "3"])])
  = (Raise (Os.ENOENT ""), world_of [] [("source.csv", lines ["ID"; "1"; "2"; "2"; "3"])]).
Proof. vm_compute. reflexivity. Qed.
